(** * Valta P&L analytics: a shallow embedding of the core pipeline

    The development follows the Python sources under
    [backend/app/services]:

    - [pl_parser.py]            ([PLParser]: numeric normalisation),
    - [account_mapper.py]       ([AccountMapper]: taxonomy resolution),
    - [startup_metrics.py]      ([StartupMetricsCalculator]),
    - [waterfall_calculator.py] ([WaterfallCalculator]).

    Conventions of the embedding.

    - A Python/NumPy float that holds a finite number is a rational [Q];
      arithmetic is exact, so binary rounding error is abstracted away.
      Where a result can leave the range of a double ([float(str)], the
      percentage of a bridge) it is a [Py.float], infinite on overflow.
      A nullable cell of a pandas column is an [option Q] ([None] is NaN).
    - A Python [dict] is an insertion-ordered association list ([Py.dict]):
      the metric engine relies on the order of [dict.values()].
    - A raised exception is the [Err] outcome of the [result] type; the
      exception classes are the ones the sources raise.
    - A [str] cell is held as its UTF-8 bytes; where the source works on
      its characters, they are the code points read off these bytes.
    - A pandas DataFrame is the list of its rows, in positional order; each
      row carries the columns the modelled function reads. *)

From Stdlib Require Import List String Ascii Bool Arith ZArith QArith Qabs Qround.
From Stdlib Require Import Lia Lqa Permutation Sorted OrderedTypeEx DecimalString.
Import ListNotations.

Local Open Scope string_scope.
Local Open Scope list_scope.
Local Open Scope Q_scope.

(** ** Python primitives *)

Module Py.

(** Exceptions raised by the modelled sources. [ZeroDivisionError] also
    stands for the inf/NaN outcome of a NumPy division by zero. *)
Inductive exc : Type :=
| ValueError (msg : string)
| KeyError (key : string)
| TypeError (msg : string)
| OverflowError (msg : string)
| ZeroDivisionError.

Definition exc_class (e : exc) : string :=
  match e with
  | ValueError _ => "ValueError"
  | KeyError _ => "KeyError"
  | TypeError _ => "TypeError"
  | OverflowError _ => "OverflowError"
  | ZeroDivisionError => "ZeroDivisionError"
  end.

Inductive result (A : Type) : Type :=
| Ok (a : A)
| Err (e : exc).
Arguments Ok {A} a.
Arguments Err {A} e.

Definition bind {A B : Type} (m : result A) (k : A -> result B) : result B :=
  match m with
  | Ok a => k a
  | Err e => Err e
  end.

Fixpoint mapM {A B : Type} (f : A -> result B) (l : list A) : result (list B) :=
  match l with
  | [] => Ok []
  | x :: t => bind (f x) (fun y => bind (mapM f t) (fun ys => Ok (y :: ys)))
  end.

(** A float as Python sees it: a finite number, a signed infinity, or NaN. *)
Inductive float : Type :=
| Finite (q : Q)
| Infinity (negative : bool)
| NaN.

(** *** Comparisons on finite floats *)

Definition eqb (a b : Q) : bool := Qeq_bool a b.
Definition leb (a b : Q) : bool := Qle_bool a b.
Definition ltb (a b : Q) : bool := negb (Qle_bool b a).
Definition gtb (a b : Q) : bool := ltb b a.
Definition geb (a b : Q) : bool := leb b a.

(** Comparison of a float with a finite constant: NaN compares false. *)
Definition float_ltb (x : float) (c : Q) : bool :=
  match x with
  | Finite q => ltb q c
  | Infinity negative => negative
  | NaN => false
  end.

Definition float_geb (x : float) (c : Q) : bool :=
  match x with
  | Finite q => geb q c
  | Infinity negative => negb negative
  | NaN => false
  end.

(** Truth value of a float: zero is false. *)
Definition float_truthy (x : float) : bool :=
  match x with
  | Finite q => negb (eqb q 0)
  | _ => true
  end.

(** [a / b]: Python raises on a zero divisor. *)
Definition div (a b : Q) : result Q :=
  if eqb b 0 then Err ZeroDivisionError else Ok (a / b).

(** [sum(xs)] and [np.mean(xs)], accumulated left to right. *)
Definition sum (xs : list Q) : Q := fold_left Qplus xs 0.
Definition mean (xs : list Q) : Q := sum xs / inject_Z (Z.of_nat (List.length xs)).

(** [round(x, ndigits)]: to the nearest multiple of [10^-ndigits], ties to
    the even one. *)
Definition round_half_even (y : Q) : Z :=
  let n := Qfloor y in
  let frac := y - inject_Z n in
  if ltb frac (1 # 2) then n
  else if ltb (1 # 2) frac then (n + 1)%Z
  else if Z.even n then n else (n + 1)%Z.

Definition round (x : Q) (ndigits : nat) : Q :=
  let s := (10 ^ Z.of_nat ndigits)%Z in
  Qmake (round_half_even (x * inject_Z s)) (Z.to_pos s).

(** [int(x)]: truncation toward zero. *)
Definition int (x : Q) : Z := Z.quot (Qnum x) (Zpos (Qden x)).

(** [str(n)] of an integer. *)
Definition str_int (n : Z) : string := NilZero.string_of_int (Z.to_int n).

(** *** The range of a double

    Arithmetic on finite floats is exact in this development. Where a result
    can leave the range of a double, the float obtained for the exact value
    [q] is [of_exact q]: a magnitude that rounds to [2^1024] or beyond is an
    infinity (the largest finite double is [2^1024 - 2^971], and rounding is
    to nearest), and one of at most [2^-1075], half the smallest positive
    double, is zero. *)
Definition OVERFLOW : Q := inject_Z (2 ^ 1024 - 2 ^ 970).

Definition UNDERFLOW : Q := Qmake 1 (2 ^ 1075).

Definition of_exact (q : Q) : float :=
  if leb OVERFLOW (Qabs q) then Infinity (ltb q 0)
  else if leb (Qabs q) UNDERFLOW then Finite 0
  else Finite q.

(** [x * c] for a finite [c]. *)
Definition float_mul (x : float) (c : Q) : float :=
  match x with
  | Finite q => of_exact (q * c)
  | Infinity negative =>
      if eqb c 0 then NaN else Infinity (xorb negative (ltb c 0))
  | NaN => NaN
  end.

(** [round(x, ndigits)] on a float: infinities and NaN are kept. *)
Definition float_round (x : float) (ndigits : nat) : float :=
  match x with
  | Finite q => Finite (round q ndigits)
  | _ => x
  end.

(** *** Strings *)

(** [s.lower()] on ASCII letters. *)
Definition lower_ascii (c : ascii) : ascii :=
  let n := nat_of_ascii c in
  if andb (65 <=? n)%nat (n <=? 90)%nat then ascii_of_nat (n + 32) else c.

Fixpoint lower (s : string) : string :=
  match s with
  | EmptyString => EmptyString
  | String c t => String (lower_ascii c) (lower t)
  end.

(** [kw in s]: substring test. *)
Fixpoint contains (s kw : string) : bool :=
  if String.prefix kw s then true
  else match s with
       | EmptyString => false
       | String _ t => contains t kw
       end.

(** [any(kw in s for kw in kws)]. *)
Definition any_in (kws : list string) (s : string) : bool :=
  existsb (contains s) kws.

(** *** Insertion-ordered dictionaries *)

Definition dict (V : Type) : Type := list (string * V).

Fixpoint get {V : Type} (d : dict V) (k : string) : option V :=
  match d with
  | [] => None
  | (k', v) :: t => if String.eqb k k' then Some v else get t k
  end.

(** [d[k] = v]: an existing key keeps its position. *)
Fixpoint set {V : Type} (d : dict V) (k : string) (v : V) : dict V :=
  match d with
  | [] => [(k, v)]
  | (k', v') :: t => if String.eqb k k' then (k', v) :: t else (k', v') :: set t k v
  end.

Definition keys {V : Type} (d : dict V) : list string := map fst d.
Definition values {V : Type} (d : dict V) : list V := map snd d.

(** [dict(zip(ks, vs))]. *)
Definition dict_zip {V : Type} (ks : list string) (vs : list V) : dict V :=
  fold_left (fun d kv => set d (fst kv) (snd kv)) (combine ks vs) [].

(** [d.update(e)]. *)
Definition update {V : Type} (d e : dict V) : dict V :=
  fold_left (fun acc kv => set acc (fst kv) (snd kv)) e d.

(** *** Sorting *)

(** Stable insertion sort; [before x y] says that [x] must come strictly
    before [y]. Equal elements keep their input order, as in [sorted]. *)
Section Sorting.
Context {A : Type} (before : A -> A -> bool).

Fixpoint insert (x : A) (l : list A) : list A :=
  match l with
  | [] => [x]
  | y :: t => if before y x then y :: insert x t else x :: y :: t
  end.

Definition sort (l : list A) : list A := fold_right insert [] l.
End Sorting.

(** [sorted(xs)] on strings. *)
Definition sorted_str (xs : list string) : list string :=
  sort String.ltb xs.

(** [sorted(xs, key=key, reverse=True)]. *)
Definition sorted_desc {A : Type} (key : A -> Q) (xs : list A) : list A :=
  sort (fun y x => gtb (key y) (key x)) xs.

(** [xs[-1]]. *)
Definition last_or {A : Type} (xs : list A) (d : A) : A := List.last xs d.

(** [xs[-n:]]. *)
Definition take_last {A : Type} (n : nat) (xs : list A) : list A :=
  skipn (List.length xs - n) xs.

(** [xs[:-n]]. *)
Definition drop_last {A : Type} (n : nat) (xs : list A) : list A :=
  firstn (List.length xs - n) xs.

(** [s.endswith(suffix)]. *)
Definition endswith (s suffix : string) : bool :=
  let n := String.length s in
  let k := String.length suffix in
  andb (k <=? n)%nat (String.eqb (String.substring (n - k) k s) suffix).

(** [str(e)] for a raised exception; a [KeyError] shows the repr of its key. *)
Definition exc_str (e : exc) : string :=
  match e with
  | ValueError msg => msg
  | KeyError key => ("'" ++ key ++ "'")%string
  | TypeError msg => msg
  | OverflowError msg => msg
  | ZeroDivisionError => "float division by zero"
  end.

End Py.

(** ** pl_parser.py: numeric normalisation *)

Module PLParser.

(** A raw cell of a value column: empty, already numeric (an [int] or
    [float] that holds a finite number within the range of a double), or
    text. Text is held as its UTF-8 bytes. *)
Inductive cell : Type :=
| CNull
| CNum (q : Q)
| CStr (s : string).

(** *** Text as code points

    A [str] is a sequence of code points; [decode] reads them off the
    UTF-8 bytes of a cell. A malformed sequence, which the encoding of a
    [str] never holds, reads as U+FFFD. *)

Definition REPLACEMENT : N := 65533.

Definition is_continuation (n : N) : bool := andb (128 <=? n)%N (n <? 192)%N.

(** For the first byte [n] of a character: the number of continuation
    bytes that follow and the bits [n] contributes. *)
Definition lead (n : N) : nat * N :=
  if (n <? 128)%N then (0%nat, n)
  else if (n <? 192)%N then (0%nat, REPLACEMENT)
  else if (n <? 224)%N then (1%nat, (n - 192)%N)
  else if (n <? 240)%N then (2%nat, (n - 224)%N)
  else (3%nat, (n - 240)%N).

Fixpoint decode_go (pending : nat) (code : N) (s : string) : list N :=
  match s with
  | EmptyString => match pending with O => [] | S _ => [REPLACEMENT] end
  | String c t =>
      let n := N_of_ascii c in
      match pending with
      | O =>
          match lead n with
          | (O, code0) => code0 :: decode_go 0 0 t
          | (S k, code0) => decode_go (S k) code0 t
          end
      | S k =>
          if is_continuation n then
            let code' := (code * 64 + (n - 128))%N in
            match k with
            | O => code' :: decode_go 0 0 t
            | S _ => decode_go k code' t
            end
          else REPLACEMENT :: decode_go 0 0 t
      end
  end.

Definition decode (s : string) : list N := decode_go 0 0 s.

(** The character class of the pattern in [re.sub]: dollar, euro, pound,
    yen, comma and [\s]. On a [str] pattern [\s] is Unicode white space:
    the characters for which [str.isspace] holds. *)
Definition currency_symbols : list N := [ 36; 8364; 163; 165 ]%N.

Definition thousands_separators : list N := [ 44%N ].

Definition whitespace : list N :=
  [ 9; 10; 11; 12; 13; 28; 29; 30; 31; 32; 133; 160; 5760;
    8192; 8193; 8194; 8195; 8196; 8197; 8198; 8199; 8200; 8201; 8202;
    8232; 8233; 8239; 8287; 12288 ]%N.

Definition stripped_class : list N :=
  currency_symbols ++ thousands_separators ++ whitespace.

Definition in_class (ch : N) : bool := existsb (N.eqb ch) stripped_class.

(** [re.sub(pattern, '', s)] for that class. *)
Definition re_sub_class (s : list N) : list N :=
  filter (fun ch => negb (in_class ch)) s.

(** [c in s] and [s.replace(c, '')] for a one-character [c]. *)
Definition has_char (c : N) (s : list N) : bool := existsb (N.eqb c) s.

Definition remove_char (c : N) (s : list N) : list N :=
  filter (fun ch => negb (N.eqb c ch)) s.

(** The parenthesis rule of [clean_value]. *)
Definition accounting_negative (s : list N) : list N :=
  if andb (has_char 40 s) (has_char 41 s) then
    45%N :: remove_char 41 (remove_char 40 s)
  else s.

(** *** The builtin [float(str)]

    The text is first brought to ASCII: white space becomes a blank and a
    decimal digit of any script its ASCII digit. Blanks at both ends are
    dropped, and what is left has to be, as a whole,
    [sign? (digitpart ('.' digitpart?)? | '.' digitpart) exponent?] or one
    of the words [inf], [infinity], [nan] in any case; a digitpart admits
    single underscores between digits. The numeral is rounded to a double:
    beyond the largest double it is an infinity, below half the smallest
    one it is zero. *)

Definition is_digit (c : ascii) : bool :=
  let n := nat_of_ascii c in andb (48 <=? n)%nat (n <=? 57)%nat.

Definition digit_val (c : ascii) : Z := Z.of_nat (nat_of_ascii c - 48).

Fixpoint digitpart_tail (s : string) : list Z * string :=
  match s with
  | EmptyString => ([], s)
  | String c t =>
      if is_digit c then
        let (ds, r) := digitpart_tail t in (digit_val c :: ds, r)
      else if Ascii.eqb c "_" then
        match t with
        | String d t' =>
            if is_digit d then
              let (ds, r) := digitpart_tail t' in (digit_val d :: ds, r)
            else ([], s)
        | EmptyString => ([], s)
        end
      else ([], s)
  end.

Definition digitpart (s : string) : option (list Z * string) :=
  match s with
  | String c t =>
      if is_digit c then
        let (ds, r) := digitpart_tail t in Some (digit_val c :: ds, r)
      else None
  | EmptyString => None
  end.

Definition digits_value (ds : list Z) : Z :=
  fold_left (fun acc d => (acc * 10 + d)%Z) ds 0%Z.

Definition sign (s : string) : bool * string :=
  match s with
  | String c t =>
      if Ascii.eqb c "-" then (true, t)
      else if Ascii.eqb c "+" then (false, t)
      else (false, s)
  | EmptyString => (false, s)
  end.

(** Mantissa digits, number of fraction digits, rest of the input. *)
Definition mantissa (s : string) : option (list Z * nat * string) :=
  match digitpart s with
  | Some (ds, r) =>
      match r with
      | String c r1 =>
          if Ascii.eqb c "." then
            match digitpart r1 with
            | Some (fs, r') => Some (ds ++ fs, List.length fs, r')
            | None => Some (ds, O, r1)
            end
          else Some (ds, O, r)
      | EmptyString => Some (ds, O, r)
      end
  | None =>
      match s with
      | String c r1 =>
          if Ascii.eqb c "." then
            match digitpart r1 with
            | Some (fs, r') => Some (fs, List.length fs, r')
            | None => None
            end
          else None
      | EmptyString => None
      end
  end.

(** Decimal exponent, present only when an [e] or [E] follows. *)
Definition exponent (s : string) : option Z :=
  match s with
  | EmptyString => Some 0%Z
  | String c t =>
      if orb (Ascii.eqb c "e") (Ascii.eqb c "E") then
        let (neg, u) := sign t in
        match digitpart u with
        | Some (ds, EmptyString) =>
            Some (if neg then (- digits_value ds)%Z else digits_value ds)
        | _ => None
        end
      else None
  end.

Definition scale (m : Z) (k : Z) : Q :=
  if (0 <=? k)%Z then inject_Z (m * 10 ^ k) else Qmake m (Z.to_pos (10 ^ (- k))).

Definition unsigned_float (s : string) : option Py.float :=
  let w := Py.lower s in
  if orb (String.eqb w "inf") (String.eqb w "infinity") then Some (Py.Infinity false)
  else if String.eqb w "nan" then Some Py.NaN
  else
    match mantissa s with
    | Some (ds, nfrac, r) =>
        match exponent r with
        | Some e => Some (Py.of_exact (scale (digits_value ds) (e - Z.of_nat nfrac)))
        | None => None
        end
    | None => None
    end.

Definition negate (x : Py.float) : Py.float :=
  match x with
  | Py.Finite q => Py.Finite (- q)
  | Py.Infinity n => Py.Infinity (negb n)
  | Py.NaN => Py.NaN
  end.

(** The conversion of an ASCII numeral, all of which has to be consumed;
    [None] is [ValueError]. *)
Definition string_to_double (s : string) : option Py.float :=
  let (neg, u) := sign s in
  option_map (fun x => if neg then negate x else x) (unsigned_float u).

(** The blanks of the C locale. *)
Definition Py_ISSPACE (c : ascii) : bool :=
  existsb (N.eqb (N_of_ascii c)) [ 9; 10; 11; 12; 13; 32 ]%N.

Fixpoint lstrip (s : string) : string :=
  match s with
  | EmptyString => EmptyString
  | String c t => if Py_ISSPACE c then lstrip t else s
  end.

Fixpoint rstrip (s : string) : string :=
  match s with
  | EmptyString => EmptyString
  | String c t =>
      match rstrip t with
      | EmptyString => if Py_ISSPACE c then EmptyString else String c EmptyString
      | t' => String c t'
      end
  end.

Section Float.
(** The decimal digit value of a code point in the Unicode database, -1
    when it has none. *)
Variable todecimal : N -> Z.

(** Characters from 127 on: a blank for white space, the ASCII digit for
    a decimal digit; the text ends in a question mark at the first
    character that is neither. *)
Fixpoint transform (s : list N) : string :=
  match s with
  | [] => EmptyString
  | ch :: t =>
      if (ch <? 127)%N then String (ascii_of_N ch) (transform t)
      else if existsb (N.eqb ch) whitespace then String " " (transform t)
      else
        let decimal := todecimal ch in
        if (decimal <? 0)%Z then "?"
        else String (ascii_of_N (48 + Z.to_N decimal)) (transform t)
  end.

(** A text of ASCII characters only is taken as it is. *)
Definition to_ascii (s : list N) : string :=
  if forallb (fun ch => (ch <? 128)%N) s
  then string_of_list_ascii (map ascii_of_N s)
  else transform s.

(** [float(s)]; [None] is [ValueError]. *)
Definition py_float (s : list N) : option Py.float :=
  string_to_double (rstrip (lstrip (to_ascii s))).

(** [clean_value] of [_clean_numeric_column]; the result [None] is
    Python's [None], returned for a null cell and in the handler of
    [ValueError]. *)
Definition clean_value (val : cell) : option Py.float :=
  match val with
  | CNull => None
  | CNum q => Some (Py.Finite q)
  | CStr s =>
      let val_str := re_sub_class (decode s) in
      match py_float (accounting_negative val_str) with
      | Some x => Some x
      | None => None
      end
  end.

Definition _clean_numeric_column (col : list cell) : list (option Py.float) :=
  map clean_value col.
End Float.

(** *** Header detection *)

Definition header_keywords : list string :=
  [ "account"; "description"; "date"; "amount";
    "debit"; "credit"; "balance"; "revenue"; "expense";
    "jan"; "feb"; "mar"; "apr"; "may"; "jun";
    "jul"; "aug"; "sep"; "oct"; "nov"; "dec" ].

(** [isinstance(val, str)] and [pd.notna(val)]. *)
Definition is_str (val : cell) : bool :=
  match val with CStr _ => true | _ => false end.

Definition notna (val : cell) : bool :=
  match val with CNull => false | _ => true end.

Section HeaderRow.
(** [str(val)] of a numeric cell. *)
Variable str_num : Q -> string.

Definition cell_str (val : cell) : string :=
  match val with
  | CNull => "nan"
  | CNum q => str_num q
  | CStr s => s
  end.

Definition text_count (row : list cell) : nat :=
  List.length (filter is_str row).

Definition keyword_matches (row : list cell) : nat :=
  List.length
    (filter (fun val => Py.any_in header_keywords (Py.lower (cell_str val)))
            (filter notna row)).

(** [(text_count * 0.5) + (keyword_matches * 2)]. *)
Definition row_score (row : list cell) : Q :=
  inject_Z (Z.of_nat (text_count row)) * (1 # 2)
  + inject_Z (Z.of_nat (keyword_matches row)) * 2.

(** The loop over [self.df.head(15).iterrows()]: [idx] is the index label
    of the next row, [best] the pair [(best_row, best_score)]. *)
Fixpoint scan (idx : nat) (rows : list (list cell)) (best : nat * Q) : nat * Q :=
  match rows with
  | [] => best
  | row :: t =>
      let score := row_score row in
      scan (S idx) t (if Py.gtb score (snd best) then (idx, score) else best)
  end.

(** [_detect_header_row] on the frame read without a header, whose index
    labels are the row positions. *)
Definition _detect_header_row (df : list (list cell)) : nat :=
  fst (scan 0 (firstn 15 df) (0%nat, 0)).
End HeaderRow.

(** *** Subtotal rows *)

Definition SUBTOTAL_KEYWORDS : list string :=
  [ "total"; "subtotal"; "sum"; "gross profit"; "operating income";
    "ebitda"; "ebit"; "net income"; "net profit"; "net loss";
    "operating profit"; "profit before tax"; "earnings" ].

(** [str(row[account_col])]: a null cell prints as "nan". *)
Definition account_name (account : option string) : string :=
  match account with Some s => s | None => "nan" end.

(** The keyword test on a lower-cased account name. *)
Definition subtotal_name (account_lower : string) : bool :=
  Py.any_in SUBTOTAL_KEYWORDS account_lower.

Section SubtotalRows.
(** The rows of [self.df] and their account cell. The index labels are
    the row positions: the frame was re-indexed when it was cleaned. *)
Context {A : Type} (account_of : A -> option string).

(** The loop of [_detect_subtotal_rows]; [idx] is the label of the next
    row. *)
Fixpoint detect_from (idx : nat) (df : list A) : list nat :=
  match df with
  | [] => []
  | row :: t =>
      if subtotal_name (Py.lower (account_name (account_of row)))
      then idx :: detect_from (S idx) t
      else detect_from (S idx) t
  end.

Definition _detect_subtotal_rows (df : list A) : list nat := detect_from 0 df.

(** [self.df.index.isin(labels)] for one label. *)
Definition index_isin (labels : list nat) (i : nat) : bool :=
  existsb (Nat.eqb i) labels.

(** Step 9 of [parse_file]: the pair [(line_items, subtotals)]. *)
Definition split_rows (df : list A) : list A * list A :=
  let subtotal_rows := _detect_subtotal_rows df in
  let labelled := combine (seq 0 (List.length df)) df in
  (map snd (filter (fun ir => negb (index_isin subtotal_rows (fst ir))) labelled),
   map snd (filter (fun ir => index_isin subtotal_rows (fst ir)) labelled)).
End SubtotalRows.

End PLParser.

(** ** account_mapper.py: taxonomy resolution *)

Module AccountMapper.

(** The standard chart of accounts, in source order. *)
Definition STANDARD_ACCOUNTS : list (string * list string) :=
  [ ("Revenue",
     [ "Sales Revenue"; "Service Revenue"; "Product Sales"; "Consulting Revenue";
       "Subscription Revenue"; "License Revenue"; "Other Income"; "Interest Income";
       "Rental Income"; "Commission Income" ]);
    ("Cost of Goods Sold",
     [ "Cost of Sales"; "Cost of Goods Sold"; "Direct Materials"; "Direct Labor";
       "Manufacturing Costs"; "Inventory Costs"; "Shipping Costs"; "Product Costs";
       "Cost of Services" ]);
    ("Operating Expenses",
     [ "Salaries & Wages"; "Rent"; "Marketing & Advertising"; "Utilities";
       "Depreciation"; "Professional Fees"; "Insurance"; "Office Supplies";
       "Travel & Entertainment"; "Software & Technology"; "Repairs & Maintenance";
       "Payroll Taxes"; "Employee Benefits"; "Training & Development";
       "Research & Development"; "Legal Fees"; "Accounting Fees"; "Consulting Fees";
       "Telecommunications"; "Postage & Delivery" ]);
    ("Financial Items",
     [ "Interest Expense"; "Bank Charges"; "Foreign Exchange Gain";
       "Foreign Exchange Loss"; "Investment Income"; "Dividend Income" ]);
    ("Non-Operating Items",
     [ "Gain on Sale of Assets"; "Loss on Sale of Assets"; "Impairment Loss";
       "Extraordinary Gains"; "Extraordinary Losses"; "Other Non-Operating Income";
       "Other Non-Operating Expense" ]);
    ("Tax",
     [ "Income Tax Expense"; "Tax Provision"; "Deferred Tax"; "State Tax";
       "Federal Tax" ]) ].

(** A string-valued field that may hold Python's [None] (JSON [null]). *)
Inductive str_or_none : Type :=
| PyNone
| PyStr (s : string).

(** One entry of the mapping built by [categorize_accounts]. *)
Record Mapping : Type := {
  category : str_or_none;
  subcategory : str_or_none;
  is_subtotal : bool;
  confidence : Q;
  method : string
}.

(** One value of the JSON object answered by the external model; an absent
    key is [None]. *)
Record AiEntry : Type := {
  ai_category : option str_or_none;
  ai_subcategory : option str_or_none;
  ai_is_subtotal : option bool;
  ai_confidence : option Q
}.

Definition dflt {A : Type} (o : option A) (d : A) : A :=
  match o with Some a => a | None => d end.

(** The conversion loop shared by [_claude_categorize] and
    [_openai_categorize]. *)
Definition convert_entry (data : AiEntry) : Mapping :=
  {| category := dflt (ai_category data) (PyStr "Unknown");
     subcategory := dflt (ai_subcategory data) (PyStr EmptyString);
     is_subtotal := dflt (ai_is_subtotal data) false;
     confidence := dflt (ai_confidence data) (9 # 10);
     method := "ai" |}.

Definition _ai_categorize (ai_mapping : Py.dict AiEntry) : Py.dict Mapping :=
  fold_left (fun results kv => Py.set results (fst kv) (convert_entry (snd kv)))
            ai_mapping [].

Section Fuzzy.
(** [rapidfuzz.fuzz.token_sort_ratio], a score between 0 and 100. *)
Variable token_sort_ratio : string -> string -> Q.

Definition all_matches (account_name : string) : list (string * string * Q) :=
  flat_map
    (fun entry =>
       map (fun std_account =>
              (fst entry, std_account,
               token_sort_ratio (Py.lower account_name) (Py.lower std_account)))
           (snd entry))
    STANDARD_ACCOUNTS.

(** [max(xs, key=key)]: the first maximal element. *)
Fixpoint max_from {A : Type} (key : A -> Q) (best : A) (xs : list A) : A :=
  match xs with
  | [] => best
  | x :: t => max_from key (if Py.gtb (key x) (key best) then x else best) t
  end.

Definition best_match (account_name : string) : string * string * Q :=
  let ms := all_matches account_name in
  max_from snd (hd ("Uncategorized", EmptyString, 0) ms) (tl ms).

Definition _fuzzy_match (account_name : string) (threshold : Q) : Mapping :=
  let '(cat, sub, score) := best_match account_name in
  let conf := score / 100 in
  if Py.geb score threshold then
    {| category := PyStr cat; subcategory := PyStr sub; is_subtotal := false;
       confidence := conf; method := "fuzzy" |}
  else
    {| category := PyStr "Uncategorized"; subcategory := PyStr EmptyString;
       is_subtotal := false; confidence := conf; method := "fuzzy" |}.

(** One iteration of the fill-in loop of [categorize_accounts]. *)
Definition fill_in (results : Py.dict Mapping) (account_name : string)
  : Py.dict Mapping :=
  match Py.get results account_name with
  | None => Py.set results account_name (_fuzzy_match account_name 70)
  | Some r =>
      if Py.ltb (confidence r) (7 # 10) then
        let fuzzy_result := _fuzzy_match account_name 70 in
        if Py.gtb (confidence fuzzy_result) (confidence r)
        then Py.set results account_name fuzzy_result
        else results
      else results
  end.

(** [categorize_accounts]. [ai] is the parsed answer of the external
    model; [None] when there is no client or the call raised. *)
Definition categorize_accounts (ai : option (Py.dict AiEntry))
           (account_names : list string) : Py.dict Mapping :=
  let results :=
    match ai with
    | Some ai_mapping => Py.update [] (_ai_categorize ai_mapping)
    | None => []
    end in
  fold_left fill_in account_names results.

(** A row before and after [batch_categorize_dataframe]; [None] in the
    account column is a null cell. *)
Record MappedRow : Type := {
  account : option string;
  row_category : str_or_none;
  row_subcategory : str_or_none;
  is_subtotal_mapped : bool;
  mapping_confidence : Q;
  mapping_method : string;
  needs_review : bool
}.

(** [df[account_column].dropna().unique().tolist()]. *)
Fixpoint unique (seen : list string) (xs : list (option string)) : list string :=
  match xs with
  | [] => []
  | None :: t => unique seen t
  | Some x :: t =>
      if existsb (String.eqb x) seen then unique seen t
      else x :: unique (x :: seen) t
  end.

(** [mappings.get(x, {})]. *)
Definition lookup (mappings : Py.dict Mapping) (x : option string) : option Mapping :=
  match x with
  | Some name => Py.get mappings name
  | None => None
  end.

Definition apply_mapping (mappings : Py.dict Mapping) (x : option string) : MappedRow :=
  let m := lookup mappings x in
  let conf := dflt (option_map confidence m) 0 in
  {| account := x;
     row_category := dflt (option_map category m) (PyStr "Unknown");
     row_subcategory := dflt (option_map subcategory m) (PyStr EmptyString);
     is_subtotal_mapped := dflt (option_map is_subtotal m) false;
     mapping_confidence := conf;
     mapping_method := dflt (option_map method m) "none";
     needs_review := Py.ltb conf (75 # 100) |}.

Definition batch_categorize_dataframe (ai : option (Py.dict AiEntry))
           (df : list (option string)) : list MappedRow :=
  let account_names := unique [] df in
  let mappings := categorize_accounts ai account_names in
  map (apply_mapping mappings) df.
End Fuzzy.

(** The closed set the specification names. *)
Definition taxonomy : list string := map fst STANDARD_ACCOUNTS.
Definition allowed_categories : list str_or_none :=
  map PyStr (taxonomy ++ [ "Uncategorized" ]).

End AccountMapper.

(** ** Calendar arithmetic used by the runway projection *)

Module Calendar.

Record DateTime : Type := {
  year : Z; month : Z; day : Z;
  hour : Z; minute : Z; second : Z; microsecond : Z
}.

(** The date part, which is all that [strftime('%Y-%m-%d')] renders. *)
Record Date : Type := { d_year : Z; d_month : Z; d_day : Z }.

Definition date_of (dt : DateTime) : Date :=
  {| d_year := year dt; d_month := month dt; d_day := day dt |}.

Definition isleap (y : Z) : bool :=
  andb (y mod 4 =? 0)%Z (orb (negb (y mod 100 =? 0)%Z) (y mod 400 =? 0)%Z).

(** [calendar.monthrange(y, m)[1]]. *)
Definition days_in_month (y m : Z) : Z :=
  if (m =? 2)%Z then (if isleap y then 29 else 28)%Z
  else if orb (orb (m =? 4)%Z (m =? 6)%Z) (orb (m =? 9)%Z (m =? 11)%Z) then 30%Z
  else 31%Z.

Definition MINYEAR : Z := 1.
Definition MAXYEAR : Z := 9999.

(** The error of [dt.replace(year=y, ...)] for a year outside
    [MINYEAR .. MAXYEAR]: [ValueError] when the year fits a C [int],
    [OverflowError] when it does not. The messages are CPython's on a
    platform whose C [long] has 64 bits. *)
Definition year_error (y : Z) : Py.exc :=
  if andb (- 2 ^ 31 <=? y)%Z (y <? 2 ^ 31)%Z then
    Py.ValueError ("year " ++ Py.str_int y ++ " is out of range")
  else if orb (y <? - 2 ^ 63)%Z (2 ^ 63 <=? y)%Z then
    Py.OverflowError "Python int too large to convert to C long"
  else if (0 <? y)%Z then
    Py.OverflowError "signed integer is greater than maximum"
  else
    Py.OverflowError "signed integer is less than minimum".

(** [dt + relativedelta(months=k)]: the constructor folds [k] into whole
    years and a remainder of the same sign; the addition carries the month
    into the year, caps the day at the month's length and fails when the
    year leaves [MINYEAR .. MAXYEAR]. *)
Definition add_months (dt : DateTime) (k : Z) : Py.result DateTime :=
  let years := Z.quot k 12 in
  let months := Z.rem k 12 in
  let y0 := (year dt + years)%Z in
  let m0 := (month dt + months)%Z in
  let '(y, m) :=
    if (12 <? m0)%Z then ((y0 + 1)%Z, (m0 - 12)%Z)
    else if (m0 <? 1)%Z then ((y0 - 1)%Z, (m0 + 12)%Z)
    else (y0, m0) in
  let d := Z.min (days_in_month y m) (day dt) in
  if andb (MINYEAR <=? y)%Z (y <=? MAXYEAR)%Z then
    Py.Ok {| year := y; month := m; day := d;
             hour := hour dt; minute := minute dt; second := second dt;
             microsecond := microsecond dt |}
  else Py.Err (year_error y).

End Calendar.

(** ** startup_metrics.py: the metrics engine *)

Module StartupMetricsCalculator.

(** A row of the parsed statement: the account cell ([None] is a null
    cell) and the numeric cells by column name. The value columns the
    engine is given are columns of the frame, so every row holds a cell,
    possibly null, for each of them; pandas raises [KeyError] for any other
    column, a case the embedding leaves out: there [cell] reads null. *)
Record Row : Type := {
  account : option string;
  cells : Py.dict (option Q)
}.

(** [str(row[account_column])]. *)
Definition account_str (r : Row) : string :=
  match account r with Some s => s | None => "nan" end.

(** [row[column]]. *)
Definition cell (r : Row) (column : string) : option Q :=
  match Py.get (cells r) column with Some v => v | None => None end.

Definition revenue_keywords : list string :=
  [ "revenue"; "sales"; "income"; "subscription"; "recurring";
    "arr"; "mrr"; "services revenue" ].

Definition exclude_keywords : list string := [ "expense"; "cost"; "cogs" ].

Definition expense_keywords : list string :=
  [ "expense"; "cost"; "salaries"; "wages"; "payroll"; "marketing";
    "advertising"; "rent"; "software"; "consulting"; "fees";
    "depreciation"; "amortization"; "interest"; "tax"; "utilities";
    "travel"; "insurance"; "benefits"; "hosting"; "cloud"; "aws";
    "engineering"; "r&d"; "research"; "development" ].

Definition _is_revenue_account (account : string) : bool :=
  let account_lower := Py.lower account in
  let has_revenue := Py.any_in revenue_keywords account_lower in
  let has_exclude := Py.any_in exclude_keywords account_lower in
  andb has_revenue (negb has_exclude).

Definition _is_expense_account (account : string) : bool :=
  let account_lower := Py.lower account in
  Py.any_in expense_keywords account_lower.

Record Aggregates : Type := {
  revenue_by_period : Py.dict Q;
  expenses_by_period : Py.dict Q;
  net_income_by_period : Py.dict Q;
  periods : list string
}.

Record BurnMetrics : Type := {
  gross_burn_by_period : Py.dict Q;
  gross_burn_avg : Q;
  gross_burn_latest : Q;
  net_burn_by_period : Py.dict Q;
  net_burn_avg : Q;
  net_burn_latest : Q;
  burn_rate_trend : Q;
  burn_rate_trend_direction : string
}.

Record RunwayMetrics : Type := {
  months_remaining : Py.float;
  zero_cash_date : option Calendar.Date;
  status : string;
  urgency : string;
  cash_balance : Q
}.

Record GrowthMetrics : Type := {
  mom_growth_by_period : Py.dict Q;
  mom_growth_avg : Q;
  mom_growth_latest : Q;
  overall_growth : Q;
  cmgr : Q;
  growth_trend : string
}.

Record ExpenseEntry : Type := {
  e_account : string;
  latest_amount : Q;
  previous_amount : Q;
  change_dollar : Q;
  change_percent : Q
}.

Record Drivers : Type := {
  top_expenses : list ExpenseEntry;
  fastest_growing : list ExpenseEntry;
  largest_increases : list ExpenseEntry
}.

(** [burn_multiple]: the key may be absent, hold [None], or hold a number. *)
Record Efficiency : Type := {
  burn_multiple : option (option Q);
  revenue_per_dollar_spent : Q;
  efficiency_rating : string
}.

Record Insight : Type := {
  i_type : string;
  i_category : string;
  i_message : string;
  i_priority : string
}.

Record Metrics : Type := {
  m_aggregates : option Aggregates;
  m_burn_rate : option BurnMetrics;
  m_runway : option RunwayMetrics;
  m_growth : option GrowthMetrics;
  m_expense_drivers : Drivers;
  m_efficiency : option Efficiency;
  m_insights : list Insight
}.

Section Calculator.
(** [self.df] and [self.value_columns]. *)
Variable df : list Row.
Variable value_columns : list string.

(** The builtin float operations the source uses beyond field
    arithmetic: [x ** y], the [:.1f] format and [str]. *)
Variable float_pow : Q -> Q -> Q.
Variable format_1f : Py.float -> string.
Variable str_float : Q -> string.

(** The inner loop of [_calculate_aggregates] for one period: the
    running [(revenue, expenses)] pair. *)
Definition classify_row (period : string) (acc : Q * Q) (row : Row) : Q * Q :=
  let account := Py.lower (account_str row) in
  match cell row period with
  | None => acc
  | Some value =>
      if _is_revenue_account account then (fst acc + Qabs value, snd acc)
      else if _is_expense_account account then (fst acc, snd acc + Qabs value)
      else acc
  end.

Definition period_totals (period : string) : Q * Q :=
  fold_left (classify_row period) df (0, 0).

Definition record_period (aggregates : Aggregates) (period : string) : Aggregates :=
  let '(revenue, expenses) := period_totals period in
  {| revenue_by_period := Py.set (revenue_by_period aggregates) period revenue;
     expenses_by_period := Py.set (expenses_by_period aggregates) period expenses;
     net_income_by_period :=
       Py.set (net_income_by_period aggregates) period (revenue - expenses);
     periods := periods aggregates |}.

(** [None] is the empty dict returned when there are no value columns. *)
Definition _calculate_aggregates : option Aggregates :=
  match value_columns with
  | [] => None
  | _ =>
      Some (fold_left record_period value_columns
              {| revenue_by_period := []; expenses_by_period := [];
                 net_income_by_period := [];
                 periods := Py.sorted_str value_columns |})
  end.

(** [aggregates.get(key, {})] followed by [list(... .values())]. *)
Definition values_of (f : Aggregates -> Py.dict Q) (aggregates : option Aggregates)
  : list Q :=
  match aggregates with Some a => Py.values (f a) | None => [] end.

Definition _calculate_burn_rate (aggregates : option Aggregates) : option BurnMetrics :=
  let expenses := values_of expenses_by_period aggregates in
  let revenues := values_of revenue_by_period aggregates in
  match aggregates, expenses with
  | None, _ | _, [] => None
  | Some agg, _ =>
      let net_burns := map (fun er => fst er - snd er) (combine expenses revenues) in
      let trend :=
        if (3 <=? List.length net_burns)%nat then
          let recent_avg := Py.mean (Py.take_last 3 net_burns) in
          let earlier_avg :=
            if (3 <? List.length net_burns)%nat
            then Py.mean (Py.drop_last 3 net_burns)
            else hd 0 net_burns in
          (if negb (Py.eqb earlier_avg 0)
           then ((recent_avg - earlier_avg) / Qabs earlier_avg) * 100
           else 0,
           if Py.gtb recent_avg earlier_avg then "increasing" else "decreasing")
        else (0, "stable") in
      Some {| gross_burn_by_period := expenses_by_period agg;
              gross_burn_avg := Py.mean expenses;
              gross_burn_latest := Py.last_or expenses 0;
              net_burn_by_period := Py.dict_zip (periods agg) net_burns;
              net_burn_avg := Py.mean net_burns;
              net_burn_latest := Py.last_or net_burns 0;
              burn_rate_trend := fst trend;
              burn_rate_trend_direction := snd trend |}
  end.

(** [_calculate_runway]; [today] is the reading of [datetime.now()]. *)
Definition _calculate_runway (today : Calendar.DateTime)
           (cash : Q) (avg_net_burn : Q) : Py.result RunwayMetrics :=
  if Py.leb avg_net_burn 0 then
    Py.Ok {| months_remaining := Py.Infinity false;
             zero_cash_date := None;
             status := "profitable";
             urgency := "none";
             cash_balance := cash |}
  else
    let months := cash / avg_net_burn in
    Py.bind (Calendar.add_months today (Py.int months)) (fun zero_date =>
      let band :=
        if Py.ltb months 6 then ("critical", "high")
        else if Py.ltb months 12 then ("concerning", "medium")
        else if Py.ltb months 18 then ("comfortable", "low")
        else ("strong", "none") in
      Py.Ok {| months_remaining := Py.Finite (Py.round months 1);
               zero_cash_date := Some (Calendar.date_of zero_date);
               status := fst band;
               urgency := snd band;
               cash_balance := cash |}).

(** Month-over-month growth of consecutive revenues. *)
Definition mom_step (prev_cur : Q * Q) : Q :=
  let (prev, cur) := prev_cur in
  if negb (Py.eqb prev 0) then ((cur - prev) / Qabs prev) * 100 else 0.

Definition _calculate_growth_metrics (aggregates : option Aggregates)
  : option GrowthMetrics :=
  let revenues := values_of revenue_by_period aggregates in
  let periods := match aggregates with Some a => periods a | None => [] end in
  if (List.length revenues <? 2)%nat then None
  else
    let mom_growth := map mom_step (combine revenues (tl revenues)) in
    let first := hd 0 revenues in
    let latest := Py.last_or revenues 0 in
    let avg := Py.mean mom_growth in
    Some {| mom_growth_by_period := Py.dict_zip (tl periods) mom_growth;
            mom_growth_avg := avg;
            mom_growth_latest := Py.last_or mom_growth 0;
            overall_growth :=
              if negb (Py.eqb first 0)
              then ((latest - first) / Qabs first) * 100 else 0;
            cmgr :=
              if andb (3 <=? List.length revenues)%nat (Py.gtb first 0) then
                let n_periods := (List.length revenues - 1)%nat in
                (float_pow (latest / first) (1 / inject_Z (Z.of_nat n_periods)) - 1) * 100
              else 0;
            growth_trend :=
              if (3 <=? List.length mom_growth)%nat then
                if Py.gtb (Py.mean (Py.take_last 3 mom_growth)) avg
                then "accelerating" else "decelerating"
              else "stable" |}.

(** The entry that [_identify_expense_drivers] appends for one row. *)
Definition expense_entry (latest_period prev_period : string) (row : Row)
  : ExpenseEntry :=
  let latest_val := match cell row latest_period with Some v => v | None => 0 end in
  let prev_val := match cell row prev_period with Some v => v | None => 0 end in
  let latest_val := Qabs latest_val in
  let prev_val := Qabs prev_val in
  let change := latest_val - prev_val in
  {| e_account := account_str row;
     latest_amount := latest_val;
     previous_amount := prev_val;
     change_dollar := change;
     change_percent :=
       if negb (Py.eqb prev_val 0) then (change / prev_val) * 100 else 0 |}.

Definition expense_data (latest_period prev_period : string) : list ExpenseEntry :=
  map (expense_entry latest_period prev_period)
      (filter (fun row => _is_expense_account (Py.lower (account_str row))) df).

Definition _identify_expense_drivers : Drivers :=
  match rev value_columns with
  | latest_period :: prev_period :: _ =>
      let data := expense_data latest_period prev_period in
      {| top_expenses := firstn 5 (Py.sorted_desc latest_amount data);
         fastest_growing :=
           firstn 5 (Py.sorted_desc change_percent
                       (filter (fun e => Py.gtb (change_percent e) 5) data));
         largest_increases :=
           firstn 5 (Py.sorted_desc change_dollar
                       (filter (fun e => Py.gtb (change_dollar e) 0) data)) |}
  | _ => {| top_expenses := []; fastest_growing := []; largest_increases := [] |}
  end.

Definition _calculate_cash_efficiency (aggregates : option Aggregates)
           (burn : option BurnMetrics) : Efficiency :=
  let latest_revenue := Py.last_or (values_of revenue_by_period aggregates) 0 in
  let avg_burn := match burn with Some b => net_burn_avg b | None => 0 end in
  let multiple :=
    if Py.gtb avg_burn 0 then
      let arr := latest_revenue * 12 in
      if Py.gtb arr 0 then Some (Some (Py.round ((avg_burn * 12) / arr) 2))
      else Some None
    else None in
  let latest_expenses := Py.last_or (values_of expenses_by_period aggregates) 0 in
  {| burn_multiple := multiple;
     revenue_per_dollar_spent :=
       if Py.gtb latest_expenses 0
       then Py.round (latest_revenue / latest_expenses) 2 else 0;
     efficiency_rating :=
       match multiple with
       | Some (Some b) =>
           if Py.eqb b 0 then "unknown"
           else if Py.ltb b (3 # 2) then "excellent"
           else if Py.ltb b (5 # 2) then "good"
           else if Py.ltb b 4 then "average"
           else "poor"
       | _ => "unknown"
       end |}.

Definition insight (type category message priority : string) : Insight :=
  {| i_type := type; i_category := category;
     i_message := message; i_priority := priority |}.

Definition runway_insights (runway : option RunwayMetrics) : list Insight :=
  match runway with
  | Some r =>
      let months := months_remaining r in
      if Py.float_truthy months then
        if Py.float_ltb months 6 then
          [ insight "warning" "runway"
              ("Critical: Only " ++ format_1f months
               ++ " months of runway remaining. Consider fundraising immediately.")%string
              "high" ]
        else if Py.float_ltb months 12 then
          [ insight "caution" "runway"
              ("You have " ++ format_1f months
               ++ " months of runway. Start preparing for fundraising.")%string
              "medium" ]
        else if Py.float_geb months 18 then
          [ insight "positive" "runway"
              ("Strong position with " ++ format_1f months
               ++ " months of runway.")%string
              "low" ]
        else []
      else []
  | None => []
  end.

Definition burn_insights (burn : option BurnMetrics) : list Insight :=
  match burn with
  | Some b =>
      if String.eqb (burn_rate_trend_direction b) "increasing" then
        [ insight "warning" "burn"
            ("Burn rate is increasing ("
             ++ format_1f (Py.Finite (Qabs (burn_rate_trend b)))
             ++ "% higher than earlier periods).")%string
            "high" ]
      else []
  | None => []
  end.

Definition growth_insights (growth : option GrowthMetrics) : list Insight :=
  let latest := match growth with Some g => mom_growth_latest g | None => 0 end in
  if Py.gtb latest 10 then
    [ insight "positive" "growth"
        ("Strong revenue growth of " ++ format_1f (Py.Finite latest)
         ++ "% last month.")%string
        "medium" ]
  else if Py.ltb latest 0 then
    [ insight "warning" "growth"
        ("Revenue declined " ++ format_1f (Py.Finite (Qabs latest))
         ++ "% last month.")%string
        "high" ]
  else [].

(** [str(efficiency["burn_multiple"])]. *)
Definition str_multiple (e : Efficiency) : string :=
  match burn_multiple e with
  | Some (Some b) => str_float b
  | _ => "None"
  end.

Definition efficiency_insights (efficiency : option Efficiency) : list Insight :=
  match efficiency with
  | Some e =>
      if String.eqb (efficiency_rating e) "excellent" then
        [ insight "positive" "efficiency"
            ("Excellent cash efficiency with " ++ str_multiple e
             ++ "x burn multiple.")%string
            "low" ]
      else if String.eqb (efficiency_rating e) "poor" then
        [ insight "caution" "efficiency"
            ("High burn multiple (" ++ str_multiple e
             ++ "x) indicates inefficient growth.")%string
            "medium" ]
      else []
  | None => []
  end.

Definition priority_order (p : string) : nat :=
  if String.eqb p "high" then 0
  else if String.eqb p "medium" then 1
  else if String.eqb p "low" then 2
  else 3.

Definition _generate_key_insights (runway : option RunwayMetrics)
           (burn : option BurnMetrics) (growth : option GrowthMetrics)
           (efficiency : option Efficiency) : list Insight :=
  Py.sort (fun y x => (priority_order (i_priority y) <? priority_order (i_priority x))%nat)
          (runway_insights runway ++ burn_insights burn
           ++ growth_insights growth ++ efficiency_insights efficiency).

(** [calculate_all_metrics]; [today] is the reading of the system clock
    taken inside [_calculate_runway]. *)
Definition calculate_all_metrics (today : Calendar.DateTime)
           (cash : option Q) : Py.result Metrics :=
  let aggregates := _calculate_aggregates in
  let burn := _calculate_burn_rate aggregates in
  let runway :=
    match cash, burn with
    | Some c, Some b =>
        if negb (Py.eqb (net_burn_avg b) 0)
        then Py.bind (_calculate_runway today c (net_burn_avg b))
                     (fun r => Py.Ok (Some r))
        else Py.Ok None
    | _, _ => Py.Ok None
    end in
  Py.bind runway (fun runway =>
    let growth := _calculate_growth_metrics aggregates in
    let drivers := _identify_expense_drivers in
    let efficiency :=
      match values_of revenue_by_period aggregates with
      | [] => None
      | _ => Some (_calculate_cash_efficiency aggregates burn)
      end in
    Py.Ok {| m_aggregates := aggregates;
             m_burn_rate := burn;
             m_runway := runway;
             m_growth := growth;
             m_expense_drivers := drivers;
             m_efficiency := efficiency;
             m_insights := _generate_key_insights runway burn growth efficiency |}).
End Calculator.

End StartupMetricsCalculator.

(** ** waterfall_calculator.py: the bridge engine *)

Module WaterfallCalculator.

(** A row of the categorised statement: its pandas index label, the
    account cell, the [category] and [row_type] columns and the numeric
    cells. The period columns the engine is given are meant to be columns
    of the frame, so that every row holds a cell, possibly null, for each
    of them. For any other column pandas raises [KeyError]; the embedding
    leaves that case out, [cell] reads null there, and the properties that
    tell success from failure assume [frame_has_columns]. *)
Record Row : Type := {
  index : nat;
  account : option string;
  category : AccountMapper.str_or_none;
  row_type : string;
  cells : Py.dict (option Q)
}.

Definition cell (r : Row) (column : string) : option Q :=
  match Py.get (cells r) column with Some v => v | None => None end.

(** [df[cols].sum(axis=1)] for one row: null cells are skipped. *)
Definition row_sum (cols : list string) (r : Row) : Q :=
  Py.sum (flat_map (fun c => match cell r c with Some v => [v] | None => [] end) cols).

(** [df[category_col] == name] for one row. *)
Definition category_is (name : string) (r : Row) : bool :=
  match category r with
  | AccountMapper.PyStr s => String.eqb s name
  | AccountMapper.PyNone => false
  end.

(** A row with the columns the engine adds to its working copy; [impact]
    is the column ranked by [nlargest] ([movement] itself for a raw
    category, [impact_on_...] for a derived metric). *)
Record Driver : Type := {
  row : Row;
  period1_total : Q;
  period2_total : Q;
  movement : Q;
  impact : Q
}.

Record Waterfall : Type := {
  categories : list string;
  values : list Q;
  colors : list string;
  measures : list string;
  period1_value : Q;
  period2_value : Q;
  total_movement : Q;
  total_movement_pct : Py.float;
  y_min : Q;
  top_drivers_count : nat;
  other_movement : Q
}.

Definition BLUE : string := "#3b82f6".
Definition GREEN : string := "#10b981".
Definition RED : string := "#ef4444".

Definition color_of (v : Q) : string := if Py.gtb v 0 then GREEN else RED.

(** [name[:30] + '...' if len(name) > 30 else name]; a null account cell
    is a float, on which [len] raises. *)
Definition display_name (account : option string) : Py.result string :=
  match account with
  | Some name =>
      Py.Ok (if (30 <? String.length name)%nat
             then (String.substring 0 30 name ++ "...")%string else name)
  | None => Py.Err (Py.TypeError "object of type 'float' has no len()")
  end.

(** [round(total_movement / period1_value * 100, 2) if period1_value != 0
    else 0]: the quotient and the product can leave the range of a double. *)
Definition movement_pct (total period1 : Q) : Py.result Py.float :=
  if negb (Py.eqb period1 0)
  then Py.bind (Py.div total period1)
         (fun d => Py.Ok (Py.float_round (Py.float_mul (Py.of_exact d) 100) 2))
  else Py.Ok (Py.Finite 0).

Section Engine.
(** [self.df]; the account and category column names are fixed by the
    row record. *)
Variable df : list Row.
Variables period1_cols period2_cols : list string.
Variable top_n : nat.

Definition driver (impact_of : Q -> Q) (r : Row) : Driver :=
  let p1 := row_sum period1_cols r in
  let p2 := row_sum period2_cols r in
  {| row := r; period1_total := p1; period2_total := p2;
     movement := p2 - p1; impact := impact_of (p2 - p1) |}.

(** The working copy of the rows of one category. *)
Definition frame (name : string) (impact_of : Q -> Q) : list Driver :=
  map (driver impact_of) (filter (category_is name) df).

(** [frame.nlargest(top_n, column)]: the [top_n] rows of greatest key,
    earlier rows first among equals. *)
Definition nlargest (key : Driver -> Q) (rows : list Driver) : list Driver :=
  firstn top_n (Py.sorted_desc key rows).

(** [rows[~rows.index.isin(top.index)]]. *)
Definition not_in (top rows : list Driver) : list Driver :=
  filter (fun d => negb (existsb (Nat.eqb (index (row d)))
                                 (map (fun t => index (row t)) top)))
         rows.

(** The body shared by [calculate_waterfall] and
    [_build_waterfall_structure]: start bar, driver bars, optional
    [Other] bar, end bar, then the summary fields. *)
Definition build (label1 label2 : string) (period1 period2 : Q)
           (top_drivers : list Driver) (other : Q) : Py.result Waterfall :=
  Py.bind (Py.mapM (fun d => display_name (account (row d))) top_drivers)
    (fun names =>
       let impacts := map impact top_drivers in
       let show_other := Py.gtb (Qabs other) (1 # 100) in
       let total := period2 - period1 in
       let ymin := if Py.gtb period1 0 then period1 * (8 # 10)
                   else period1 * (12 # 10) in
       Py.bind (movement_pct total period1) (fun pct =>
         Py.Ok
           {| categories :=
                [label1] ++ names ++ (if show_other then ["Other"] else [])
                ++ [label2];
              values :=
                [period1] ++ impacts ++ (if show_other then [other] else [])
                ++ [period2];
              colors :=
                [BLUE] ++ map color_of impacts
                ++ (if show_other then [color_of other] else []) ++ [BLUE];
              measures :=
                ["absolute"] ++ map (fun _ => "relative") impacts
                ++ (if show_other then ["relative"] else []) ++ ["total"];
              period1_value := Py.round period1 2;
              period2_value := Py.round period2 2;
              total_movement := Py.round total 2;
              total_movement_pct := pct;
              y_min := Py.round ymin 2;
              top_drivers_count := List.length top_drivers;
              other_movement := Py.round other 2 |})).

Definition _build_waterfall_structure (period1 period2 : Q)
           (top_drivers : list Driver) (other : Q) (metric_name : string)
  : Py.result Waterfall :=
  build (metric_name ++ String "010" "Period 1")%string
        (metric_name ++ String "010" "Period 2")%string
        period1 period2 top_drivers other.

Definition total1 (rows : list Driver) : Q := Py.sum (map period1_total rows).
Definition total2 (rows : list Driver) : Q := Py.sum (map period2_total rows).

(** [calculate_waterfall]. A non-empty [metric_filter] selects one
    category; otherwise every line item is used. *)
Definition calculate_waterfall (metric : string) (metric_filter : option string)
  : Py.result Waterfall :=
  let selected :=
    match metric_filter with
    | Some (String c f) => filter (category_is (String c f)) df
    | _ => filter (fun r => String.eqb (row_type r) "line_item") df
    end in
  let df_filtered := map (driver (fun m => m)) selected in
  let period1 := total1 df_filtered in
  let period2 := total2 df_filtered in
  let top_drivers := nlargest (fun d => Qabs (movement d)) df_filtered in
  let other := Py.sum (map movement (not_in top_drivers df_filtered)) in
  build "Period 1" "Period 2" period1 period2 top_drivers other.

Definition _calculate_gross_profit_waterfall : Py.result Waterfall :=
  let revenue_df := frame "Revenue" (fun m => m) in
  let cogs_df := frame "Cost of Goods Sold" (fun m => - m) in
  let period1_gp := total1 revenue_df - total1 cogs_df in
  let period2_gp := total2 revenue_df - total2 cogs_df in
  let all_drivers := revenue_df ++ cogs_df in
  let top_drivers := nlargest (fun d => Qabs (impact d)) all_drivers in
  let other := Py.sum (map impact (not_in top_drivers all_drivers)) in
  _build_waterfall_structure period1_gp period2_gp top_drivers other "Gross Profit".

Definition _calculate_operating_profit_waterfall : Py.result Waterfall :=
  let revenue_df := frame "Revenue" (fun m => m) in
  let cogs_df := frame "Cost of Goods Sold" (fun m => - m) in
  let opex_df := frame "Operating Expenses" (fun m => - m) in
  let period1_op := total1 revenue_df - total1 cogs_df - total1 opex_df in
  let period2_op := total2 revenue_df - total2 cogs_df - total2 opex_df in
  let all_drivers := revenue_df ++ cogs_df ++ opex_df in
  let top_drivers := nlargest (fun d => Qabs (impact d)) all_drivers in
  let other := Py.sum (map impact (not_in top_drivers all_drivers)) in
  _build_waterfall_structure period1_op period2_op top_drivers other
                             "Operating Profit".

(** The six categories of the net-profit loop with their signs. *)
Definition net_profit_signs : list (string * Q) :=
  [ ("Revenue", 1); ("Cost of Goods Sold", -1); ("Operating Expenses", -1);
    ("Financial Items", 1); ("Non-Operating Items", 1); ("Tax", -1) ].

Definition _calculate_net_profit_waterfall : Py.result Waterfall :=
  let dfs :=
    map (fun cs => frame (fst cs) (fun m => m * snd cs)) net_profit_signs in
  let signed := combine dfs (map snd net_profit_signs) in
  let nonempty :=
    filter (fun ds => (0 <? List.length (fst ds))%nat) signed in
  match nonempty with
  | [] => Py.Err (Py.KeyError "impact_on_np")
  | _ =>
      let all_drivers := List.concat (map fst nonempty) in
      let period1_np := Py.sum (map (fun ds => total1 (fst ds) * snd ds) nonempty) in
      let period2_np := Py.sum (map (fun ds => total2 (fst ds) * snd ds) nonempty) in
      let top_drivers := nlargest (fun d => Qabs (impact d)) all_drivers in
      let other := Py.sum (map impact (not_in top_drivers all_drivers)) in
      _build_waterfall_structure period1_np period2_np top_drivers other "Net Profit"
  end.

Definition calculate_derived_metric (metric : string) : Py.result Waterfall :=
  if String.eqb metric "gross_profit" then _calculate_gross_profit_waterfall
  else if String.eqb metric "operating_profit" then _calculate_operating_profit_waterfall
  else if String.eqb metric "net_profit" then _calculate_net_profit_waterfall
  else Py.Err (Py.ValueError ("Unknown derived metric: " ++ metric)%string).

(** The two public entry points of the engine. *)
Inductive request : Type :=
| RawMetric (metric : string) (metric_filter : option string)
| DerivedMetric (metric : string).

Definition waterfall (q : request) : Py.result Waterfall :=
  match q with
  | RawMetric metric metric_filter => calculate_waterfall metric metric_filter
  | DerivedMetric metric => calculate_derived_metric metric
  end.
End Engine.

(** [get_available_periods]. [columns] are the columns of [self.df], each
    with its cells as text ([None] is a null cell); the normalised date
    columns are the ones whose name ends in [date_suffix]. The set built by
    the source is listed in first-occurrence order before sorting. *)
Definition get_available_periods (columns : list (string * list (option string)))
           (date_suffix : string) : list string :=
  let date_cols := filter (fun c => Py.endswith (fst c) date_suffix) columns in
  let periods := flat_map (fun c => AccountMapper.unique [] (snd c)) date_cols in
  Py.sorted_str (nodup string_dec periods).

(** [suggest_period_ranges]: the pair [(period1, period2)]. *)
Definition suggest_period_ranges (periods : list string) : list string * list string :=
  let n := List.length periods in
  if (n <? 2)%nat then ([], [])
  else if (24 <=? n)%nat then
    (firstn 12 (skipn (n - 24) periods), skipn (n - 12) periods)
  else
    let mid := (n / 2)%nat in
    (firstn mid periods, skipn mid periods).


(** [name in self.df[self.category_col].values]. *)
Definition has_category (df : list Row) (name : string) : bool :=
  existsb (category_is name) df.


(** *** Reading a bridge back from its parallel lists *)

Definition segments (w : Waterfall) : list (string * Q) :=
  combine (measures w) (values w).

(** Sum of the values whose measure is [m]. *)
Definition measure_sum (m : string) (w : Waterfall) : Q :=
  Py.sum (map snd (filter (fun s => String.eqb (fst s) m) (segments w))).

(** Start segment plus all relative segments (drivers and [Other]). *)
Definition bridge_sum (w : Waterfall) : Q :=
  measure_sum "absolute" w + measure_sum "relative" w.

Definition bridge_end (w : Waterfall) : Q := measure_sum "total" w.

(** An [Other] segment was emitted: the bridge has one more bar than the
    start bar, the driver bars and the end bar. *)
Definition has_other (w : Waterfall) : bool :=
  (List.length (values w) =? top_drivers_count w + 3)%nat.

End WaterfallCalculator.

(** ** routers/analysis.py: the waterfall request *)

Module AnalysisRouter.

(** An [HTTPException] with its status code and detail. *)
Record HTTPException : Type := {
  status_code : nat;
  detail : string
}.

Definition derived_metrics : list string :=
  [ "gross_profit"; "operating_profit"; "net_profit" ].

Definition metric_category_map : Py.dict string :=
  [ ("revenue", "Revenue"); ("cogs", "Cost of Goods Sold");
    ("opex", "Operating Expenses") ].

(** The [try] block of [get_pl_waterfall]: a derived metric goes to
    [calculate_derived_metric], any other name to [calculate_waterfall]
    with the category the map gives it, if any. *)
Definition calculate (df : list WaterfallCalculator.Row)
           (period1_cols period2_cols : list string) (top_n : nat)
           (metric : string) : Py.result WaterfallCalculator.Waterfall :=
  if existsb (String.eqb metric) derived_metrics then
    WaterfallCalculator.calculate_derived_metric
      df period1_cols period2_cols top_n metric
  else
    WaterfallCalculator.calculate_waterfall
      df period1_cols period2_cols top_n metric
      (Py.get metric_category_map metric).

(** The part of [get_pl_waterfall] after the period columns are known,
    over the frame that [batch_categorize_dataframe] returned (the fallback
    to the frame without a category column is outside this model): the 400
    guard on empty column sets, then the calculation with every exception
    turned into a 500. *)
Definition get_pl_waterfall (df : list WaterfallCalculator.Row)
           (period1_cols period2_cols : list string) (top_n : nat)
           (metric : string) : HTTPException + WaterfallCalculator.Waterfall :=
  match period1_cols, period2_cols with
  | [], _ | _, [] =>
      inl {| status_code := 400; detail := "No data found for specified periods" |}
  | _, _ =>
      match calculate df period1_cols period2_cols top_n metric with
      | Py.Ok w => inr w
      | Py.Err e =>
          inl {| status_code := 500;
                 detail := ("Failed to calculate waterfall: " ++ Py.exc_str e)%string |}
      end
  end.

(** *** Choice of the period columns *)

(** The four bounds of a [WaterfallRequest]. *)
Record PeriodRanges : Type := {
  period1_start : string;
  period1_end : string;
  period2_start : string;
  period2_end : string
}.

(** [xs.index(x)] for an element [x] of [xs]: the position of its first
    occurrence. *)
Fixpoint index_of (x : string) (xs : list string) : nat :=
  match xs with
  | [] => 0
  | y :: t => if String.eqb x y then 0 else S (index_of x t)
  end.

(** [row.get(date_col)] in the one row of [mapped_df.head(1)], for the
    date column at position [col_idx]; [first_row] is [None] for a frame
    without rows, and there is no value past the last date column. *)
Definition period_value (date_cols : list string)
           (first_row : option (Py.dict (option string))) (col_idx : nat)
  : option string :=
  match nth_error date_cols col_idx, first_row with
  | Some date_col, Some row =>
      match Py.get row date_col with Some v => v | None => None end
  | _, _ => None
  end.

(** [lo <= v <= hi] on strings. *)
Definition in_range (lo hi v : string) : bool :=
  andb (String.leb lo v) (String.leb v hi).

Section PeriodColumns.
Variable value_cols : list string.
Variable date_cols : list string.
Variable first_row : option (Py.dict (option string)).
Variable request : PeriodRanges.

(** One turn of the loop over [value_cols]; [acc] is the pair
    [(period1_cols, period2_cols)]. *)
Definition select_column (acc : list string * list string) (value_col : string)
  : list string * list string :=
  match period_value date_cols first_row (index_of value_col value_cols) with
  | Some v =>
      if negb (String.eqb v EmptyString) then
        if in_range (period1_start request) (period1_end request) v
        then (fst acc ++ [value_col], snd acc)
        else if in_range (period2_start request) (period2_end request) v
             then (fst acc, snd acc ++ [value_col])
             else acc
      else acc
  | None => acc
  end.

Definition period_columns : list string * list string :=
  fold_left select_column value_cols ([], []).
End PeriodColumns.

(** [get_pl_waterfall] from the choice of the period columns on. *)
Definition pl_waterfall (df : list WaterfallCalculator.Row)
           (value_cols date_cols : list string)
           (first_row : option (Py.dict (option string)))
           (request : PeriodRanges) (top_n : nat) (metric : string)
  : HTTPException + WaterfallCalculator.Waterfall :=
  let cols := period_columns value_cols date_cols first_row request in
  get_pl_waterfall df (fst cols) (snd cols) top_n metric.

End AnalysisRouter.

(** ** routers/startup_analytics.py: the analysis request *)

Module StartupAnalyticsRouter.

(** The part of [analyze_startup_metrics] that follows parsing: the
    metrics are computed on the line items of the parsed frame [df], and
    every exception becomes a 500. *)
Definition analyze_startup_metrics
           (df : list StartupMetricsCalculator.Row) (value_columns : list string)
           (float_pow : Q -> Q -> Q) (format_1f : Py.float -> string)
           (str_float : Q -> string) (today : Calendar.DateTime) (cash : option Q)
  : AnalysisRouter.HTTPException + StartupMetricsCalculator.Metrics :=
  let line_items :=
    fst (PLParser.split_rows StartupMetricsCalculator.account df) in
  match StartupMetricsCalculator.calculate_all_metrics
          line_items value_columns float_pow format_1f str_float today cash with
  | Py.Ok m => inr m
  | Py.Err e =>
      inl {| AnalysisRouter.status_code := 500;
             AnalysisRouter.detail :=
               ("Error analyzing document: " ++ Py.exc_str e)%string |}
  end.

End StartupAnalyticsRouter.

(** ** Definitions used to state the properties *)


(** Sum of a list of rationals, head first. *)
Definition qsum (xs : list Q) : Q := fold_right Qplus 0 xs.

(** Total of the absolute non-null values of column [period] over the rows
    whose lower-cased account name satisfies [p]. *)
Definition matching_total (p : string -> bool)
           (df : list StartupMetricsCalculator.Row) (period : string) : Q :=
  qsum (flat_map
          (fun row =>
             if p (Py.lower (StartupMetricsCalculator.account_str row)) then
               match StartupMetricsCalculator.cell row period with
               | Some v => [Qabs v]
               | None => []
               end
             else [])
          df).

(** A metrics result with the projected zero-cash date blanked. *)
Definition without_zero_cash_date (m : StartupMetricsCalculator.Metrics)
  : StartupMetricsCalculator.Metrics :=
  let blank r :=
    {| StartupMetricsCalculator.months_remaining :=
         StartupMetricsCalculator.months_remaining r;
       StartupMetricsCalculator.zero_cash_date := None;
       StartupMetricsCalculator.status := StartupMetricsCalculator.status r;
       StartupMetricsCalculator.urgency := StartupMetricsCalculator.urgency r;
       StartupMetricsCalculator.cash_balance :=
         StartupMetricsCalculator.cash_balance r |} in
  {| StartupMetricsCalculator.m_aggregates := StartupMetricsCalculator.m_aggregates m;
     StartupMetricsCalculator.m_burn_rate := StartupMetricsCalculator.m_burn_rate m;
     StartupMetricsCalculator.m_runway :=
       option_map blank (StartupMetricsCalculator.m_runway m);
     StartupMetricsCalculator.m_growth := StartupMetricsCalculator.m_growth m;
     StartupMetricsCalculator.m_expense_drivers :=
       StartupMetricsCalculator.m_expense_drivers m;
     StartupMetricsCalculator.m_efficiency := StartupMetricsCalculator.m_efficiency m;
     StartupMetricsCalculator.m_insights := StartupMetricsCalculator.m_insights m |}.

(** [s] is the UTF-8 encoding of a text: every character is a first byte
    followed by the continuation bytes it announces. *)
Fixpoint whole_chars (pending : nat) (s : string) : bool :=
  match s with
  | EmptyString => match pending with O => true | S _ => false end
  | String c t =>
      let n := N_of_ascii c in
      match pending with
      | O => andb (negb (PLParser.is_continuation n))
                  (whole_chars (fst (PLParser.lead n)) t)
      | S k => andb (PLParser.is_continuation n) (whole_chars k t)
      end
  end.

Definition utf8_text (s : string) : bool := whole_chars 0 s.

(** The UTF-8 encoding of a code point. *)
Definition encode (ch : N) : string :=
  let byte (n : N) := ascii_of_N n in
  let cont (n : N) := byte (128 + n mod 64)%N in
  if (ch <? 128)%N then String (byte ch) EmptyString
  else if (ch <? 2048)%N then
    String (byte (192 + ch / 64)%N) (String (cont ch) EmptyString)
  else if (ch <? 65536)%N then
    String (byte (224 + ch / 4096)%N)
      (String (cont (ch / 64)%N) (String (cont ch) EmptyString))
  else
    String (byte (240 + ch / 262144)%N)
      (String (cont (ch / 4096)%N)
         (String (cont (ch / 64)%N) (String (cont ch) EmptyString))).

(** The text of a cell, once the class is stripped, starts with a sign. *)
Definition signed (s : string) : bool :=
  match PLParser.re_sub_class (PLParser.decode s) with
  | ch :: _ => orb (N.eqb ch 43) (N.eqb ch 45)
  | [] => false
  end.

(** The characters a numeral, parenthesised or not, can hold: the ASCII
    digits, signs, point, underscore, parentheses and the letters of the
    exponent and of [inf], [infinity] and [nan], and the decimal digits of
    the database [todecimal]. *)
Definition numeral_alphabet : list N :=
  map N_of_ascii (list_ascii_of_string "0123456789+-._()eEinftyaINFTYA").

Definition numeral_char (todecimal : N -> Z) (ch : N) : bool :=
  if (ch <? 127)%N then existsb (N.eqb ch) numeral_alphabet
  else (0 <=? todecimal ch)%Z.

Definition is_numeral (c : ascii) : bool :=
  existsb (N.eqb (N_of_ascii c)) numeral_alphabet.

Fixpoint numeral_text (s : string) : bool :=
  match s with
  | EmptyString => true
  | String c t => andb (is_numeral c) (numeral_text t)
  end.

(** A decimal database that holds the full-width digits U+FF10 .. U+FF19
    only. *)
Definition fullwidth_digit (ch : N) : Z :=
  if andb (65296 <=? ch)%N (ch <=? 65305)%N then (Z.of_N ch - 65296)%Z else (-1)%Z.

(** The expense branch of the aggregation loop is only reached when the
    revenue test fails. *)
Definition expense_only (a : string) : bool :=
  andb (StartupMetricsCalculator._is_expense_account a)
       (negb (StartupMetricsCalculator._is_revenue_account a)).

(** What the three per-period maps hold for [p] once [p] has been
    recorded. *)
Definition recorded (df : list StartupMetricsCalculator.Row)
           (agg : StartupMetricsCalculator.Aggregates) (p : string) : Prop :=
  let totals := StartupMetricsCalculator.period_totals df p in
  Py.get (StartupMetricsCalculator.revenue_by_period agg) p = Some (fst totals)
  /\ Py.get (StartupMetricsCalculator.expenses_by_period agg) p = Some (snd totals)
  /\ Py.get (StartupMetricsCalculator.net_income_by_period agg) p
     = Some (fst totals - snd totals).

(** A one-row statement whose only account matches both keyword lists. *)
Definition interest_income_only : list StartupMetricsCalculator.Row :=
  [ {| StartupMetricsCalculator.account := Some "Interest Income";
       StartupMetricsCalculator.cells := [ ("2024-01", Some 100) ] |} ].

(** A statement with one expense row whose previous-period cell is null. *)
Definition hosting_row : StartupMetricsCalculator.Row :=
  {| StartupMetricsCalculator.account := Some "Hosting";
     StartupMetricsCalculator.cells := [ ("2024-01", None); ("2024-02", Some (-40)) ] |}.

(** The index label of a working row of the bridge engine. *)
Definition label (d : WaterfallCalculator.Driver) : nat :=
  WaterfallCalculator.index (WaterfallCalculator.row d).

(** The value list of the optional [Other] bar. *)
Definition other_bar (other : Q) : list Q :=
  if Py.gtb (Qabs other) (1 # 100) then [other] else [].

(** The rows of [df] that fall in the categories [cats], category by
    category. *)
Definition rows_of (df : list WaterfallCalculator.Row) (cats : list string)
  : list WaterfallCalculator.Row :=
  flat_map (fun c => filter (WaterfallCalculator.category_is c) df) cats.

(** A result is a reconciled bridge when it is built from period totals
    [P1], [P2] and a frame [all] whose impacts add up to [P2 - P1], with the
    [top_n] largest rows as drivers and the remaining rows as [Other]. *)
Definition reconciled_bridge (df : list WaterfallCalculator.Row) (top_n : nat)
           (r : Py.result WaterfallCalculator.Waterfall) : Prop :=
  exists (l1 l2 : string) (P1 P2 : Q)
         (key : WaterfallCalculator.Driver -> Q)
         (all : list WaterfallCalculator.Driver),
    let top := WaterfallCalculator.nlargest top_n key all in
    r = WaterfallCalculator.build l1 l2 P1 P2 top
          (Py.sum (map WaterfallCalculator.impact
                       (WaterfallCalculator.not_in top all)))
    /\ P2 - P1 == Py.sum (map WaterfallCalculator.impact all)
    /\ (NoDup (map WaterfallCalculator.index df) -> NoDup (map label all)).

(** A categorised statement with two revenue rows; the second moves by
    half a cent between the two periods. *)
Definition half_cent_statement : list WaterfallCalculator.Row :=
  [ {| WaterfallCalculator.index := 0;
       WaterfallCalculator.account := Some "Sales";
       WaterfallCalculator.category := AccountMapper.PyStr "Revenue";
       WaterfallCalculator.row_type := "line_item";
       WaterfallCalculator.cells := [ ("Jan", Some 100); ("Feb", Some 150) ] |};
    {| WaterfallCalculator.index := 1;
       WaterfallCalculator.account := Some "Fees";
       WaterfallCalculator.category := AccountMapper.PyStr "Revenue";
       WaterfallCalculator.row_type := "line_item";
       WaterfallCalculator.cells := [ ("Jan", Some 10); ("Feb", Some (2001 # 200)) ] |} ].



(** A reading of the system clock: 2024-01-31 10:30:00. *)
Definition a_clock_reading : Calendar.DateTime :=
  {| Calendar.year := 2024; Calendar.month := 1; Calendar.day := 31;
     Calendar.hour := 10; Calendar.minute := 30; Calendar.second := 0;
     Calendar.microsecond := 0 |}.

(** A reading one day later: 2024-02-01 10:30:00. *)
Definition a_later_clock_reading : Calendar.DateTime :=
  {| Calendar.year := 2024; Calendar.month := 2; Calendar.day := 1;
     Calendar.hour := 10; Calendar.minute := 30; Calendar.second := 0;
     Calendar.microsecond := 0 |}.

(** A two-period statement with the value columns in chronological order:
    expenses 100 then 250, revenue 10 then 20. *)
Definition two_month_statement : list StartupMetricsCalculator.Row :=
  [ {| StartupMetricsCalculator.account := Some "Salaries";
       StartupMetricsCalculator.cells :=
         [ ("Jan 2024", Some 100); ("Feb 2024", Some 250) ] |};
    {| StartupMetricsCalculator.account := Some "Sales";
       StartupMetricsCalculator.cells :=
         [ ("Jan 2024", Some 10); ("Feb 2024", Some 20) ] |} ].

Definition two_months : list string := [ "Jan 2024"; "Feb 2024" ].

(** Stand-ins for the builtin float operations in closed examples; the
    examples do not depend on the choice. *)
Definition pow_stub (x y : Q) : Q := x.
Definition format_stub (x : Py.float) : string := "?".
Definition str_stub (x : Q) : string := "?".

(** A scorer that finds no similarity, for closed examples. *)
Definition no_match_score (a b : string) : Q := 0.

(** An answer of the external model whose entry for "Sales" has a JSON
    null category. *)
Definition null_category_answer : Py.dict AccountMapper.AiEntry :=
  [ ("Sales",
     {| AccountMapper.ai_category := Some AccountMapper.PyNone;
        AccountMapper.ai_subcategory := None;
        AccountMapper.ai_is_subtotal := None;
        AccountMapper.ai_confidence := Some (95 # 100) |}) ].

(** What the category of a finished mapping for [name] can be: a fuzzy
    result, or the category of an entry of the external answer, "Unknown"
    when that entry omits it. *)
Definition category_source (ai : option (Py.dict AccountMapper.AiEntry))
           (name : string) (c : AccountMapper.str_or_none) : Prop :=
  In c AccountMapper.allowed_categories
  \/ exists ai_mapping e,
      ai = Some ai_mapping
      /\ In (name, e) ai_mapping
      /\ c = AccountMapper.dflt (AccountMapper.ai_category e)
                                (AccountMapper.PyStr "Unknown").

(** Every mapping held for a name has a category of a known source. *)
Definition sourced (ai : option (Py.dict AccountMapper.AiEntry))
           (results : Py.dict AccountMapper.Mapping) : Prop :=
  forall name m,
    Py.get results name = Some m ->
    category_source ai name (AccountMapper.category m).

(** [c] occurs in [s]. *)
Fixpoint occurs (c : ascii) (s : string) : bool :=
  match s with
  | EmptyString => false
  | String d t => orb (Ascii.eqb c d) (occurs c t)
  end.

(** A result is a bridge over [df] when, beyond being reconciled, every
    row of its frame is a row of [df]. *)
Definition bridge_over (df : list WaterfallCalculator.Row) (top_n : nat)
           (r : Py.result WaterfallCalculator.Waterfall) : Prop :=
  exists (l1 l2 : string) (P1 P2 : Q)
         (key : WaterfallCalculator.Driver -> Q)
         (all : list WaterfallCalculator.Driver),
    let top := WaterfallCalculator.nlargest top_n key all in
    r = WaterfallCalculator.build l1 l2 P1 P2 top
          (Py.sum (map WaterfallCalculator.impact
                       (WaterfallCalculator.not_in top all)))
    /\ P2 - P1 == Py.sum (map WaterfallCalculator.impact all)
    /\ (NoDup (map WaterfallCalculator.index df) -> NoDup (map label all))
    /\ (forall d, In d all -> In (WaterfallCalculator.row d) df).


(** Thirty monthly period keys, 2022-01 to 2024-06. *)
Definition thirty_periods : list string :=
  [ "2022-01"; "2022-02"; "2022-03"; "2022-04"; "2022-05"; "2022-06";
    "2022-07"; "2022-08"; "2022-09"; "2022-10"; "2022-11"; "2022-12";
    "2023-01"; "2023-02"; "2023-03"; "2023-04"; "2023-05"; "2023-06";
    "2023-07"; "2023-08"; "2023-09"; "2023-10"; "2023-11"; "2023-12";
    "2024-01"; "2024-02"; "2024-03"; "2024-04"; "2024-05"; "2024-06" ].

(** Strict lexicographic order on strings, as a relation. *)
Definition str_lt (a b : string) : Prop := String.ltb a b = true.

(** Months elapsed since year 0 at the month of [dt]. *)
Definition month_index (y m : Z) : Z := (12 * y + m)%Z.

(** A clock reading is a calendar date. *)
Definition valid_date (dt : Calendar.DateTime) : Prop :=
  (1 <= Calendar.month dt <= 12)%Z
  /\ (1 <= Calendar.day dt
          <= Calendar.days_in_month (Calendar.year dt) (Calendar.month dt))%Z.

(** A list is in non-increasing order of [key]. *)
Definition descending {A : Type} (key : A -> Q) (l : list A) : Prop :=
  StronglySorted (fun a b => key b <= key a) l.

(** A list of insights is in priority order, high first. *)
Definition by_priority (l : list StartupMetricsCalculator.Insight) : Prop :=
  StronglySorted
    (fun a b =>
       (StartupMetricsCalculator.priority_order (StartupMetricsCalculator.i_priority a)
        <= StartupMetricsCalculator.priority_order
             (StartupMetricsCalculator.i_priority b))%nat)
    l.

(** Revenue and expense totals of one period column, as
    [_calculate_aggregates] accumulates them. *)
Definition revenue_of (df : list StartupMetricsCalculator.Row) (period : string) : Q :=
  fst (StartupMetricsCalculator.period_totals df period).

Definition expenses_of (df : list StartupMetricsCalculator.Row) (period : string) : Q :=
  snd (StartupMetricsCalculator.period_totals df period).

(** The revenue, expense and net-income maps hold, key by key, the totals
    listed in [l]. *)
Definition totals_listed (agg : StartupMetricsCalculator.Aggregates)
           (l : Py.dict (Q * Q)) : Prop :=
  StartupMetricsCalculator.revenue_by_period agg = map (fun x => (fst x, fst (snd x))) l
  /\ StartupMetricsCalculator.expenses_by_period agg
     = map (fun x => (fst x, snd (snd x))) l
  /\ StartupMetricsCalculator.net_income_by_period agg
     = map (fun x => (fst x, fst (snd x) - snd (snd x))) l.

(** A statement with two period columns in calendar order. *)
Definition ordered_statement : list StartupMetricsCalculator.Row :=
  [ {| StartupMetricsCalculator.account := Some "Sales";
       StartupMetricsCalculator.cells :=
         [ ("2024-01", Some 10); ("2024-02", Some 20) ] |};
    {| StartupMetricsCalculator.account := Some "Salaries";
       StartupMetricsCalculator.cells :=
         [ ("2024-01", Some 100); ("2024-02", Some 250) ] |} ].

(** The runway record of a company whose average net burn is not
    positive. *)
Definition profitable_runway (cash : Q) : StartupMetricsCalculator.RunwayMetrics :=
  {| StartupMetricsCalculator.months_remaining := Py.Infinity false;
     StartupMetricsCalculator.zero_cash_date := None;
     StartupMetricsCalculator.status := "profitable";
     StartupMetricsCalculator.urgency := "none";
     StartupMetricsCalculator.cash_balance := cash |}.

(** A statement whose revenue exceeds its expenses in both periods. *)
Definition profitable_statement : list StartupMetricsCalculator.Row :=
  [ {| StartupMetricsCalculator.account := Some "Sales";
       StartupMetricsCalculator.cells :=
         [ ("2024-01", Some 500); ("2024-02", Some 600) ] |};
    {| StartupMetricsCalculator.account := Some "Salaries";
       StartupMetricsCalculator.cells :=
         [ ("2024-01", Some 100); ("2024-02", Some 250) ] |} ].

(** The results held by [categorize_accounts] before its fill-in loop. *)
Definition ai_results (ai : option (Py.dict AccountMapper.AiEntry))
  : Py.dict AccountMapper.Mapping :=
  match ai with
  | Some ai_mapping => Py.update [] (AccountMapper._ai_categorize ai_mapping)
  | None => []
  end.

(** [m] is what the fill-in loop leaves for a name whose entry was
    [before] and whose fuzzy result is [fuzzy]. *)
Definition resolved (fuzzy : AccountMapper.Mapping)
           (before : option AccountMapper.Mapping) (m : AccountMapper.Mapping) : Prop :=
  match before with
  | None => m = fuzzy
  | Some r =>
      (7 # 10 <= AccountMapper.confidence r -> m = r)
      /\ (AccountMapper.confidence r < 7 # 10 ->
          AccountMapper.confidence r < AccountMapper.confidence fuzzy -> m = fuzzy)
      /\ (AccountMapper.confidence r < 7 # 10 ->
          AccountMapper.confidence fuzzy <= AccountMapper.confidence r -> m = r)
  end.

(** An answer of the external model that is unsure about "Sales". *)
Definition unsure_answer : Py.dict AccountMapper.AiEntry :=
  [ ("Sales",
     {| AccountMapper.ai_category := Some (AccountMapper.PyStr "Revenue");
        AccountMapper.ai_subcategory := None;
        AccountMapper.ai_is_subtotal := None;
        AccountMapper.ai_confidence := Some (5 # 10) |}) ].

(** The values and the colours of the driver bars of a bridge: the bars
    that follow the start bar. *)
Definition driver_values (w : WaterfallCalculator.Waterfall) : list Q :=
  firstn (WaterfallCalculator.top_drivers_count w) (tl (WaterfallCalculator.values w)).

Definition driver_colors (w : WaterfallCalculator.Waterfall) : list string :=
  firstn (WaterfallCalculator.top_drivers_count w) (tl (WaterfallCalculator.colors w)).

(** The rows [calculate_waterfall] works on. *)
Definition selected (metric_filter : option string) (r : WaterfallCalculator.Row) : bool :=
  match metric_filter with
  | Some (String c f) => WaterfallCalculator.category_is (String c f) r
  | _ => String.eqb (WaterfallCalculator.row_type r) "line_item"
  end.

(** The period a value column is judged by: the non-empty value of its
    date column in the first row. *)
Definition judged_by (value_cols date_cols : list string)
           (first_row : option (Py.dict (option string)))
           (c v : string) : Prop :=
  AnalysisRouter.period_value date_cols first_row
                              (AnalysisRouter.index_of c value_cols) = Some v
  /\ v <> EmptyString.

(** A value column is chosen for period 1 when its period lies in the
    first range, and for period 2 when it lies in the second range and not
    in the first. *)
Definition chosen_for_period1 (value_cols date_cols : list string)
           (first_row : option (Py.dict (option string)))
           (request : AnalysisRouter.PeriodRanges) (c : string) : Prop :=
  exists v,
    judged_by value_cols date_cols first_row c v
    /\ AnalysisRouter.in_range (AnalysisRouter.period1_start request)
                               (AnalysisRouter.period1_end request) v = true.

Definition chosen_for_period2 (value_cols date_cols : list string)
           (first_row : option (Py.dict (option string)))
           (request : AnalysisRouter.PeriodRanges) (c : string) : Prop :=
  exists v,
    judged_by value_cols date_cols first_row c v
    /\ AnalysisRouter.in_range (AnalysisRouter.period1_start request)
                               (AnalysisRouter.period1_end request) v = false
    /\ AnalysisRouter.in_range (AnalysisRouter.period2_start request)
                               (AnalysisRouter.period2_end request) v = true.

(** A request for the first quarter against the second, and a first row
    with one normalised date. *)
Definition quarter_request : AnalysisRouter.PeriodRanges :=
  {| AnalysisRouter.period1_start := "2024-01";
     AnalysisRouter.period1_end := "2024-03";
     AnalysisRouter.period2_start := "2024-04";
     AnalysisRouter.period2_end := "2024-06" |}.

Definition january_row : Py.dict (option string) :=
  [ ("Date_normalized", Some "2024-01") ].

(** A row is set aside as a subtotal by its name. *)
Definition is_subtotal_row (row : StartupMetricsCalculator.Row) : bool :=
  PLParser.subtotal_name
    (Py.lower (PLParser.account_name (StartupMetricsCalculator.account row))).

(** A statement with a revenue line and the total printed below it. *)
Definition statement_with_total : list StartupMetricsCalculator.Row :=
  [ {| StartupMetricsCalculator.account := Some "Sales";
       StartupMetricsCalculator.cells := [ ("2024-01", Some 500) ] |};
    {| StartupMetricsCalculator.account := Some "Total Revenue";
       StartupMetricsCalculator.cells := [ ("2024-01", Some 500) ] |} ].




(** ** Sums of rationals *)

Section Sums.

Lemma fold_plus_acc (xs : list Q) (a : Q) :
fold_left Qplus xs a == a + Py.sum xs.
Proof.
unfold Py.sum. revert a.
induction xs as [| x xs IH]; intros a; cbn [fold_left].
- lra.
- rewrite (IH (a + x)), (IH (0 + x)). lra.
Qed.

Lemma sum_cons (x : Q) (xs : list Q) : Py.sum (x :: xs) == x + Py.sum xs.
Proof. unfold Py.sum at 1. cbn [fold_left]. rewrite fold_plus_acc. lra. Qed.

Lemma sum_nil : Py.sum [] == 0.
Proof. reflexivity. Qed.

Lemma sum_app (xs ys : list Q) : Py.sum (xs ++ ys) == Py.sum xs + Py.sum ys.
Proof.
induction xs as [| x xs IH]; cbn [app].
- rewrite sum_nil. lra.
- rewrite !sum_cons, IH. lra.
Qed.

Lemma sum_qsum (xs : list Q) : Py.sum xs == qsum xs.
Proof.
induction xs as [| x xs IH]; [reflexivity |].
rewrite sum_cons, IH. reflexivity.
Qed.

Lemma sum_perm (xs ys : list Q) : Permutation xs ys -> Py.sum xs == Py.sum ys.
Proof.
induction 1 as [| x l l' _ IH | x y l | l l' l'' _ IH1 _ IH2].
- reflexivity.
- rewrite !sum_cons, IH. reflexivity.
- rewrite !sum_cons. lra.
- rewrite IH1. exact IH2.
Qed.

Lemma sum_map_ext {A : Type} (f g : A -> Q) (l : list A) :
(forall a, In a l -> f a == g a) -> Py.sum (map f l) == Py.sum (map g l).
Proof.
induction l as [| a l IH]; intros H; [reflexivity |].
cbn [map]. rewrite !sum_cons, (H a (or_introl eq_refl)), IH.
- reflexivity.
- intros b Hb. apply H. now right.
Qed.

Lemma sum_map_scale {A : Type} (f : A -> Q) (c : Q) (l : list A) :
Py.sum (map (fun a => c * f a) l) == c * Py.sum (map f l).
Proof.
induction l as [| a l IH]; cbn [map].
- rewrite !sum_nil. lra.
- rewrite !sum_cons, IH. lra.
Qed.

Lemma sum_map_minus {A : Type} (f g : A -> Q) (l : list A) :
Py.sum (map (fun a => f a - g a) l) == Py.sum (map f l) - Py.sum (map g l).
Proof.
induction l as [| a l IH]; cbn [map].
- rewrite !sum_nil. lra.
- rewrite !sum_cons, IH. lra.
Qed.

End Sums.

(** ** Comparisons *)

Lemma ltb_true (a b : Q) : Py.ltb a b = true <-> a < b.
Proof.
  unfold Py.ltb. rewrite negb_true_iff.
  destruct (Qle_bool b a) eqn:E.
  - apply Qle_bool_iff in E. split; [discriminate | intros H; exfalso; lra].
  - split; [intros _ | reflexivity].
    destruct (Qlt_le_dec a b) as [H | H]; [exact H |].
    apply Qle_bool_iff in H. congruence.
Qed.

Lemma ltb_false (a b : Q) : Py.ltb a b = false <-> b <= a.
Proof.
  unfold Py.ltb. rewrite negb_false_iff. apply Qle_bool_iff.
Qed.

Lemma gtb_true (a b : Q) : Py.gtb a b = true <-> b < a.
Proof. apply ltb_true. Qed.

Lemma gtb_false (a b : Q) : Py.gtb a b = false <-> a <= b.
Proof. apply ltb_false. Qed.

Lemma eqb_true (a b : Q) : Py.eqb a b = true <-> a == b.
Proof. apply Qeq_bool_iff. Qed.

Lemma eqb_false (a b : Q) : Py.eqb a b = false <-> ~ a == b.
Proof.
  unfold Py.eqb. split.
  - apply Qeq_bool_neq.
  - intros H. destruct (Qeq_bool a b) eqn:E; [| reflexivity].
    apply Qeq_bool_iff in E. contradiction.
Qed.

(** ** Dictionaries *)

Section Dicts.
Context {V : Type}.

Lemma get_set (d : Py.dict V) (k k' : string) (v : V) :
  Py.get (Py.set d k v) k' = if String.eqb k' k then Some v else Py.get d k'.
Proof.
  induction d as [| [k0 v0] d IH]; cbn [Py.set Py.get].
  - reflexivity.
  - destruct (String.eqb k k0) eqn:E; cbn [Py.get].
    + apply String.eqb_eq in E. subst k0.
      destruct (String.eqb k' k); reflexivity.
    + destruct (String.eqb k' k0) eqn:E0.
      * apply String.eqb_eq in E0. subst k0.
        rewrite String.eqb_sym, E. reflexivity.
      * exact IH.
Qed.

Lemma get_set_same (d : Py.dict V) (k : string) (v : V) :
  Py.get (Py.set d k v) k = Some v.
Proof. rewrite get_set, String.eqb_refl. reflexivity. Qed.

Lemma get_set_other (d : Py.dict V) (k k' : string) (v : V) :
  k' <> k -> Py.get (Py.set d k v) k' = Py.get d k'.
Proof.
  intros H. rewrite get_set. apply String.eqb_neq in H. now rewrite H.
Qed.

Lemma get_In (d : Py.dict V) (k : string) (v : V) :
  Py.get d k = Some v -> In (k, v) d.
Proof.
  induction d as [| [k0 v0] d IH]; cbn [Py.get]; [discriminate |].
  destruct (String.eqb k k0) eqn:E.
  - apply String.eqb_eq in E. intros [= ->]. subst. now left.
  - intros H. right. now apply IH.
Qed.
End Dicts.

(** ** Stable sort is a permutation *)

Section SortFacts.
Context {A : Type} (before : A -> A -> bool).

Lemma insert_perm (x : A) (l : list A) :
  Permutation (x :: l) (Py.insert before x l).
Proof.
  induction l as [| y l IH]; cbn [Py.insert]; [reflexivity |].
  destruct (before y x); [| reflexivity].
  rewrite perm_swap. now apply perm_skip.
Qed.

Lemma sort_perm (l : list A) : Permutation l (Py.sort before l).
Proof.
  unfold Py.sort.
  induction l as [| x l IH]; cbn [fold_right]; [reflexivity |].
  rewrite <- insert_perm. now apply perm_skip.
Qed.
End SortFacts.

(** ** Period aggregation *)

Section Aggregation.
Import StartupMetricsCalculator.
Variable df : list Row.

Lemma classify_fold (period : string) (rows : list Row) (acc : Q * Q) :
  fst (fold_left (classify_row period) rows acc)
    == fst acc + matching_total _is_revenue_account rows period
  /\ snd (fold_left (classify_row period) rows acc)
    == snd acc + matching_total expense_only rows period.
Proof.
  revert acc.
  induction rows as [| row rows IH]; intros acc; cbn [fold_left].
  - unfold matching_total. cbn. split; lra.
  - destruct (IH (classify_row period acc row)) as [IHr IHe].
    rewrite IHr, IHe. clear IH IHr IHe.
    unfold matching_total, expense_only, classify_row, qsum.
    cbn [flat_map].
    destruct (cell row period) as [v |];
      destruct (_is_revenue_account (Py.lower (account_str row)));
      destruct (_is_expense_account (Py.lower (account_str row)));
      cbn [andb negb app fst snd fold_right]; split; lra.
Qed.

Lemma period_totals_spec (period : string) :
  fst (period_totals df period) == matching_total _is_revenue_account df period
  /\ snd (period_totals df period) == matching_total expense_only df period.
Proof.
  unfold period_totals.
  destruct (classify_fold period df (0, 0)) as [Hr He].
  rewrite Hr, He. cbn [fst snd]. split; lra.
Qed.

Lemma record_period_same (agg : Aggregates) (p : string) :
  recorded df (record_period df agg p) p.
Proof.
  unfold recorded, record_period.
  destruct (period_totals df p) as [r e]. cbn.
  rewrite !get_set_same. auto.
Qed.

Lemma record_period_other (agg : Aggregates) (c p : string) :
  p <> c -> recorded df agg p -> recorded df (record_period df agg c) p.
Proof.
  unfold recorded, record_period. intros Hne (Hr & He & Hn).
  destruct (period_totals df c) as [r e]. cbn.
  rewrite !get_set_other by exact Hne. auto.
Qed.

Lemma fold_record_get (cols : list string) (agg : Aggregates) (p : string) :
  In p cols \/ recorded df agg p ->
  recorded df (fold_left (record_period df) cols agg) p.
Proof.
  revert agg.
  induction cols as [| c cols IH]; intros agg H; cbn [fold_left].
  - destruct H as [[] | H]. exact H.
  - apply IH.
    destruct (string_dec p c) as [-> | Hne].
    + right. apply record_period_same.
    + destruct H as [[Hc | Hin] | H].
      * congruence.
      * now left.
      * right. now apply record_period_other.
Qed.
End Aggregation.

(** C7, as stated, fails: "Interest Income" matches both keyword lists, yet
    its amount reaches [revenue_total] only; [expense_total] stays 0 and is
    not the sum over the rows matching the expense heuristic (100). *)
Lemma C7_counterexample :
  exists agg e,
    StartupMetricsCalculator._calculate_aggregates interest_income_only ["2024-01"]
      = Some agg
    /\ Py.get (StartupMetricsCalculator.expenses_by_period agg) "2024-01" = Some e
    /\ ~ e == matching_total StartupMetricsCalculator._is_expense_account
                             interest_income_only "2024-01".
Proof.
  eexists. eexists. split; [reflexivity |]. split; [reflexivity |].
  vm_compute. discriminate.
Qed.

(** C7 (amended): for each period column, [revenue_total] is the sum of the
    absolute non-null values of the rows matching the revenue heuristic,
    [expense_total] is the sum over the rows matching the expense heuristic
    and not the revenue heuristic, rows matching neither add to neither,
    and [net_income] is [revenue_total - expense_total]. *)
Theorem C7_aggregates_by_heuristic
        (df : list StartupMetricsCalculator.Row)
        (value_columns : list string) (period : string) :
  In period value_columns ->
  exists agg r e n,
    StartupMetricsCalculator._calculate_aggregates df value_columns = Some agg
    /\ Py.get (StartupMetricsCalculator.revenue_by_period agg) period = Some r
    /\ Py.get (StartupMetricsCalculator.expenses_by_period agg) period = Some e
    /\ Py.get (StartupMetricsCalculator.net_income_by_period agg) period = Some n
    /\ r == matching_total StartupMetricsCalculator._is_revenue_account df period
    /\ e == matching_total expense_only df period
    /\ n = r - e.
Proof.
  intros Hin.
  unfold StartupMetricsCalculator._calculate_aggregates.
  destruct value_columns as [| c cols] eqn:E; [contradiction |].
  rewrite <- E in *. clear E c cols.
  eexists. exists (fst (StartupMetricsCalculator.period_totals df period)).
  exists (snd (StartupMetricsCalculator.period_totals df period)).
  eexists. split; [reflexivity |].
  match goal with
  | |- context [fold_left _ value_columns ?a] =>
      destruct (fold_record_get df value_columns a period (or_introl Hin))
        as (Hr & He & Hn)
  end.
  destruct (period_totals_spec df period) as [Sr Se].
  repeat split; eassumption || reflexivity.
Qed.

Lemma C7_aggregates_by_heuristic_witness :
  exists agg r e n,
    StartupMetricsCalculator._calculate_aggregates interest_income_only ["2024-01"]
      = Some agg
    /\ Py.get (StartupMetricsCalculator.revenue_by_period agg) "2024-01" = Some r
    /\ Py.get (StartupMetricsCalculator.expenses_by_period agg) "2024-01" = Some e
    /\ Py.get (StartupMetricsCalculator.net_income_by_period agg) "2024-01" = Some n
    /\ r == matching_total StartupMetricsCalculator._is_revenue_account
                           interest_income_only "2024-01"
    /\ e == matching_total expense_only interest_income_only "2024-01"
    /\ n = r - e.
Proof.
  apply (C7_aggregates_by_heuristic interest_income_only ["2024-01"] "2024-01").
  simpl. left. reflexivity.
Defined.

(** ** Expense drivers *)

Section ExpenseDrivers.
Import StartupMetricsCalculator.

Lemma expense_data_complete (df : list Row) (latest prev : string) (row : Row) :
  In row df ->
  _is_expense_account (Py.lower (account_str row)) = true ->
  In (expense_entry latest prev row) (expense_data df latest prev).
Proof.
  intros Hin Hexp. unfold expense_data.
  apply in_map, filter_In. now split.
Qed.

Lemma top5_all {A : Type} (key : A -> Q) (l : list A) (x : A) :
  (List.length l <= 5)%nat -> In x l -> In x (firstn 5 (Py.sorted_desc key l)).
Proof.
  intros Hlen Hin. unfold Py.sorted_desc.
  set (before := fun y x0 : A => Py.gtb (key y) (key x0)).
  pose proof (sort_perm before l) as P.
  rewrite firstn_all2.
  - now apply (Permutation_in _ P).
  - now rewrite <- (Permutation_length P).
Qed.
End ExpenseDrivers.

(** C9: in the expense-driver computation a row of an expense account is
    never skipped for a null cell: whatever its cells in the latest two
    periods hold, its entry is appended, with a null cell in either period
    read as 0 and any other cell by its absolute value, and it is listed
    among the top expenses whenever at most five expense rows exist. A row
    with a null previous cell and a latest cell holding [v] is reported with
    [|v|] as latest amount, 0 as previous amount, 0 as percent change and
    [|v|] as dollar change; a row with a null latest cell is reported with
    latest amount 0 and the negated previous amount as dollar change. The
    aggregation loop, in contrast, leaves its totals untouched on a null
    cell. *)
Theorem C9_null_cells_coerced_to_zero
        (df : list StartupMetricsCalculator.Row) (value_columns : list string)
        (latest prev : string) (rest : list string)
        (row : StartupMetricsCalculator.Row) :
  rev value_columns = latest :: prev :: rest ->
  In row df ->
  StartupMetricsCalculator._is_expense_account
    (Py.lower (StartupMetricsCalculator.account_str row)) = true ->
  let e := StartupMetricsCalculator.expense_entry latest prev row in
  let amount c := match c with Some v => Qabs v | None => 0 end in
  In e (StartupMetricsCalculator.expense_data df latest prev)
  /\ ((List.length (StartupMetricsCalculator.expense_data df latest prev) <= 5)%nat ->
      In e (StartupMetricsCalculator.top_expenses
              (StartupMetricsCalculator._identify_expense_drivers df value_columns)))
  /\ StartupMetricsCalculator.e_account e = StartupMetricsCalculator.account_str row
  /\ StartupMetricsCalculator.latest_amount e
     = amount (StartupMetricsCalculator.cell row latest)
  /\ StartupMetricsCalculator.previous_amount e
     = amount (StartupMetricsCalculator.cell row prev)
  /\ StartupMetricsCalculator.change_dollar e
     = StartupMetricsCalculator.latest_amount e
       - StartupMetricsCalculator.previous_amount e
  /\ (StartupMetricsCalculator.cell row prev = None ->
      StartupMetricsCalculator.previous_amount e = 0
      /\ StartupMetricsCalculator.change_percent e = 0
      /\ StartupMetricsCalculator.change_dollar e
         == StartupMetricsCalculator.latest_amount e
      /\ forall v, StartupMetricsCalculator.cell row latest = Some v ->
                   StartupMetricsCalculator.latest_amount e = Qabs v
                   /\ StartupMetricsCalculator.change_dollar e == Qabs v)
  /\ (StartupMetricsCalculator.cell row latest = None ->
      StartupMetricsCalculator.latest_amount e = 0
      /\ StartupMetricsCalculator.change_dollar e
         == - StartupMetricsCalculator.previous_amount e)
  /\ (forall (period : string) (acc : Q * Q),
        StartupMetricsCalculator.cell row period = None ->
        StartupMetricsCalculator.classify_row period acc row = acc).
Proof.
  intros Hcols Hin Hexp e amount.
  assert (He : In e (StartupMetricsCalculator.expense_data df latest prev))
    by now apply expense_data_complete.
  split; [exact He |]. split.
  { intros Hlen.
    unfold StartupMetricsCalculator._identify_expense_drivers. rewrite Hcols.
    cbn [StartupMetricsCalculator.top_expenses].
    now apply top5_all. }
  clear He. subst e amount. unfold StartupMetricsCalculator.expense_entry.
  cbn [StartupMetricsCalculator.e_account StartupMetricsCalculator.latest_amount
         StartupMetricsCalculator.previous_amount
         StartupMetricsCalculator.change_dollar
         StartupMetricsCalculator.change_percent].
  split; [reflexivity |].
  split; [now destruct (StartupMetricsCalculator.cell row latest) |].
  split; [now destruct (StartupMetricsCalculator.cell row prev) |].
  split; [reflexivity |].
  split; [| split].
  - intros Hprev. rewrite Hprev.
    change (Qabs 0) with 0. change (Py.eqb 0 0) with true. cbn [negb].
    split; [reflexivity |]. split; [reflexivity |].
    split; [lra |].
    intros v Hv. rewrite Hv. split; [reflexivity | lra].
  - intros Hlatest. rewrite Hlatest. change (Qabs 0) with 0.
    split; [reflexivity | lra].
  - intros period acc Hnull. unfold StartupMetricsCalculator.classify_row.
    now rewrite Hnull.
Qed.

Lemma C9_null_cells_coerced_to_zero_witness :
  let e := StartupMetricsCalculator.expense_entry "2024-02" "2024-01" hosting_row in
  In e (StartupMetricsCalculator.top_expenses
          (StartupMetricsCalculator._identify_expense_drivers
             [hosting_row] ["2024-01"; "2024-02"]))
  /\ StartupMetricsCalculator.latest_amount e = Qabs (-40)
  /\ StartupMetricsCalculator.previous_amount e = 0
  /\ StartupMetricsCalculator.change_percent e = 0
  /\ StartupMetricsCalculator.change_dollar e == Qabs (-40).
Proof.
  destruct (C9_null_cells_coerced_to_zero
              [hosting_row] ["2024-01"; "2024-02"] "2024-02" "2024-01" [] hosting_row
              eq_refl ltac:(simpl; left; reflexivity) eq_refl)
    as (_ & Htop & _ & _ & _ & _ & Hprev & _ & _).
  destruct (Hprev eq_refl) as (H0 & Hpct & _ & Hv).
  destruct (Hv (-40) eq_refl) as (Hl & Hd).
  cbv zeta. split; [apply Htop; simpl; lia |].
  repeat split; assumption.
Defined.

(** ** The bridge engine *)

Section ListFacts.
Context {A : Type}.

Lemma filter_perm (f : A -> bool) (l l' : list A) :
  Permutation l l' -> Permutation (filter f l) (filter f l').
Proof.
  induction 1 as [| x l l' _ IH | x y l | l l' l'' _ IH1 _ IH2]; cbn [filter].
  - constructor.
  - destruct (f x); [now apply perm_skip | exact IH].
  - destruct (f x), (f y); try reflexivity. apply perm_swap.
  - now transitivity (filter f l').
Qed.

Lemma filter_all (f : A -> bool) (l : list A) :
  (forall x, In x l -> f x = true) -> filter f l = l.
Proof.
  induction l as [| x l IH]; intros H; cbn [filter]; [reflexivity |].
  rewrite (H x (or_introl eq_refl)). f_equal. apply IH.
  intros y Hy. apply H. now right.
Qed.

Lemma filter_none (f : A -> bool) (l : list A) :
  (forall x, In x l -> f x = false) -> filter f l = [].
Proof.
  induction l as [| x l IH]; intros H; cbn [filter]; [reflexivity |].
  rewrite (H x (or_introl eq_refl)). apply IH.
  intros y Hy. apply H. now right.
Qed.

Lemma mem_nat (i : nat) (l : list nat) :
  existsb (Nat.eqb i) l = true <-> In i l.
Proof.
  rewrite existsb_exists. split.
  - intros (j & Hj & E). apply Nat.eqb_eq in E. now subst.
  - intros H. exists i. split; [exact H | apply Nat.eqb_refl].
Qed.

Lemma NoDup_map_filter (g : A -> nat) (f : A -> bool) (l : list A) :
  NoDup (map g l) -> NoDup (map g (filter f l)).
Proof.
  induction l as [| x l IH]; cbn [map filter]; intros H; [constructor |].
  inversion H as [| ? ? Hx Hl]; subst.
  destruct (f x); cbn [map]; [| now apply IH].
  constructor; [| now apply IH].
  intros Hin. apply Hx.
  apply in_map_iff in Hin. destruct Hin as (y & Ey & Hy).
  apply filter_In in Hy. rewrite <- Ey. apply in_map. tauto.
Qed.

Lemma NoDup_map_inj_in (g : A -> nat) (l : list A) (x y : A) :
  NoDup (map g l) -> In x l -> In y l -> g x = g y -> x = y.
Proof.
  induction l as [| a l IH]; cbn [map]; intros H Hx Hy E; [contradiction |].
  inversion H as [| ? ? Ha Hl]; subst.
  destruct Hx as [-> | Hx], Hy as [-> | Hy].
  - reflexivity.
  - exfalso. apply Ha. rewrite E. now apply in_map.
  - exfalso. apply Ha. rewrite <- E. now apply in_map.
  - now apply IH.
Qed.
End ListFacts.

Section Partition.
Import WaterfallCalculator.
Variable top_n : nat.

(** The drivers kept by [nlargest] and the rows left for [Other] split
    the movement of a frame with distinct index labels. *)
Lemma nlargest_partition (key : Driver -> Q) (all : list Driver) :
  NoDup (map label all) ->
  Py.sum (map impact (nlargest top_n key all))
  + Py.sum (map impact (not_in (nlargest top_n key all) all))
  == Py.sum (map impact all).
Proof.
  intros ND. unfold nlargest, not_in.
  set (s := Py.sorted_desc key all).
  assert (P : Permutation all s) by apply sort_perm.
  set (top := firstn top_n s).
  set (q := fun d : Driver =>
              negb (existsb (Nat.eqb (index (row d)))
                            (map (fun t => index (row t)) top))).
  assert (NDs : NoDup (map label s)).
  { eapply Permutation_NoDup; [| exact ND]. now apply Permutation_map. }
  rewrite (sum_perm _ _ (Permutation_map impact (filter_perm q _ _ P))).
  rewrite (sum_perm _ _ (Permutation_map impact P)).
  set (rest := skipn top_n s).
  assert (Es : s = top ++ rest) by (symmetry; apply firstn_skipn).
  rewrite Es in NDs.
  replace (filter q s) with (filter q (top ++ rest)) by now rewrite <- Es.
  replace (map impact s) with (map impact (top ++ rest)) by now rewrite <- Es.
  rewrite filter_app, !map_app, !sum_app.
  rewrite (filter_none q top), (filter_all q rest).
  - cbn [map]. rewrite sum_nil. lra.
  - intros d Hd. unfold q. apply negb_true_iff.
    destruct (existsb _ _) eqn:E; [| reflexivity]. exfalso.
    apply mem_nat in E.
    rewrite map_app in NDs.
    revert E. change (~ In (label d) (map label top)).
    intros Hin.
    assert (Hd' : In (label d) (map label rest)) by now apply in_map.
    clear - NDs Hin Hd'.
    induction (map label top) as [| a l IH]; [contradiction |].
    cbn [app] in NDs. inversion NDs as [| ? ? Ha Hl]; subst.
    destruct Hin as [-> | Hin].
    + apply Ha, in_or_app. now right.
    + now apply IH.
  - intros d Hd. unfold q. apply negb_false_iff, mem_nat.
    now apply (in_map (fun t => index (row t))).
Qed.
End Partition.

Section Build.
Import WaterfallCalculator.

Lemma mapM_names (l : list Driver) :
  (exists names,
      Py.mapM (fun d => display_name (account (row d))) l = Py.Ok names)
  \/ (exists msg,
         Py.mapM (fun d => display_name (account (row d))) l
         = Py.Err (Py.TypeError msg)).
Proof.
  induction l as [| d l IH]; cbn [Py.mapM].
  - left. now eexists.
  - destruct (account (row d)) as [name |]; cbn [display_name Py.bind].
    + destruct IH as [[names ->] | [msg ->]]; cbn [Py.bind].
      * left. now eexists.
      * right. now eexists.
    + right. now eexists.
Qed.

Lemma of_exact_cases (q : Q) :
  (Qabs q < Py.OVERFLOW
   /\ exists x, Py.of_exact q = Py.Finite x /\ Qabs x <= Qabs q)
  \/ (Py.OVERFLOW <= Qabs q /\ Py.of_exact q = Py.Infinity (Py.ltb q 0)).
Proof.
  unfold Py.of_exact, Py.leb.
  destruct (Qle_bool Py.OVERFLOW (Qabs q)) eqn:E.
  - right. apply Qle_bool_iff in E. now split.
  - left. split.
    + destruct (Qlt_le_dec (Qabs q) Py.OVERFLOW) as [H | H]; [exact H |].
      apply Qle_bool_iff in H. congruence.
    + destruct (Qle_bool (Qabs q) Py.UNDERFLOW).
      * exists 0. split; [reflexivity |]. apply Qabs_nonneg.
      * exists q. split; [reflexivity |]. apply Qle_refl.
Qed.

Lemma pct_of_quotient (d : Q) :
  let q := Py.float_round (Py.float_mul (Py.of_exact d) 100) 2 in
  q <> Py.NaN
  /\ (forall negative, q = Py.Infinity negative ->
                       Py.OVERFLOW <= Qabs (d * 100))
  /\ (Qabs (d * 100) < Py.OVERFLOW -> exists x, q = Py.Finite x).
Proof.
  cbv zeta.
  assert (Hgrow : Qabs d <= Qabs (d * 100)).
  { rewrite Qabs_Qmult. change (Qabs 100) with 100.
    pose proof (Qabs_nonneg d). lra. }
  destruct (of_exact_cases d) as [[Hd (x & -> & Hx)] | [Hd ->]];
    cbn [Py.float_mul].
  - assert (Hxd : Qabs (x * 100) <= Qabs (d * 100)).
    { rewrite !Qabs_Qmult. change (Qabs 100) with 100. lra. }
    destruct (of_exact_cases (x * 100)) as [[Hm (y & -> & _)] | [Hm ->]];
      cbn [Py.float_round].
    + split; [discriminate |]. split; [discriminate |]. intros _. now eexists.
    + split; [discriminate |].
      split; [intros; eapply Qle_trans; [exact Hm | exact Hxd] |].
      intros Hlt. exfalso. apply (Qlt_irrefl Py.OVERFLOW).
      eapply Qle_lt_trans; [eapply Qle_trans; [exact Hm | exact Hxd] | exact Hlt].
  - change (Py.eqb 100 0) with false. cbn [Py.float_round].
    split; [discriminate |].
    split; [intros; eapply Qle_trans; [exact Hd | exact Hgrow] |].
    intros Hlt. exfalso. apply (Qlt_irrefl Py.OVERFLOW).
    eapply Qle_lt_trans; [eapply Qle_trans; [exact Hd | exact Hgrow] | exact Hlt].
Qed.

Lemma movement_pct_total (t p : Q) :
  exists q,
    movement_pct t p = Py.Ok q
    /\ (p == 0 -> q = Py.Finite 0)
    /\ q <> Py.NaN
    /\ (forall negative, q = Py.Infinity negative ->
                         ~ p == 0 /\ Py.OVERFLOW <= Qabs (t / p * 100))
    /\ (Qabs (t / p * 100) < Py.OVERFLOW -> exists x, q = Py.Finite x).
Proof.
  unfold movement_pct, Py.div.
  destruct (Py.eqb p 0) eqn:E; cbn [negb Py.bind].
  - eexists. split; [reflexivity |]. split; [reflexivity |].
    split; [discriminate |]. split; [discriminate |]. now eexists.
  - apply eqb_false in E.
    destruct (pct_of_quotient (t / p)) as (Hnan & Hinf & Hfin).
    cbv zeta in Hnan, Hinf, Hfin.
    eexists. split; [reflexivity |].
    split; [intros Hp; contradiction |].
    split; [exact Hnan |].
    split; [intros negative Hq; split; [exact E | now apply (Hinf negative)] |].
    exact Hfin.
Qed.

Lemma build_inv (l1 l2 : string) (p1 p2 : Q) (top : list Driver) (other : Q)
      (w : Waterfall) :
  build l1 l2 p1 p2 top other = Py.Ok w ->
  values w = [p1] ++ map impact top ++ other_bar other ++ [p2]
  /\ measures w
     = ["absolute"] ++ map (fun _ => "relative") (map impact top)
       ++ map (fun _ => "relative") (other_bar other) ++ ["total"]
  /\ top_drivers_count w = List.length top
  /\ movement_pct (p2 - p1) p1 = Py.Ok (total_movement_pct w).
Proof.
  unfold build, other_bar.
  destruct (mapM_names top) as [[names ->] | [msg ->]]; cbn [Py.bind];
    [| discriminate].
  destruct (movement_pct_total (p2 - p1) p1) as (pct & Epct & _).
  rewrite Epct. cbn [Py.bind]. intros [= <-].
  cbn [values measures top_drivers_count total_movement_pct].
  destruct (Py.gtb (Qabs other) (1 # 100)); cbn [map app]; auto.
Qed.

Lemma build_err (l1 l2 : string) (p1 p2 : Q) (top : list Driver) (other : Q)
      (e : Py.exc) :
  build l1 l2 p1 p2 top other = Py.Err e -> exists msg, e = Py.TypeError msg.
Proof.
  unfold build.
  destruct (mapM_names top) as [[names ->] | [msg ->]]; cbn [Py.bind].
  - destruct (movement_pct_total (p2 - p1) p1) as (pct & -> & _).
    cbn [Py.bind]. discriminate.
  - intros [= <-]. now eexists.
Qed.

Lemma combine_app {X Y : Type} (a b : list X) (c d : list Y) :
  List.length a = List.length c ->
  combine (a ++ b) (c ++ d) = combine a c ++ combine b d.
Proof.
  revert c. induction a as [| x a IH]; intros [| y c] H; try discriminate.
  - reflexivity.
  - cbn. f_equal. apply IH. now injection H.
Qed.

(** Values of the segments labelled [m] in a block that carries the one
    label [lbl]. *)
Lemma block_filter (lbl m : string) (vs : list Q) :
  map snd (filter (fun s : string * Q => String.eqb (fst s) m)
                  (combine (map (fun _ => lbl) vs) vs))
  = if String.eqb lbl m then vs else [].
Proof.
  induction vs as [| v vs IH]; cbn.
  - now destruct (String.eqb lbl m).
  - destruct (String.eqb lbl m); cbn; now rewrite IH.
Qed.

Lemma build_bridge (l1 l2 : string) (p1 p2 : Q) (top : list Driver) (other : Q)
      (w : Waterfall) :
  build l1 l2 p1 p2 top other = Py.Ok w ->
  bridge_sum w == p1 + Py.sum (map impact top) + Py.sum (other_bar other)
  /\ bridge_end w == p2
  /\ has_other w = Py.gtb (Qabs other) (1 # 100).
Proof.
  intros H. apply build_inv in H. destruct H as (Hv & Hm & Hc & _).
  assert (Hseg : forall m,
             map snd (filter (fun s : string * Q => String.eqb (fst s) m)
                             (segments w))
             = (if String.eqb "absolute" m then [p1] else [])
                 ++ (if String.eqb "relative" m then map impact top else [])
                 ++ (if String.eqb "relative" m then other_bar other else [])
                 ++ (if String.eqb "total" m then [p2] else [])).
  { intros m. unfold segments. rewrite Hv, Hm.
    change ["absolute"] with (map (fun _ : Q => "absolute") [p1]).
    change ["total"] with (map (fun _ : Q => "total") [p2]).
    rewrite !combine_app by (now rewrite !length_map).
    rewrite !filter_app, !map_app, !block_filter. reflexivity. }
  unfold bridge_sum, bridge_end, measure_sum, has_other.
  rewrite !Hseg, Hv, Hc. cbn [String.eqb Ascii.eqb Bool.eqb andb].
  cbn [app]. repeat split.
  - rewrite !app_nil_r, sum_app, sum_cons, sum_nil. lra.
  - rewrite sum_cons, sum_nil. lra.
  - cbn [List.length]. rewrite !length_app, length_map. unfold other_bar.
    destruct (Py.gtb (Qabs other) (1 # 100)); cbn [List.length].
    + apply Nat.eqb_eq. lia.
    + apply Nat.eqb_neq. lia.
Qed.
End Build.

Section Frames.
Import WaterfallCalculator.
Variable df : list Row.
Variables period1_cols period2_cols : list string.
Variable top_n : nat.

Abbreviation driver' := (driver period1_cols period2_cols).
Abbreviation frame' := (frame df period1_cols period2_cols).

Lemma driver_sums (f : Q -> Q) (s : Q) (sel : list Row) :
  (forall m, f m == s * m) ->
  Py.sum (map impact (map (driver' f) sel))
  == s * (total2 (map (driver' f) sel) - total1 (map (driver' f) sel)).
Proof.
  intros Hf. unfold total1, total2.
  induction sel as [| r sel IH]; cbn [map].
  - rewrite !sum_nil. lra.
  - rewrite !sum_cons, IH. cbn [impact period1_total period2_total driver].
    rewrite Hf. lra.
Qed.

Lemma label_driver (f : Q -> Q) (sel : list Row) :
  map label (map (driver' f) sel) = map index sel.
Proof. rewrite map_map. reflexivity. Qed.

Lemma same_category (c c' : string) (r : Row) :
  category_is c r = true -> category_is c' r = true -> c = c'.
Proof.
  unfold category_is. destruct (category r) as [| s]; [discriminate |].
  intros H H'. apply String.eqb_eq in H, H'. congruence.
Qed.

Lemma rows_of_NoDup (cats : list string) :
  NoDup (map index df) -> NoDup cats -> NoDup (map index (rows_of df cats)).
Proof.
  intros ND. unfold rows_of.
  induction cats as [| c cats IH]; intros NC; cbn [flat_map map].
  - constructor.
  - inversion NC as [| ? ? Hc NC']; subst.
    rewrite map_app. apply NoDup_app.
    + now apply NoDup_map_filter.
    + now apply IH.
    + intros i Hi Hi'.
      apply in_map_iff in Hi. destruct Hi as (r & <- & Hr).
      apply in_map_iff in Hi'. destruct Hi' as (r' & E & Hr').
      apply filter_In in Hr. destruct Hr as [Hr Hcat].
      apply in_flat_map in Hr'. destruct Hr' as (c' & Hc' & Hr').
      apply filter_In in Hr'. destruct Hr' as [Hr' Hcat'].
      assert (r' = r) by (eapply NoDup_map_inj_in; eauto).
      subst r'. apply Hc.
      now rewrite (same_category c c' r Hcat Hcat').
Qed.

(** The raw-category path, for any row selection. *)
Lemma raw_reconciled (l1 l2 : string) (p : Row -> bool) :
  let df_filtered := map (driver' (fun m => m)) (filter p df) in
  let top := nlargest top_n (fun d => Qabs (movement d)) df_filtered in
  reconciled_bridge df top_n
    (build l1 l2 (total1 df_filtered) (total2 df_filtered) top
           (Py.sum (map movement (not_in top df_filtered)))).
Proof.
  intros F top.
  exists l1, l2, (total1 F), (total2 F), (fun d => Qabs (movement d)), F.
  cbn zeta. fold top. repeat split.
  - f_equal. f_equal. apply map_ext_in.
    intros d Hd. unfold not_in in Hd. apply filter_In in Hd.
    destruct Hd as [Hd _]. unfold F in Hd.
    apply in_map_iff in Hd. destruct Hd as (r & <- & _). reflexivity.
  - unfold F. rewrite (driver_sums (fun m => m) 1); [lra | intros; lra].
  - intros ND. unfold F. rewrite label_driver. now apply NoDup_map_filter.
Qed.

Lemma calculate_waterfall_reconciled (metric : string) (metric_filter : option string) :
  reconciled_bridge df top_n
    (calculate_waterfall df period1_cols period2_cols top_n metric metric_filter).
Proof.
  unfold calculate_waterfall.
  destruct metric_filter as [[| c f] |]; apply raw_reconciled.
Qed.

Lemma gross_profit_reconciled :
  reconciled_bridge df top_n
    (_calculate_gross_profit_waterfall df period1_cols period2_cols top_n).
Proof.
  unfold _calculate_gross_profit_waterfall, _build_waterfall_structure.
  do 4 eexists. exists (fun d => Qabs (impact d)).
  exists (frame' "Revenue" (fun m => m) ++ frame' "Cost of Goods Sold" (fun m => - m)).
  cbn zeta. split; [reflexivity |]. split.
  - rewrite map_app, sum_app. unfold frame.
    rewrite (driver_sums (fun m => m) 1) by (intros; lra).
    rewrite (driver_sums (fun m => - m) (-1)) by (intros; lra).
    lra.
  - intros ND. unfold frame. rewrite map_app, !label_driver.
    pose proof (rows_of_NoDup ["Revenue"; "Cost of Goods Sold"] ND) as H.
    unfold rows_of in H. cbn [flat_map] in H.
    rewrite app_nil_r, map_app in H. apply H.
    repeat constructor; cbn; intuition discriminate.
Qed.

Lemma operating_profit_reconciled :
  reconciled_bridge df top_n
    (_calculate_operating_profit_waterfall df period1_cols period2_cols top_n).
Proof.
  unfold _calculate_operating_profit_waterfall, _build_waterfall_structure.
  do 4 eexists. exists (fun d => Qabs (impact d)).
  exists (frame' "Revenue" (fun m => m) ++ frame' "Cost of Goods Sold" (fun m => - m)
          ++ frame' "Operating Expenses" (fun m => - m)).
  cbn zeta. split; [reflexivity |]. split.
  - rewrite !map_app, !sum_app. unfold frame.
    rewrite (driver_sums (fun m => m) 1) by (intros; lra).
    rewrite !(driver_sums (fun m => - m) (-1)) by (intros; lra).
    lra.
  - intros ND. unfold frame. rewrite !map_app, !label_driver.
    pose proof (rows_of_NoDup
                  ["Revenue"; "Cost of Goods Sold"; "Operating Expenses"] ND) as H.
    unfold rows_of in H. cbn [flat_map] in H.
    rewrite app_nil_r, !map_app in H. apply H.
    repeat constructor; cbn; intuition discriminate.
Qed.

Lemma concat_nonempty (l : list (list Driver * Q)) :
  List.concat (map fst (filter (fun ds => (0 <? List.length (fst ds))%nat) l))
  = List.concat (map fst l).
Proof.
  induction l as [| [fr s] l IH]; cbn [filter]; [reflexivity |].
  cbn [fst]. destruct fr as [| d fr].
  - change (0 <? List.length (@nil Driver))%nat with false.
    cbn [map List.concat fst app]. exact IH.
  - change (0 <? List.length (d :: fr))%nat with true.
    cbn [map List.concat fst]. now rewrite IH.
Qed.

Lemma signed_sums (l : list (list Driver * Q)) :
  Forall (fun ds => Py.sum (map impact (fst ds))
                    == snd ds * (total2 (fst ds) - total1 (fst ds))) l ->
  Py.sum (map (fun ds => total2 (fst ds) * snd ds) l)
  - Py.sum (map (fun ds => total1 (fst ds) * snd ds) l)
  == Py.sum (map impact (List.concat (map fst l))).
Proof.
  induction 1 as [| ds l Hds _ IH]; cbn [map List.concat].
  - rewrite !sum_nil. lra.
  - rewrite map_app, sum_app, !sum_cons, Hds, <- IH. lra.
Qed.

Lemma net_profit_reconciled :
  (exists key, _calculate_net_profit_waterfall df period1_cols period2_cols top_n
               = Py.Err (Py.KeyError key))
  \/ reconciled_bridge df top_n
       (_calculate_net_profit_waterfall df period1_cols period2_cols top_n).
Proof.
  unfold _calculate_net_profit_waterfall.
  set (dfs := map (fun cs => frame' (fst cs) (fun m => m * snd cs)) net_profit_signs).
  set (signed := combine dfs (map snd net_profit_signs)).
  set (nonempty := filter (fun ds => (0 <? List.length (fst ds))%nat) signed).
  destruct nonempty as [| ds0 rest] eqn:E; [left; now eexists | right].
  rewrite <- E. clear E ds0 rest.
  unfold _build_waterfall_structure.
  do 4 eexists. exists (fun d => Qabs (impact d)).
  exists (List.concat (map fst nonempty)).
  cbn zeta. split; [reflexivity |]. split.
  - apply signed_sums. unfold nonempty.
    apply Forall_forall. intros ds Hds. apply filter_In in Hds.
    destruct Hds as [Hds _]. revert ds Hds. apply Forall_forall.
    unfold signed, dfs, net_profit_signs. cbn [map combine fst snd].
    repeat constructor; cbn [fst snd]; unfold frame;
      apply (driver_sums (fun m => m * _)); intros; lra.
  - intros ND. unfold nonempty. rewrite concat_nonempty.
    unfold signed, dfs, net_profit_signs.
    cbn [map combine fst snd List.concat].
    unfold frame. rewrite !map_app, !label_driver.
    pose proof (rows_of_NoDup (map fst net_profit_signs) ND) as H.
    unfold rows_of, net_profit_signs in H. cbn [flat_map map fst] in H.
    rewrite !map_app in H. apply H.
    repeat constructor; cbn; intuition discriminate.
Qed.

(** Every outcome of the engine is an unknown-metric [ValueError], the
    [KeyError] of an empty net-profit frame, or a reconciled bridge. *)
Lemma waterfall_shape (q : request) :
  (exists msg, waterfall df period1_cols period2_cols top_n q
               = Py.Err (Py.ValueError msg))
  \/ (exists key, waterfall df period1_cols period2_cols top_n q
                  = Py.Err (Py.KeyError key))
  \/ reconciled_bridge df top_n (waterfall df period1_cols period2_cols top_n q).
Proof.
  destruct q as [metric metric_filter | metric]; cbn [waterfall].
  - right. right. apply calculate_waterfall_reconciled.
  - unfold calculate_derived_metric.
    destruct (String.eqb metric "gross_profit");
      [right; right; apply gross_profit_reconciled |].
    destruct (String.eqb metric "operating_profit");
      [right; right; apply operating_profit_reconciled |].
    destruct (String.eqb metric "net_profit").
    + destruct net_profit_reconciled as [H | H]; auto.
    + left. now eexists.
Qed.
End Frames.

(** C1, as stated, fails: with [top_n = 1] the row left for [Other] moved by
    0.005, which the engine does not emit as a segment, so start + drivers
    falls short of the end value by 0.005 > 1e-6. *)
Lemma C1_counterexample :
  exists w,
    WaterfallCalculator.waterfall half_cent_statement ["Jan"] ["Feb"] 1
      (WaterfallCalculator.RawMetric "revenue" (Some "Revenue")) = Py.Ok w
    /\ WaterfallCalculator.has_other w = false
    /\ ~ Qabs (WaterfallCalculator.bridge_sum w - WaterfallCalculator.bridge_end w)
         <= 1 # 1000000.
Proof.
  eexists. split; [reflexivity |]. split; [reflexivity |].
  vm_compute. intros H. apply H. reflexivity.
Qed.

(** C1 (amended): for every waterfall result, raw category or derived
    metric and every [top_n], over a statement with distinct index labels
    and in exact arithmetic: the start value plus the driver values plus the
    emitted [Other] value differs from the end value by at most 0.01, and
    equals it whenever an [Other] segment is emitted. *)
Theorem C1_bridge_reconciles_up_to_hidden_other
        (df : list WaterfallCalculator.Row)
        (period1_cols period2_cols : list string) (top_n : nat)
        (q : WaterfallCalculator.request) (w : WaterfallCalculator.Waterfall) :
  NoDup (map WaterfallCalculator.index df) ->
  WaterfallCalculator.waterfall df period1_cols period2_cols top_n q = Py.Ok w ->
  Qabs (WaterfallCalculator.bridge_sum w - WaterfallCalculator.bridge_end w) <= 1 # 100
  /\ (WaterfallCalculator.has_other w = true ->
      WaterfallCalculator.bridge_sum w == WaterfallCalculator.bridge_end w).
Proof.
  intros ND Hw.
  destruct (waterfall_shape df period1_cols period2_cols top_n q)
    as [[msg H] | [[key H] | H]]; try (rewrite H in Hw; discriminate).
  destruct H as (l1 & l2 & P1 & P2 & key & all & Hr & Hsum & Hnd).
  cbn zeta in Hr. rewrite Hr in Hw.
  apply build_bridge in Hw. destruct Hw as (Hs & He & Ho).
  pose proof (nlargest_partition top_n key all (Hnd ND)) as Hp.
  rewrite Hs, He, Ho. unfold other_bar.
  set (other := Py.sum (map WaterfallCalculator.impact
                            (WaterfallCalculator.not_in
                               (WaterfallCalculator.nlargest top_n key all) all))) in *.
  set (tops := Py.sum (map WaterfallCalculator.impact
                           (WaterfallCalculator.nlargest top_n key all))) in *.
  destruct (Py.gtb (Qabs other) (1 # 100)) eqn:G.
  - rewrite sum_cons, sum_nil. split.
    + apply Qabs_Qle_condition. split; lra.
    + intros _. lra.
  - apply gtb_false in G. apply Qabs_Qle_condition in G.
    rewrite sum_nil. split; [| discriminate].
    apply Qabs_Qle_condition. split; lra.
Qed.

Lemma C1_bridge_reconciles_up_to_hidden_other_witness :
  exists w,
    WaterfallCalculator.waterfall half_cent_statement ["Jan"] ["Feb"] 1
      (WaterfallCalculator.DerivedMetric "net_profit") = Py.Ok w
    /\ Qabs (WaterfallCalculator.bridge_sum w - WaterfallCalculator.bridge_end w)
       <= 1 # 100
    /\ (WaterfallCalculator.has_other w = true ->
        WaterfallCalculator.bridge_sum w == WaterfallCalculator.bridge_end w).
Proof.
  eexists. split; [reflexivity |].
  apply (C1_bridge_reconciles_up_to_hidden_other
           half_cent_statement ["Jan"] ["Feb"] 1
           (WaterfallCalculator.DerivedMetric "net_profit")).
  - repeat constructor; simpl; intuition lia.
  - reflexivity.
Defined.




(** ** Error outcomes *)

Lemma year_error_class (y : Z) :
  Py.exc_class (Calendar.year_error y) = "ValueError"
  \/ Py.exc_class (Calendar.year_error y) = "OverflowError".
Proof.
  unfold Calendar.year_error.
  repeat match goal with
         | |- context [if ?b then _ else _] => destruct b
         end; cbn; auto.
Qed.

Lemma add_months_err (dt : Calendar.DateTime) (k : Z) (e : Py.exc) :
  Calendar.add_months dt k = Py.Err e ->
  Py.exc_class e = "ValueError" \/ Py.exc_class e = "OverflowError".
Proof.
  unfold Calendar.add_months.
  repeat match goal with
         | |- context [if ?b then _ else _] => destruct b
         end; cbn zeta; try discriminate; intros [= <-];
    apply year_error_class.
Qed.

Lemma runway_err (today : Calendar.DateTime) (cash burn : Q) (e : Py.exc) :
  StartupMetricsCalculator._calculate_runway today cash burn = Py.Err e ->
  Py.exc_class e = "ValueError" \/ Py.exc_class e = "OverflowError".
Proof.
  unfold StartupMetricsCalculator._calculate_runway.
  destruct (Py.leb burn 0); [discriminate |].
  destruct (Calendar.add_months today (Py.int (cash / burn))) as [zd | e'] eqn:E;
    cbn [Py.bind]; [discriminate |].
  intros [= <-]. now apply add_months_err in E.
Qed.





(** ** Runway *)

(** C2, as stated, fails: a cash balance of 120,000 at an average net burn
    of 20,000 gives exactly 6 months, which is not under 6, so the status is
    "concerning" and the urgency "medium" rather than "critical" and "high";
    and the reported months are rounded to one decimal (100 / 3 gives 33.3). *)
Lemma C2_counterexample :
  (exists r,
      StartupMetricsCalculator._calculate_runway a_clock_reading 120000 20000 = Py.Ok r
      /\ StartupMetricsCalculator.months_remaining r = Py.Finite (60 # 10)
      /\ StartupMetricsCalculator.status r = "concerning"
      /\ StartupMetricsCalculator.urgency r = "medium"
      /\ StartupMetricsCalculator.status r <> "critical"
      /\ StartupMetricsCalculator.urgency r <> "high")
  /\ (exists r m,
         StartupMetricsCalculator._calculate_runway a_clock_reading 100 3 = Py.Ok r
         /\ StartupMetricsCalculator.months_remaining r = Py.Finite m
         /\ ~ m == 100 / 3).
Proof.
  split.
  - eexists. split; [reflexivity |]. cbn. repeat split; discriminate.
  - eexists. eexists. split; [reflexivity |]. split; [reflexivity |].
    vm_compute. discriminate.
Qed.

(** C2 (amended): when a cash balance is supplied, the average net burn is
    positive and the projected zero-cash date exists, the runway record is
    produced; [months_remaining] is [cash_balance / avg_net_burn] rounded to
    one decimal, and the bands, taken on the unrounded quotient, are: under
    6 critical/high, under 12 concerning/medium, under 18 comfortable/low,
    otherwise strong/none. In particular 120,000 at a burn of 20,000 yields
    6.0 with status "concerning" and urgency "medium". *)
Theorem C2_runway_bands
        (today zero_date : Calendar.DateTime) (cash burn : Q) :
  0 < burn ->
  Calendar.add_months today (Py.int (cash / burn)) = Py.Ok zero_date ->
  exists r,
    StartupMetricsCalculator._calculate_runway today cash burn = Py.Ok r
    /\ StartupMetricsCalculator.months_remaining r
       = Py.Finite (Py.round (cash / burn) 1)
    /\ (cash / burn < 6 ->
        StartupMetricsCalculator.status r = "critical"
        /\ StartupMetricsCalculator.urgency r = "high")
    /\ (6 <= cash / burn -> cash / burn < 12 ->
        StartupMetricsCalculator.status r = "concerning"
        /\ StartupMetricsCalculator.urgency r = "medium")
    /\ (12 <= cash / burn -> cash / burn < 18 ->
        StartupMetricsCalculator.status r = "comfortable"
        /\ StartupMetricsCalculator.urgency r = "low")
    /\ (18 <= cash / burn ->
        StartupMetricsCalculator.status r = "strong"
        /\ StartupMetricsCalculator.urgency r = "none")
    /\ (cash = 120000 -> burn = 20000 ->
        StartupMetricsCalculator.months_remaining r = Py.Finite (60 # 10)
        /\ StartupMetricsCalculator.status r = "concerning"
        /\ StartupMetricsCalculator.urgency r = "medium").
Proof.
  intros Hburn Hdate.
  unfold StartupMetricsCalculator._calculate_runway.
  assert (Hle : Py.leb burn 0 = false).
  { unfold Py.leb. destruct (Qle_bool burn 0) eqn:E; [| reflexivity].
    apply Qle_bool_iff in E. lra. }
  rewrite Hle, Hdate. cbn [Py.bind].
  eexists. split; [reflexivity |].
  cbn [StartupMetricsCalculator.months_remaining
         StartupMetricsCalculator.status StartupMetricsCalculator.urgency].
  split; [reflexivity |].
  set (months := cash / burn).
  assert (Hscenario : cash = 120000 -> burn = 20000 ->
                      Py.Finite (Py.round months 1) = Py.Finite (60 # 10)
                      /\ Py.ltb months 6 = false /\ Py.ltb months 12 = true).
  { intros -> ->. subst months. repeat split. }
  destruct (Py.ltb months 6) eqn:E6;
    [apply ltb_true in E6 | apply ltb_false in E6];
    (destruct (Py.ltb months 12) eqn:E12;
     [apply ltb_true in E12 | apply ltb_false in E12]);
    (destruct (Py.ltb months 18) eqn:E18;
     [apply ltb_true in E18 | apply ltb_false in E18]);
    cbn [fst snd];
    repeat split; intros; try reflexivity; try (exfalso; lra);
      try (destruct Hscenario as (? & ? & ?); [assumption .. | congruence]).
Qed.

Lemma C2_runway_bands_witness :
  exists r,
    StartupMetricsCalculator._calculate_runway a_clock_reading 120000 20000 = Py.Ok r
    /\ StartupMetricsCalculator.months_remaining r
       = Py.Finite (Py.round (120000 / 20000) 1)
    /\ (120000 / 20000 < 6 ->
        StartupMetricsCalculator.status r = "critical"
        /\ StartupMetricsCalculator.urgency r = "high")
    /\ (6 <= 120000 / 20000 -> 120000 / 20000 < 12 ->
        StartupMetricsCalculator.status r = "concerning"
        /\ StartupMetricsCalculator.urgency r = "medium")
    /\ (12 <= 120000 / 20000 -> 120000 / 20000 < 18 ->
        StartupMetricsCalculator.status r = "comfortable"
        /\ StartupMetricsCalculator.urgency r = "low")
    /\ (18 <= 120000 / 20000 ->
        StartupMetricsCalculator.status r = "strong"
        /\ StartupMetricsCalculator.urgency r = "none")
    /\ (120000 = 120000 -> 20000 = 20000 ->
        StartupMetricsCalculator.months_remaining r = Py.Finite (60 # 10)
        /\ StartupMetricsCalculator.status r = "concerning"
        /\ StartupMetricsCalculator.urgency r = "medium").
Proof.
  apply (C2_runway_bands a_clock_reading
           {| Calendar.year := 2024; Calendar.month := 7; Calendar.day := 31;
              Calendar.hour := 10; Calendar.minute := 30; Calendar.second := 0;
              Calendar.microsecond := 0 |}
           120000 20000).
  - reflexivity.
  - reflexivity.
Defined.

(** ** Dependence on the clock *)

Lemma add_months_date (t1 t2 : Calendar.DateTime) (k : Z) :
  Calendar.date_of t1 = Calendar.date_of t2 ->
  Py.bind (Calendar.add_months t1 k) (fun z => Py.Ok (Calendar.date_of z))
  = Py.bind (Calendar.add_months t2 k) (fun z => Py.Ok (Calendar.date_of z)).
Proof.
  unfold Calendar.date_of. intros [= Hy Hm Hd].
  unfold Calendar.add_months. rewrite Hy, Hm, Hd.
  repeat match goal with
         | |- context [if ?b then _ else _] => destruct b
         end; reflexivity.
Qed.

Lemma runway_same_date (t1 t2 : Calendar.DateTime) (cash burn : Q) :
  Calendar.date_of t1 = Calendar.date_of t2 ->
  StartupMetricsCalculator._calculate_runway t1 cash burn
  = StartupMetricsCalculator._calculate_runway t2 cash burn.
Proof.
  intros Hd. unfold StartupMetricsCalculator._calculate_runway.
  destruct (Py.leb burn 0); [reflexivity |].
  pose proof (add_months_date t1 t2 (Py.int (cash / burn)) Hd) as H.
  destruct (Calendar.add_months t1 _) as [z1 | e1],
           (Calendar.add_months t2 _) as [z2 | e2];
    cbn [Py.bind] in *; try discriminate.
  - assert (Hz : Calendar.date_of z1 = Calendar.date_of z2) by congruence.
    now rewrite Hz.
  - congruence.
Qed.

(** Two runway records for the same balance and burn agree on every field
    but the projected date. *)
Lemma runway_clock (t1 t2 : Calendar.DateTime) (cash burn : Q)
      (r1 r2 : StartupMetricsCalculator.RunwayMetrics) :
  StartupMetricsCalculator._calculate_runway t1 cash burn = Py.Ok r1 ->
  StartupMetricsCalculator._calculate_runway t2 cash burn = Py.Ok r2 ->
  StartupMetricsCalculator.months_remaining r1
  = StartupMetricsCalculator.months_remaining r2
  /\ StartupMetricsCalculator.status r1 = StartupMetricsCalculator.status r2
  /\ StartupMetricsCalculator.urgency r1 = StartupMetricsCalculator.urgency r2
  /\ StartupMetricsCalculator.cash_balance r1
     = StartupMetricsCalculator.cash_balance r2.
Proof.
  unfold StartupMetricsCalculator._calculate_runway.
  destruct (Py.leb burn 0).
  - intros [= <-] [= <-]. auto.
  - destruct (Calendar.add_months t1 _) as [z1 | e1]; [| discriminate].
    destruct (Calendar.add_months t2 _) as [z2 | e2]; [| discriminate].
    cbn [Py.bind]. intros [= <-] [= <-]. cbn. auto.
Qed.

(** C5, as stated, fails: the projected zero-cash date is counted from the
    system clock, so two runs on the same table and cash balance, one on
    2024-01-31 and one on 2024-02-01, give different runway records. *)
Lemma C5_counterexample :
  exists m1 m2 r1 r2,
    StartupMetricsCalculator.calculate_all_metrics
      two_month_statement two_months pow_stub format_stub str_stub
      a_clock_reading (Some 1600) = Py.Ok m1
    /\ StartupMetricsCalculator.calculate_all_metrics
         two_month_statement two_months pow_stub format_stub str_stub
         a_later_clock_reading (Some 1600) = Py.Ok m2
    /\ StartupMetricsCalculator.m_runway m1 = Some r1
    /\ StartupMetricsCalculator.m_runway m2 = Some r2
    /\ StartupMetricsCalculator.zero_cash_date r1
       = Some {| Calendar.d_year := 2024; Calendar.d_month := 11;
                 Calendar.d_day := 30 |}
    /\ StartupMetricsCalculator.zero_cash_date r2
       = Some {| Calendar.d_year := 2024; Calendar.d_month := 12;
                 Calendar.d_day := 1 |}
    /\ m1 <> m2.
Proof.
  do 4 eexists.
  split; [vm_compute; reflexivity |].
  split; [vm_compute; reflexivity |].
  split; [reflexivity |]. split; [reflexivity |].
  split; [reflexivity |]. split; [reflexivity |].
  intros H. apply (f_equal StartupMetricsCalculator.m_runway) in H.
  cbn in H. discriminate.
Qed.

(** C5 (amended): two runs of the metrics pipeline on identical input give
    identical outputs when the system clock shows the same calendar date;
    across dates the outputs agree on every field except the runway
    record's projected zero-cash date. *)
Theorem C5_reproducible_up_to_clock
        (df : list StartupMetricsCalculator.Row) (value_columns : list string)
        (float_pow : Q -> Q -> Q) (format_1f : Py.float -> string)
        (str_float : Q -> string)
        (today1 today2 : Calendar.DateTime) (cash : option Q) :
  (Calendar.date_of today1 = Calendar.date_of today2 ->
   StartupMetricsCalculator.calculate_all_metrics
     df value_columns float_pow format_1f str_float today1 cash
   = StartupMetricsCalculator.calculate_all_metrics
       df value_columns float_pow format_1f str_float today2 cash)
  /\ (forall m1 m2 : StartupMetricsCalculator.Metrics,
         StartupMetricsCalculator.calculate_all_metrics
           df value_columns float_pow format_1f str_float today1 cash = Py.Ok m1 ->
         StartupMetricsCalculator.calculate_all_metrics
           df value_columns float_pow format_1f str_float today2 cash = Py.Ok m2 ->
         without_zero_cash_date m1 = without_zero_cash_date m2).
Proof.
  split.
  - intros Hd. unfold StartupMetricsCalculator.calculate_all_metrics.
    destruct cash as [c |]; [| reflexivity].
    destruct (StartupMetricsCalculator._calculate_burn_rate _) as [b |];
      [| reflexivity].
    destruct (negb _); [| reflexivity].
    now rewrite (runway_same_date today1 today2 c _ Hd).
  - intros m1 m2.
    unfold StartupMetricsCalculator.calculate_all_metrics.
    destruct cash as [c |];
      [| cbn [Py.bind]; intros [= <-] [= <-]; reflexivity].
    destruct (StartupMetricsCalculator._calculate_burn_rate _) as [b |];
      [| cbn [Py.bind]; intros [= <-] [= <-]; reflexivity].
    destruct (negb _);
      [| cbn [Py.bind]; intros [= <-] [= <-]; reflexivity].
    destruct (StartupMetricsCalculator._calculate_runway today1 c _)
      as [r1 | e1] eqn:E1; [| discriminate].
    destruct (StartupMetricsCalculator._calculate_runway today2 c _)
      as [r2 | e2] eqn:E2; [| discriminate].
    cbn [Py.bind]. intros [= <-] [= <-].
    destruct (runway_clock _ _ _ _ _ _ E1 E2) as (Hm & Hs & Hu & Hc).
    unfold without_zero_cash_date, StartupMetricsCalculator._generate_key_insights,
      StartupMetricsCalculator.runway_insights.
    cbn [StartupMetricsCalculator.m_aggregates StartupMetricsCalculator.m_burn_rate
           StartupMetricsCalculator.m_runway StartupMetricsCalculator.m_growth
           StartupMetricsCalculator.m_expense_drivers
           StartupMetricsCalculator.m_efficiency
           StartupMetricsCalculator.m_insights option_map].
    now rewrite Hm, Hs, Hu, Hc.
Qed.

Lemma C5_reproducible_up_to_clock_witness :
  StartupMetricsCalculator.calculate_all_metrics
    two_month_statement two_months pow_stub format_stub str_stub
    a_clock_reading (Some 1600)
  = StartupMetricsCalculator.calculate_all_metrics
      two_month_statement two_months pow_stub format_stub str_stub
      {| Calendar.year := 2024; Calendar.month := 1; Calendar.day := 31;
         Calendar.hour := 23; Calendar.minute := 59; Calendar.second := 59;
         Calendar.microsecond := 0 |} (Some 1600).
Proof.
  apply (proj1 (C5_reproducible_up_to_clock
                  two_month_statement two_months pow_stub format_stub str_stub
                  a_clock_reading
                  {| Calendar.year := 2024; Calendar.month := 1; Calendar.day := 31;
                     Calendar.hour := 23; Calendar.minute := 59;
                     Calendar.second := 59; Calendar.microsecond := 0 |}
                  (Some 1600))).
  reflexivity.
Defined.

(** C6 (evaluation at the failing input): with the value columns in
    chronological order "Jan 2024", "Feb 2024", the per-period totals are
    keyed correctly, but [net_burn_by_period] files February's net burn
    (230) under "Jan 2024" and January's (90) under "Feb 2024", and the only
    month-over-month value, the growth into February, is keyed "Jan 2024". *)
Theorem C6_period_maps_misaligned :
  exists agg burn growth,
    StartupMetricsCalculator._calculate_aggregates two_month_statement two_months
      = Some agg
    /\ StartupMetricsCalculator._calculate_burn_rate (Some agg) = Some burn
    /\ StartupMetricsCalculator._calculate_growth_metrics pow_stub (Some agg)
       = Some growth
    /\ Py.get (StartupMetricsCalculator.expenses_by_period agg) "Jan 2024" = Some 100
    /\ Py.get (StartupMetricsCalculator.revenue_by_period agg) "Jan 2024" = Some 10
    /\ Py.get (StartupMetricsCalculator.expenses_by_period agg) "Feb 2024" = Some 250
    /\ Py.get (StartupMetricsCalculator.revenue_by_period agg) "Feb 2024" = Some 20
    /\ Py.get (StartupMetricsCalculator.gross_burn_by_period burn) "Jan 2024"
       = Some 100
    /\ Py.get (StartupMetricsCalculator.net_burn_by_period burn) "Jan 2024"
       = Some 230
    /\ Py.get (StartupMetricsCalculator.net_burn_by_period burn) "Feb 2024"
       = Some 90
    /\ StartupMetricsCalculator.mom_growth_by_period growth
       = [ ("Jan 2024", 1000 # 10) ].
Proof.
  do 3 eexists.
  split; [vm_compute; reflexivity |].
  split; [vm_compute; reflexivity |].
  split; [vm_compute; reflexivity |].
  repeat split.
Qed.

(** ** Taxonomy resolution *)

Section DictFolds.
Context {X V : Type} (g : X -> V).

Lemma In_set (d : Py.dict V) (k k' : string) (v v' : V) :
  In (k', v') (Py.set d k v) -> (k' = k /\ v' = v) \/ In (k', v') d.
Proof.
  induction d as [| [k0 v0] d IH]; cbn [Py.set].
  - intros [[= <- <-] | []]. now left.
  - destruct (String.eqb k k0) eqn:E.
    + apply String.eqb_eq in E. subst k0.
      intros [[= <- <-] | H]; [now left | right; now right].
    + intros [H | H]; [right; now left |].
      destruct (IH H) as [H' | H']; [now left | right; now right].
Qed.

Lemma fold_set_In (l : list (string * X)) (acc : Py.dict V) (k : string) (v : V) :
  In (k, v) (fold_left (fun a kv => Py.set a (fst kv) (g (snd kv))) l acc) ->
  (exists x, In (k, x) l /\ v = g x) \/ In (k, v) acc.
Proof.
  revert acc. induction l as [| [k0 x0] l IH]; intros acc; cbn [fold_left].
  - now right.
  - intros H. destruct (IH _ H) as [(x & Hx & ->) | H'].
    + left. exists x. split; [now right | reflexivity].
    + cbn [fst snd] in H'. apply In_set in H'.
      destruct H' as [[-> ->] | H']; [| now right].
      left. exists x0. split; [now left | reflexivity].
Qed.
End DictFolds.

Section Categorize.
Import AccountMapper.
Variable token_sort_ratio : string -> string -> Q.

Lemma max_from_In {A : Type} (key : A -> Q) (best : A) (xs : list A) :
  In (max_from key best xs) (best :: xs).
Proof.
  revert best. induction xs as [| x xs IH]; intros best; cbn [max_from].
  - now left.
  - destruct (IH (if Py.gtb (key x) (key best) then x else best)) as [H | H].
    + rewrite <- H. destruct (Py.gtb (key x) (key best)); cbn; auto.
    + right. now right.
Qed.

Lemma all_matches_taxonomy (name : string) (m : string * string * Q) :
  In m (all_matches token_sort_ratio name) -> In (fst (fst m)) taxonomy.
Proof.
  unfold all_matches. intros H.
  apply in_flat_map in H. destruct H as (entry & He & Hm).
  apply in_map_iff in Hm. destruct Hm as (std & <- & _).
  cbn [fst]. unfold taxonomy. now apply in_map.
Qed.

Lemma best_of_In (dummy : string * string * Q) (ms : list (string * string * Q)) :
  In (max_from (@snd (string * string) Q) (hd dummy ms) (tl ms)) (dummy :: ms).
Proof.
  destruct ms as [| m ms]; cbn [hd tl].
  - now left.
  - right. apply max_from_In.
Qed.

Lemma fuzzy_category (name : string) (threshold : Q) :
  In (category (_fuzzy_match token_sort_ratio name threshold)) allowed_categories.
Proof.
  unfold _fuzzy_match, best_match.
  pose proof (all_matches_taxonomy name) as HT.
  pose proof (best_of_In ("Uncategorized", EmptyString, 0)
                         (all_matches token_sort_ratio name)) as HB.
  revert HT HB.
  generalize (all_matches token_sort_ratio name). intros ms HT HB.
  cbn zeta.
  destruct (max_from _ _ _) as [[cat sub] score].
  assert (Hcat : In cat (taxonomy ++ ["Uncategorized"])).
  { apply in_or_app. destruct HB as [HB | HB].
    - right. left. now injection HB.
    - left. apply (HT _ HB). }
  destruct (Py.geb score threshold); cbn [category]; unfold allowed_categories.
  - now apply in_map.
  - apply in_map, in_or_app. right. now left.
Qed.

Variable ai : option (Py.dict AiEntry).

Lemma fill_in_sourced (results : Py.dict Mapping) (name : string) :
  sourced ai results -> sourced ai (fill_in token_sort_ratio results name).
Proof.
  intros Hs. unfold fill_in.
  pose proof (fuzzy_category name 70) as HF. revert HF.
  generalize (_fuzzy_match token_sort_ratio name 70). intros fz HF.
  assert (Hset : sourced ai (Py.set results name fz)).
  { intros k m. rewrite get_set.
    destruct (String.eqb k name); [| apply Hs].
    intros Hm. injection Hm as Hm. rewrite <- Hm. left. exact HF. }
  destruct (Py.get results name) as [r |]; [| exact Hset].
  destruct (Py.ltb (confidence r) (7 # 10)); [| exact Hs].
  destruct (Py.gtb _ _); [exact Hset | exact Hs].
Qed.

Lemma fill_in_keeps (results : Py.dict Mapping) (name k : string) :
  Py.get results k <> None \/ k = name ->
  Py.get (fill_in token_sort_ratio results name) k <> None.
Proof.
  unfold fill_in. generalize (_fuzzy_match token_sort_ratio name 70).
  intros fz H.
  destruct (Py.get results name) as [r |] eqn:E.
  - assert (Hk : Py.get results k <> None)
      by (destruct H as [H | ->]; [exact H | congruence]).
    destruct (Py.ltb (confidence r) (7 # 10)); [| exact Hk].
    destruct (Py.gtb _ _); [| exact Hk].
    rewrite get_set. now destruct (String.eqb k name).
  - rewrite get_set. destruct (String.eqb k name) eqn:Ek; [discriminate |].
    destruct H as [H | ->]; [exact H |].
    now rewrite String.eqb_refl in Ek.
Qed.

Lemma fold_fill_in (names : list string) (results : Py.dict Mapping) :
  sourced ai results ->
  sourced ai (fold_left (fill_in token_sort_ratio) names results)
  /\ forall k, Py.get results k <> None \/ In k names ->
               Py.get (fold_left (fill_in token_sort_ratio) names results) k <> None.
Proof.
  revert results.
  induction names as [| n names IH]; intros results Hs; cbn [fold_left].
  - split; [exact Hs |]. intros k [H | []]. exact H.
  - destruct (IH _ (fill_in_sourced results n Hs)) as [IHs IHk].
    split; [exact IHs |].
    intros k [H | [-> | H]]; apply IHk; auto using fill_in_keeps.
Qed.

Lemma ai_results_sourced :
  sourced ai match ai with
          | Some ai_mapping => Py.update [] (_ai_categorize ai_mapping)
          | None => []
          end.
Proof.
  intros name m. destruct ai as [ai_mapping |]; [| discriminate].
  intros H. apply get_In in H. unfold Py.update in H.
  apply (fold_set_In (fun x : Mapping => x)) in H.
  destruct H as [(x & Hx & ->) | []].
  unfold _ai_categorize in Hx.
  apply (fold_set_In convert_entry) in Hx.
  destruct Hx as [(e & He & ->) | []].
  right. exists ai_mapping, e. auto.
Qed.

Lemma unique_complete (xs : list (option string)) (seen : list string) (x : string) :
  In (Some x) xs -> In x (unique seen xs) \/ In x seen.
Proof.
  revert seen. induction xs as [| [y |] xs IH]; intros seen; cbn [unique].
  - contradiction.
  - intros [[= ->] | H].
    + destruct (existsb (String.eqb x) seen) eqn:E.
      * right. apply existsb_exists in E. destruct E as (z & Hz & E).
        apply String.eqb_eq in E. now subst.
      * left. now left.
    + destruct (existsb (String.eqb y) seen).
      * now apply IH.
      * destruct (IH (y :: seen) H) as [H' | [-> | H']]; auto.
        -- left. now right.
        -- left. now left.
  - intros [[=] | H]. now apply IH.
Qed.
End Categorize.

(** C4, as stated, fails: a row whose account cell is null has no mapping
    entry and gets the category "Unknown", which is outside the taxonomy;
    and a null category in the external answer is passed through as null. *)
Lemma C4_counterexample :
  (exists r,
      AccountMapper.batch_categorize_dataframe no_match_score None [None] = [r]
      /\ AccountMapper.row_category r = AccountMapper.PyStr "Unknown"
      /\ ~ In (AccountMapper.row_category r) AccountMapper.allowed_categories)
  /\ (exists r,
         AccountMapper.batch_categorize_dataframe
           no_match_score (Some null_category_answer) [Some "Sales"] = [r]
         /\ AccountMapper.row_category r = AccountMapper.PyNone
         /\ ~ In (AccountMapper.row_category r) AccountMapper.allowed_categories).
Proof.
  split; eexists; (split; [reflexivity |]); (split; [reflexivity |]);
    cbn; intuition discriminate.
Qed.

(** C4 (amended): after [batch_categorize_dataframe], a row with a null
    account name has the category "Unknown"; any other row has either a
    fuzzy-matching category, which is a member of the six-category taxonomy
    or "Uncategorized", or the category of its entry in the external answer
    as given there ("Unknown" when the entry omits it). Without an external
    answer every named row is in the taxonomy or "Uncategorized". *)
Theorem C4_category_sources
        (token_sort_ratio : string -> string -> Q)
        (ai : option (Py.dict AccountMapper.AiEntry))
        (df : list (option string)) :
  Forall
    (fun r =>
       match AccountMapper.account r with
       | None => AccountMapper.row_category r = AccountMapper.PyStr "Unknown"
       | Some name =>
           category_source ai name (AccountMapper.row_category r)
           /\ (ai = None ->
               In (AccountMapper.row_category r) AccountMapper.allowed_categories)
       end)
    (AccountMapper.batch_categorize_dataframe token_sort_ratio ai df).
Proof.
  unfold AccountMapper.batch_categorize_dataframe.
  apply Forall_forall. intros r Hr.
  apply in_map_iff in Hr. destruct Hr as (x & <- & Hx).
  unfold AccountMapper.apply_mapping. cbn [AccountMapper.account AccountMapper.row_category].
  destruct x as [name |]; cbn [AccountMapper.lookup option_map AccountMapper.dflt];
    [| reflexivity].
  unfold AccountMapper.categorize_accounts.
  destruct (fold_fill_in token_sort_ratio ai (AccountMapper.unique [] df) _
              (ai_results_sourced ai)) as [Hs Hk].
  specialize (Hk name).
  match goal with
  | |- context [Py.get (fold_left ?f ?l ?r) name] =>
      set (mappings := fold_left f l r) in *
  end.
  destruct (Py.get mappings name) as [m |] eqn:E.
  - cbn [option_map AccountMapper.dflt].
    pose proof (Hs name m E) as Hsrc. split; [exact Hsrc |].
    intros ->. destruct Hsrc as [H | (am & e & [=] & _)]. exact H.
  - exfalso. apply Hk; [| reflexivity]. right.
    destruct (unique_complete df [] name Hx) as [H | []]. exact H.
Qed.

(** ** Numeric normalisation *)

Section Text.
Local Open Scope string_scope.
Import PLParser.

Lemma decode_at_boundary (code : N) (s : string) :
  decode_go 0 code s = decode_go 0 0 s.
Proof. destruct s; reflexivity. Qed.

Lemma decode_app_go (s1 : string) :
  forall (p : nat) (code : N) (r : string),
    whole_chars p s1 = true ->
    decode_go p code (s1 ++ r) = (decode_go p code s1 ++ decode_go 0 0 r)%list.
Proof.
  induction s1 as [| c s1 IH]; intros p code r H.
  - destruct p; [| discriminate]. apply decode_at_boundary.
  - cbn [String.append decode_go]. destruct p as [| k];
      cbn [whole_chars] in H; apply andb_true_iff in H; destruct H as [Hc H].
    + destruct (lead (N_of_ascii c)) as [[| k] code0]; cbn [fst] in H.
      * cbn [app]. f_equal. now apply IH.
      * now apply IH.
    + rewrite Hc. destruct k as [| k].
      * cbn [app]. f_equal. now apply IH.
      * now apply IH.
Qed.

Lemma decode_app (s1 r : string) :
  utf8_text s1 = true -> decode (s1 ++ r) = (decode s1 ++ decode r)%list.
Proof. intros H. now apply decode_app_go. Qed.

Lemma decode_class_char (ch : N) (r : string) :
  In ch stripped_class -> decode (encode ch ++ r) = ch :: decode r.
Proof.
  unfold stripped_class, currency_symbols, thousands_separators, whitespace.
  cbn [app In]. intros H.
  repeat (destruct H as [<- | H]; [reflexivity |]).
  contradiction.
Qed.

Lemma in_class_iff (ch : N) : in_class ch = true <-> In ch stripped_class.
Proof.
  unfold in_class. rewrite existsb_exists. split.
  - intros (x & Hx & E). apply N.eqb_eq in E. now subst.
  - intros H. exists ch. split; [exact H | apply N.eqb_refl].
Qed.

Lemma re_sub_app (a b : list N) :
  re_sub_class (a ++ b)%list = (re_sub_class a ++ re_sub_class b)%list.
Proof. apply filter_app. Qed.

Lemma strip_inside (s1 : string) (ch : N) (s2 : string) :
  utf8_text s1 = true ->
  In ch stripped_class ->
  re_sub_class (decode (s1 ++ encode ch ++ s2)) = re_sub_class (decode (s1 ++ s2)).
Proof.
  intros Hs1 Hch.
  rewrite (decode_app s1 (encode ch ++ s2) Hs1), (decode_app s1 s2 Hs1).
  rewrite decode_class_char by exact Hch.
  rewrite !re_sub_app. f_equal.
  apply in_class_iff in Hch.
  change (re_sub_class (ch :: decode s2))
    with (if negb (in_class ch) then ch :: re_sub_class (decode s2)
          else re_sub_class (decode s2)).
  now rewrite Hch.
Qed.
End Text.

Section Blanks.
Local Open Scope string_scope.
Import PLParser.

Lemma ascii_eqb_codes (a b : ascii) :
  Ascii.eqb a b = N.eqb (N_of_ascii a) (N_of_ascii b).
Proof.
  destruct (Ascii.eqb a b) eqn:E.
  - apply Ascii.eqb_eq in E. subst. now rewrite N.eqb_refl.
  - symmetry. apply N.eqb_neq. intros H. apply Ascii.eqb_neq in E. apply E.
    now rewrite <- (ascii_N_embedding a), <- (ascii_N_embedding b), H.
Qed.

Lemma code_of_char (n : N) : (n < 256)%N -> N_of_ascii (ascii_of_N n) = n.
Proof. apply N_ascii_embedding. Qed.

Lemma rstrip_cons (c : ascii) (s : string) :
  Py_ISSPACE c = false -> rstrip (String c s) = String c (rstrip s).
Proof.
  intros H. cbn [rstrip]. rewrite H. now destruct (rstrip s).
Qed.

Lemma lstrip_keeps (ch : ascii) (s : string) :
  Py_ISSPACE ch = false -> occurs ch s = true -> occurs ch (lstrip s) = true.
Proof.
  intros Hch. induction s as [| c t IH]; cbn [lstrip occurs]; [auto |].
  intros H. destruct (Py_ISSPACE c) eqn:Ec.
  - apply IH. apply orb_true_iff in H. destruct H as [H | H]; [| exact H].
    apply Ascii.eqb_eq in H. congruence.
  - exact H.
Qed.

Lemma rstrip_keeps (ch : ascii) (s : string) :
  Py_ISSPACE ch = false -> occurs ch s = true -> occurs ch (rstrip s) = true.
Proof.
  intros Hch. induction s as [| c t IH]; cbn [rstrip occurs]; [auto |].
  intros H. apply orb_true_iff in H. destruct H as [H | H].
  - apply Ascii.eqb_eq in H. subst c. rewrite Hch.
    destruct (rstrip t); cbn [occurs]; now rewrite Ascii.eqb_refl.
  - specialize (IH H). destruct (rstrip t) as [| d u]; [discriminate |].
    cbn [occurs] in *. rewrite IH. apply orb_true_r.
Qed.
End Blanks.

Section Numerals.
Local Open Scope string_scope.
Import PLParser.

Lemma digit_numeral (c : ascii) : is_digit c = true -> is_numeral c = true.
Proof.
  destruct c as [[] [] [] [] [] [] [] []]; vm_compute; congruence.
Qed.

Lemma lower_numeral (c : ascii) :
  is_numeral (Py.lower_ascii c) = true -> is_numeral c = true.
Proof.
  destruct c as [[] [] [] [] [] [] [] []]; vm_compute; congruence.
Qed.

Lemma lower_numeral_text (s : string) :
  numeral_text (Py.lower s) = true -> numeral_text s = true.
Proof.
  induction s as [| c t IH]; cbn [Py.lower numeral_text]; [auto |].
  intros H. apply andb_true_iff in H. destruct H as [Hc Ht].
  now rewrite (lower_numeral c Hc), IH.
Qed.

Lemma digitpart_tail_numeral (n : nat) :
  forall (s : string) (ds : list Z) (r : string),
    (String.length s <= n)%nat ->
    digitpart_tail s = (ds, r) ->
    numeral_text r = true -> numeral_text s = true.
Proof.
  induction n as [| n IH]; intros s ds r Hn H Hr.
  - destruct s; [| cbn in Hn; lia]. cbn in H. now injection H as <- <-.
  - destruct s as [| c t]; [cbn in H; now injection H as <- <- |].
    cbn [String.length] in Hn. cbn [digitpart_tail] in H.
    destruct (is_digit c) eqn:Ec.
    + destruct (digitpart_tail t) as [ds' r'] eqn:E. injection H as <- <-.
      cbn [numeral_text]. rewrite (digit_numeral c Ec).
      apply (IH t ds' r'); [lia | exact E | exact Hr].
    + destruct (Ascii.eqb c "_") eqn:Eu; [| now injection H as <- <-].
      destruct t as [| d t']; [now injection H as <- <- |].
      destruct (is_digit d) eqn:Ed; [| now injection H as <- <-].
      destruct (digitpart_tail t') as [ds' r'] eqn:E. injection H as <- <-.
      apply Ascii.eqb_eq in Eu. subst c.
      cbn [numeral_text]. rewrite (digit_numeral d Ed).
      cbn [String.length] in Hn.
      rewrite (IH t' ds' r'); [reflexivity | lia | exact E | exact Hr].
Qed.

Lemma digitpart_numeral (s : string) (ds : list Z) (r : string) :
  digitpart s = Some (ds, r) ->
  numeral_text r = true -> numeral_text s = true.
Proof.
  destruct s as [| c t]; [discriminate |]. cbn [digitpart].
  destruct (is_digit c) eqn:Ec; [| discriminate].
  destruct (digitpart_tail t) as [ds' r'] eqn:E. intros [= <- <-] Hr.
  cbn [numeral_text]. rewrite (digit_numeral c Ec).
  now apply (digitpart_tail_numeral (String.length t) t ds' r').
Qed.

Lemma point_fraction_numeral (c : ascii) (r1 : string) (fs : list Z) (r' : string) :
  Ascii.eqb c "." = true ->
  digitpart r1 = Some (fs, r') ->
  numeral_text r' = true -> numeral_text (String c r1) = true.
Proof.
  intros Ec E Hr. apply Ascii.eqb_eq in Ec. subst c.
  cbn [numeral_text]. now rewrite (digitpart_numeral r1 fs r' E Hr).
Qed.

Lemma mantissa_numeral (s : string) (ds : list Z) (k : nat) (r : string) :
  mantissa s = Some (ds, k, r) ->
  numeral_text r = true -> numeral_text s = true.
Proof.
  unfold mantissa. destruct (digitpart s) as [[ds0 r0] |] eqn:E.
  - intros H Hr. apply (digitpart_numeral s ds0 r0 E).
    destruct r0 as [| c r1]; [now injection H as <- <- <- |].
    destruct (Ascii.eqb c ".") eqn:Ec; [| now injection H as <- <- <-].
    destruct (digitpart r1) as [[fs r'] |] eqn:E1; injection H as <- <- <-.
    + now apply (point_fraction_numeral c r1 fs r').
    + apply Ascii.eqb_eq in Ec. subst c. cbn [numeral_text]. now rewrite Hr.
  - destruct s as [| c r1]; [discriminate |].
    destruct (Ascii.eqb c ".") eqn:Ec; [| discriminate].
    destruct (digitpart r1) as [[fs r'] |] eqn:E1; [| discriminate].
    intros [= <- <- <-] Hr. now apply (point_fraction_numeral c r1 fs r').
Qed.

Lemma sign_numeral (s : string) :
  numeral_text (snd (sign s)) = true -> numeral_text s = true.
Proof.
  destruct s as [| c t]; [auto |]. cbn [sign].
  destruct (Ascii.eqb c "-") eqn:E1;
    [apply Ascii.eqb_eq in E1; subst c; cbn [snd numeral_text];
     intros ->; reflexivity |].
  destruct (Ascii.eqb c "+") eqn:E2;
    [apply Ascii.eqb_eq in E2; subst c; cbn [snd numeral_text];
     intros ->; reflexivity |].
  auto.
Qed.

Lemma exponent_numeral (s : string) (e : Z) :
  exponent s = Some e -> numeral_text s = true.
Proof.
  destruct s as [| c t]; [reflexivity |]. cbn [exponent].
  destruct (orb (Ascii.eqb c "e") (Ascii.eqb c "E")) eqn:Ec; [| discriminate].
  intros H. cbn [numeral_text].
  assert (Hc : is_numeral c = true).
  { apply orb_true_iff in Ec.
    destruct Ec as [Ec | Ec]; apply Ascii.eqb_eq in Ec; now subst c. }
  rewrite Hc. apply sign_numeral.
  destruct (sign t) as [neg u]. cbn [snd].
  destruct (digitpart u) as [[ds [| ? ?]] |] eqn:E; try discriminate.
  now apply (digitpart_numeral u ds EmptyString E).
Qed.

Lemma unsigned_numeral (s : string) (x : Py.float) :
  unsigned_float s = Some x -> numeral_text s = true.
Proof.
  unfold unsigned_float.
  destruct (orb _ _) eqn:E1.
  { intros _. apply lower_numeral_text. apply orb_true_iff in E1.
    destruct E1 as [E | E]; apply String.eqb_eq in E; now rewrite E. }
  destruct (String.eqb (Py.lower s) "nan") eqn:E2.
  { intros _. apply lower_numeral_text.
    apply String.eqb_eq in E2. now rewrite E2. }
  destruct (mantissa s) as [[[ds k] r] |] eqn:E; [| discriminate].
  destruct (exponent r) as [e |] eqn:Ee; [| discriminate].
  intros _. apply (mantissa_numeral s ds k r E).
  now apply (exponent_numeral r e).
Qed.

Lemma string_to_double_numeral (s : string) (x : Py.float) :
  string_to_double s = Some x -> numeral_text s = true.
Proof.
  unfold string_to_double. intros H. apply sign_numeral.
  destruct (sign s) as [neg u]. cbn [snd].
  destruct (unsigned_float u) as [y |] eqn:E; [| discriminate].
  now apply (unsigned_numeral u y).
Qed.

Lemma numeral_text_occurs (ch : ascii) (s : string) :
  numeral_text s = true -> occurs ch s = true -> is_numeral ch = true.
Proof.
  induction s as [| c t IH]; cbn [numeral_text occurs]; [discriminate |].
  intros H Ho. apply andb_true_iff in H. destruct H as [Hc Ht].
  apply orb_true_iff in Ho. destruct Ho as [Ho | Ho]; [| now apply IH].
  apply Ascii.eqb_eq in Ho. now subst.
Qed.
End Numerals.

Section Normalised.
Local Open Scope string_scope.
Import PLParser.
Variable todecimal : N -> Z.

Lemma has_char_filter (c : N) (f : N -> bool) (l : list N) :
  has_char c l = false -> has_char c (filter f l) = false.
Proof.
  unfold has_char. induction l as [| a l IH]; cbn [existsb filter]; [auto |].
  intros H. apply orb_false_iff in H. destruct H as [Ha Hl].
  destruct (f a); cbn [existsb]; [rewrite Ha |]; now apply IH.
Qed.

Lemma has_char_in (c : N) (l : list N) : has_char c l = true <-> In c l.
Proof.
  unfold has_char. rewrite existsb_exists. split.
  - intros (x & Hx & E). apply N.eqb_eq in E. now subst.
  - intros H. exists c. split; [exact H | apply N.eqb_refl].
Qed.

Lemma remove_absent (c : N) (l : list N) :
  has_char c l = false -> remove_char c l = l.
Proof.
  unfold has_char, remove_char.
  induction l as [| a l IH]; cbn [existsb filter]; [auto |].
  intros H. apply orb_false_iff in H. destruct H as [Ha Hl].
  rewrite Ha. cbn [negb]. now rewrite IH.
Qed.

Lemma remove_app (c : N) (a b : list N) :
  remove_char c (a ++ b)%list = (remove_char c a ++ remove_char c b)%list.
Proof. apply filter_app. Qed.

Lemma remove_head (c : N) (l : list N) :
  remove_char c (c :: l) = remove_char c l.
Proof. unfold remove_char. cbn [filter]. now rewrite N.eqb_refl. Qed.

Lemma re_sub_keep (c : N) (l : list N) :
  in_class c = false -> re_sub_class (c :: l) = c :: re_sub_class l.
Proof.
  intros H.
  change (re_sub_class (c :: l))
    with (if negb (in_class c) then c :: re_sub_class l else re_sub_class l).
  now rewrite H.
Qed.

Lemma re_sub_outside (c : N) (l : list N) :
  In c (re_sub_class l) <-> In c l /\ in_class c = false.
Proof.
  unfold re_sub_class. rewrite filter_In.
  now rewrite negb_true_iff.
Qed.

Lemma blank_in_whitespace (c : N) :
  existsb (N.eqb c) [ 9; 10; 11; 12; 13; 32 ]%N = true ->
  existsb (N.eqb c) whitespace = true.
Proof.
  intros H. apply existsb_exists in H. destruct H as (x & Hx & E).
  apply N.eqb_eq in E. subst x. apply existsb_exists. exists c.
  split; [| apply N.eqb_refl].
  unfold whitespace. cbn [In] in *.
  repeat (destruct Hx as [<- | Hx]; [repeat (first [now left | right]) |]).
  contradiction.
Qed.

Lemma whitespace_in_class (c : N) :
  existsb (N.eqb c) whitespace = true -> in_class c = true.
Proof.
  intros H. unfold in_class, stripped_class.
  now rewrite !existsb_app, H, !orb_true_r.
Qed.

(** A character below 256 that is no blank and no sign. *)
Lemma plain_char (n : N) :
  (n < 256)%N ->
  existsb (N.eqb n) [ 9; 10; 11; 12; 13; 32 ]%N = false ->
  n <> 43%N -> n <> 45%N ->
  Py_ISSPACE (ascii_of_N n) = false
  /\ Ascii.eqb (ascii_of_N n) "-" = false
  /\ Ascii.eqb (ascii_of_N n) "+" = false.
Proof.
  intros Hn Hb Hp Hm. unfold Py_ISSPACE.
  rewrite !ascii_eqb_codes, (code_of_char n Hn).
  split; [exact Hb |]. split; apply N.eqb_neq; assumption.
Qed.

Lemma plain_class_char (c : N) :
  (c < 256)%N -> in_class c = false -> c <> 43%N -> c <> 45%N ->
  Py_ISSPACE (ascii_of_N c) = false
  /\ Ascii.eqb (ascii_of_N c) "-" = false
  /\ Ascii.eqb (ascii_of_N c) "+" = false.
Proof.
  intros Hc Hcls Hp Hm. apply plain_char; try assumption.
  destruct (existsb (N.eqb c) [ 9; 10; 11; 12; 13; 32 ]%N) eqn:E; [| reflexivity].
  apply blank_in_whitespace, whitespace_in_class in E. congruence.
Qed.

Lemma to_ascii_minus (l : list N) :
  to_ascii todecimal (45%N :: l) = String "-" (to_ascii todecimal l).
Proof.
  unfold to_ascii. cbn [forallb].
  change (45 <? 128)%N with true. cbn [andb].
  destruct (forallb _ l); reflexivity.
Qed.

Section Digits.
Hypothesis todecimal_digit : forall ch, (todecimal ch <= 9)%Z.

Lemma transform_head (c : N) (t : list N) :
  in_class c = false -> c <> 43%N -> c <> 45%N ->
  exists a u,
    transform todecimal (c :: t) = String a u
    /\ Py_ISSPACE a = false
    /\ Ascii.eqb a "-" = false /\ Ascii.eqb a "+" = false.
Proof.
  intros Hcls Hp Hm. cbn [transform].
  destruct (c <? 127)%N eqn:E.
  - apply N.ltb_lt in E. do 2 eexists. split; [reflexivity |].
    apply plain_class_char; [lia | assumption ..].
  - destruct (existsb (N.eqb c) whitespace) eqn:Ew.
    { apply whitespace_in_class in Ew. congruence. }
    cbv zeta. destruct (todecimal c <? 0)%Z eqn:Ed.
    + exists "?"%char, EmptyString. repeat split.
    + apply Z.ltb_ge in Ed. specialize (todecimal_digit c).
      do 2 eexists. split; [reflexivity |].
      apply plain_char; [lia | | lia | lia].
      cbn [existsb].
      repeat match goal with
             | |- context [N.eqb ?a ?b] =>
                 replace (N.eqb a b) with false
                   by (symmetry; apply N.eqb_neq; lia)
             end.
      reflexivity.
Qed.

Lemma to_ascii_head (c : N) (t : list N) :
  in_class c = false -> c <> 43%N -> c <> 45%N ->
  exists a u,
    to_ascii todecimal (c :: t) = String a u
    /\ Py_ISSPACE a = false
    /\ Ascii.eqb a "-" = false /\ Ascii.eqb a "+" = false.
Proof.
  intros Hcls Hp Hm. unfold to_ascii.
  destruct (forallb _ (c :: t)) eqn:E; [| now apply transform_head].
  cbn [forallb] in E. apply andb_true_iff in E. destruct E as [E _].
  apply N.ltb_lt in E. cbn [map string_of_list_ascii].
  do 2 eexists. split; [reflexivity |].
  apply plain_class_char; [lia | assumption ..].
Qed.

(** A minus sign before a text that starts with neither a stripped
    character nor a sign negates its value. *)
Lemma negated_text (c : N) (t : list N) (x : Py.float) :
  in_class c = false -> c <> 43%N -> c <> 45%N ->
  py_float todecimal (c :: t) = Some x ->
  py_float todecimal (45%N :: c :: t) = Some (negate x).
Proof.
  intros Hcls Hp Hm. unfold py_float. rewrite to_ascii_minus.
  destruct (to_ascii_head c t Hcls Hp Hm) as (a & u & -> & Hs & Ea & Eb).
  cbn [lstrip]. change (Py_ISSPACE "-") with false. cbv iota.
  rewrite Hs, (rstrip_cons "-" (String a u) eq_refl), (rstrip_cons a u Hs).
  unfold string_to_double. cbn [sign].
  rewrite Ascii.eqb_refl, Ea, Eb.
  destruct (unsigned_float (String a (rstrip u))); cbn [option_map];
    [now intros [= <-] | discriminate].
Qed.

Lemma parenthesised_negative (s : string) (x : Py.float) :
  utf8_text s = true ->
  has_char 40 (decode s) = false ->
  has_char 41 (decode s) = false ->
  signed s = false ->
  clean_value todecimal (CStr s) = Some x ->
  clean_value todecimal (CStr ("(" ++ s ++ ")")) = Some (negate x).
Proof.
  intros Hs Hl Hr Hsg. cbn [clean_value]. cbv zeta.
  change ("(" ++ s ++ ")") with (String "(" (s ++ ")")).
  change (decode (String "(" (s ++ ")"))) with (40%N :: decode (s ++ ")")).
  rewrite (decode_app s ")" Hs).
  change (decode ")") with [41%N].
  rewrite (re_sub_keep 40) by reflexivity.
  rewrite re_sub_app. change (re_sub_class [41%N]) with [41%N].
  unfold signed in Hsg.
  set (t := re_sub_class (decode s)) in *.
  assert (Hlt : has_char 40 t = false) by now apply has_char_filter.
  assert (Hrt : has_char 41 t = false) by now apply has_char_filter.
  assert (Et : accounting_negative t = t).
  { unfold accounting_negative. now rewrite Hlt. }
  assert (Ep : accounting_negative (40%N :: t ++ [41%N])%list = 45%N :: t).
  { unfold accounting_negative.
    assert (E0 : has_char 40 (40%N :: t ++ [41%N])%list = true).
    { apply has_char_in. now left. }
    assert (E1 : has_char 41 (40%N :: t ++ [41%N])%list = true).
    { apply has_char_in. right. apply in_or_app. right. now left. }
    rewrite E0, E1. cbn [andb]. f_equal.
    rewrite (remove_head 40), remove_app, (remove_absent 40 t Hlt).
    change (remove_char 40 [41%N]) with [41%N].
    rewrite remove_app, (remove_absent 41 t Hrt).
    change (remove_char 41 [41%N]) with (@nil N). apply app_nil_r. }
  rewrite Et, Ep.
  destruct t as [| c t'] eqn:Etc.
  { vm_compute. discriminate. }
  assert (Hc : in_class c = false).
  { assert (Hin : In c (re_sub_class (decode s))).
    { subst t. rewrite Etc. now left. }
    now apply re_sub_outside in Hin. }
  apply orb_false_iff in Hsg. destruct Hsg as [H43 H45].
  apply N.eqb_neq in H43, H45.
  intros H.
  destruct (py_float todecimal (c :: t')) as [y |] eqn:Ey; [| discriminate].
  injection H as <-.
  now rewrite (negated_text c t' y Hc H43 H45 Ey).
Qed.
End Digits.

Lemma bad_char_plain (c : N) :
  (c < 128)%N -> in_class c = false ->
  existsb (N.eqb c) numeral_alphabet = false ->
  is_numeral (ascii_of_N c) = false /\ Py_ISSPACE (ascii_of_N c) = false.
Proof.
  intros Hc Hcls Ha. unfold is_numeral, Py_ISSPACE.
  rewrite (code_of_char c) by lia. split; [exact Ha |].
  destruct (existsb (N.eqb c) [ 9; 10; 11; 12; 13; 32 ]%N) eqn:E; [| reflexivity].
  apply blank_in_whitespace, whitespace_in_class in E. congruence.
Qed.

Lemma occurs_later (ch c : ascii) (s : string) :
  occurs ch s = true -> occurs ch (String c s) = true.
Proof. intros H. cbn [occurs]. rewrite H. apply orb_true_r. Qed.

Lemma occurs_first (ch : ascii) (s : string) : occurs ch (String ch s) = true.
Proof. cbn [occurs]. now rewrite Ascii.eqb_refl. Qed.

Lemma transform_bad (l : list N) (c : N) :
  In c l -> in_class c = false -> numeral_char todecimal c = false ->
  exists ch,
    occurs ch (transform todecimal l) = true
    /\ is_numeral ch = false /\ Py_ISSPACE ch = false.
Proof.
  intros Hin Hcls Hbad. induction l as [| h l IH]; [contradiction |].
  cbn [transform].
  assert (Hq : exists ch, occurs ch "?" = true
                          /\ is_numeral ch = false /\ Py_ISSPACE ch = false).
  { exists "?"%char. repeat split. }
  destruct Hin as [-> | Hin].
  - unfold numeral_char in Hbad. destruct (c <? 127)%N eqn:E.
    + apply N.ltb_lt in E. exists (ascii_of_N c).
      split; [apply occurs_first |]. apply bad_char_plain; [lia | assumption ..].
    + destruct (existsb (N.eqb c) whitespace) eqn:Ew.
      { apply whitespace_in_class in Ew. congruence. }
      cbv zeta. apply Z.leb_gt in Hbad.
      apply Z.ltb_lt in Hbad. now rewrite Hbad.
  - destruct (IH Hin) as (ch & Ho & Hn & Hs).
    assert (Hgo : forall a, exists ch0,
               occurs ch0 (String a (transform todecimal l)) = true
               /\ is_numeral ch0 = false /\ Py_ISSPACE ch0 = false).
    { intros a. exists ch. split; [now apply occurs_later | now split]. }
    destruct (h <? 127)%N; [apply Hgo |].
    destruct (existsb (N.eqb h) whitespace); [apply Hgo |].
    cbv zeta. destruct (todecimal h <? 0)%Z; [exact Hq | apply Hgo].
Qed.

Lemma occurs_map (l : list N) (c : N) :
  In c l ->
  occurs (ascii_of_N c) (string_of_list_ascii (map ascii_of_N l)) = true.
Proof.
  induction l as [| h l IH]; [contradiction |].
  cbn [map string_of_list_ascii]. intros [-> | H].
  - apply occurs_first.
  - apply occurs_later. now apply IH.
Qed.

Lemma to_ascii_bad (l : list N) (c : N) :
  In c l -> in_class c = false -> numeral_char todecimal c = false ->
  exists ch,
    occurs ch (to_ascii todecimal l) = true
    /\ is_numeral ch = false /\ Py_ISSPACE ch = false.
Proof.
  intros Hin Hcls Hbad. unfold to_ascii.
  destruct (forallb _ l) eqn:E; [| now apply (transform_bad l c)].
  rewrite forallb_forall in E. specialize (E c Hin). apply N.ltb_lt in E.
  exists (ascii_of_N c). split; [now apply occurs_map |].
  apply bad_char_plain; [exact E | exact Hcls |].
  unfold numeral_char in Hbad.
  destruct (c <? 127)%N eqn:E7; [exact Hbad |].
  apply N.ltb_ge in E7. assert (c = 127%N) as -> by lia. reflexivity.
Qed.

(** No numeral holds a character outside the alphabet. *)
Lemma py_float_alphabet (l : list N) (c : N) :
  In c l -> in_class c = false -> numeral_char todecimal c = false ->
  py_float todecimal l = None.
Proof.
  intros Hin Hcls Hbad.
  destruct (to_ascii_bad l c Hin Hcls Hbad) as (ch & Ho & Hn & Hs).
  unfold py_float.
  destruct (string_to_double _) as [x |] eqn:E; [| reflexivity].
  apply string_to_double_numeral in E.
  apply (lstrip_keeps ch _ Hs), (rstrip_keeps ch _ Hs) in Ho.
  rewrite (numeral_text_occurs ch _ E Ho) in Hn. discriminate.
Qed.

Lemma fails_to_null (s : string) (c : N) :
  In c (decode s) -> in_class c = false -> numeral_char todecimal c = false ->
  clean_value todecimal (CStr s) = None.
Proof.
  intros Hin Hcls Hbad. cbn [clean_value]. cbv zeta.
  assert (Ht : In c (re_sub_class (decode s))) by now apply re_sub_outside.
  set (t := re_sub_class (decode s)) in *.
  assert (Hnp : c <> 40%N /\ c <> 41%N).
  { split; intros ->; vm_compute in Hbad; discriminate. }
  assert (Ha : In c (accounting_negative t)).
  { unfold accounting_negative. destruct (andb _ _); [| exact Ht].
    right. unfold remove_char. rewrite !filter_In.
    repeat split; [exact Ht | |]; apply negb_true_iff, N.eqb_neq;
      intros <-; tauto. }
  now rewrite (py_float_alphabet _ c Ha Hcls Hbad).
Qed.
End Normalised.

(** C8, as stated, fails: the value "-500" normalises to -500, but wrapped
    in parentheses it does not become its negation 500: the text built for
    it, "--500", does not parse, and the result is null. *)
Lemma C8_counterexample :
  PLParser.clean_value fullwidth_digit (PLParser.CStr "-500")
  = Some (Py.Finite (- (500)))
  /\ PLParser.clean_value fullwidth_digit (PLParser.CStr "(-500)") = None
  /\ PLParser.clean_value fullwidth_digit (PLParser.CStr "(-500)")
     <> Some (PLParser.negate (Py.Finite (- (500)))).
Proof.
  split; [vm_compute; reflexivity |].
  split; [vm_compute; reflexivity |].
  vm_compute. discriminate.
Qed.

(** C8 (amended): numeric normalisation maps "$1,234.56" to 1234.56 and
    "(500)" to -500; a currency symbol, thousands separator or white-space
    character is stripped wherever it stands in the text; a value that
    holds no parenthesis and, once stripped, starts with no sign becomes
    its negation when it is wrapped in parentheses; and an input that
    still fails to parse yields null, never 0 or another default: that is
    the result whenever the conversion to a float fails, as it does for
    every text that keeps, after stripping, a character no numeral holds,
    and for "n/a", the empty text and a null cell. The decimal-digit
    database is any that yields -1 or a digit. *)
Theorem C8_numeric_normalization (todecimal : N -> Z) :
  (forall ch, (todecimal ch <= 9)%Z) ->
  PLParser.clean_value todecimal (PLParser.CStr "$1,234.56")
  = Some (Py.Finite (123456 # 100))
  /\ PLParser.clean_value todecimal (PLParser.CStr "(500)")
     = Some (Py.Finite (- (500)))
  /\ (forall (s1 : string) (ch : N) (s2 : string),
         utf8_text s1 = true ->
         In ch PLParser.stripped_class ->
         PLParser.clean_value todecimal (PLParser.CStr (s1 ++ encode ch ++ s2))
         = PLParser.clean_value todecimal (PLParser.CStr (s1 ++ s2)))
  /\ (forall (s : string) (x : Py.float),
         utf8_text s = true ->
         PLParser.has_char 40 (PLParser.decode s) = false ->
         PLParser.has_char 41 (PLParser.decode s) = false ->
         signed s = false ->
         PLParser.clean_value todecimal (PLParser.CStr s) = Some x ->
         PLParser.clean_value todecimal (PLParser.CStr ("(" ++ s ++ ")"))
         = Some (PLParser.negate x))
  /\ (forall s : string,
         PLParser.py_float todecimal
           (PLParser.accounting_negative
              (PLParser.re_sub_class (PLParser.decode s))) = None ->
         PLParser.clean_value todecimal (PLParser.CStr s) = None)
  /\ (forall (s : string) (ch : N),
         In ch (PLParser.decode s) ->
         PLParser.in_class ch = false ->
         numeral_char todecimal ch = false ->
         PLParser.clean_value todecimal (PLParser.CStr s) = None)
  /\ PLParser.clean_value todecimal (PLParser.CStr "n/a") = None
  /\ PLParser.clean_value todecimal (PLParser.CStr EmptyString) = None
  /\ PLParser.clean_value todecimal PLParser.CNull = None.
Proof.
  intros Hdigit.
  split; [vm_compute; reflexivity |]. split; [vm_compute; reflexivity |].
  split; [| split; [| split; [| split; [| repeat split]]]].
  - intros s1 ch s2 Hs1 Hch. cbn [PLParser.clean_value]. cbv zeta.
    now rewrite strip_inside.
  - intros s x. now apply parenthesised_negative.
  - intros s H. cbn [PLParser.clean_value]. cbv zeta. now rewrite H.
  - exact (fails_to_null todecimal).
Qed.

Lemma C8_numeric_normalization_witness :
  PLParser.clean_value fullwidth_digit (PLParser.CStr "USD 1 000")
  = PLParser.clean_value fullwidth_digit (PLParser.CStr "USD 1000")
  /\ PLParser.clean_value fullwidth_digit
       (PLParser.CStr ("(" ++ (encode 65297 ++ encode 65298) ++ ")"))
     = Some (Py.Finite (- (12)))
  /\ PLParser.clean_value fullwidth_digit (PLParser.CStr "12 kg") = None.
Proof.
  assert (Hdigit : forall ch, (fullwidth_digit ch <= 9)%Z).
  { intros ch. unfold fullwidth_digit.
    destruct (andb _ _) eqn:E; [| lia].
    apply andb_true_iff in E. destruct E as [_ E]. apply N.leb_le in E. lia. }
  destruct (C8_numeric_normalization fullwidth_digit Hdigit)
    as (_ & _ & Hstrip & Hparen & _ & Hfail & _).
  split; [| split].
  - apply (Hstrip "USD 1" 32%N "000"); [reflexivity |].
    vm_compute. auto 20.
  - apply (Hparen (encode 65297 ++ encode 65298)%string (Py.Finite 12));
      vm_compute; reflexivity.
  - apply (Hfail "12 kg" 107%N); [vm_compute; auto | reflexivity | reflexivity].
Defined.

(** * Further properties of the engines *)

(** ** Shape of a bridge *)

Section BridgeShape.
Import WaterfallCalculator.
Variable df : list Row.
Variables period1_cols period2_cols : list string.
Variable top_n : nat.

Lemma frame_rows (c : string) (f : Q -> Q) (d : Driver) :
  In d (frame df period1_cols period2_cols c f) -> In (row d) df.
Proof.
  unfold frame. intros H. apply in_map_iff in H.
  destruct H as (r & <- & Hr). apply filter_In in Hr. now destruct Hr.
Qed.

Lemma raw_over (l1 l2 : string) (p : Row -> bool) :
  let df_filtered :=
    map (driver period1_cols period2_cols (fun m => m)) (filter p df) in
  let top := nlargest top_n (fun d => Qabs (movement d)) df_filtered in
  bridge_over df top_n
    (build l1 l2 (total1 df_filtered) (total2 df_filtered) top
           (Py.sum (map movement (not_in top df_filtered)))).
Proof.
  intros F top.
  destruct (raw_reconciled df period1_cols period2_cols top_n l1 l2 p)
    as (l1' & l2' & P1 & P2 & key & all & H).
  clear H.
  exists l1, l2, (total1 F), (total2 F), (fun d => Qabs (movement d)), F.
  cbn zeta. fold top. repeat split.
  - f_equal. f_equal. apply map_ext_in.
    intros d Hd. unfold not_in in Hd. apply filter_In in Hd.
    destruct Hd as [Hd _]. unfold F in Hd.
    apply in_map_iff in Hd. destruct Hd as (r & <- & _). reflexivity.
  - unfold F.
    rewrite (driver_sums period1_cols period2_cols (fun m => m) 1);
      [lra | intros; lra].
  - intros ND. unfold F. rewrite label_driver. now apply NoDup_map_filter.
  - intros d Hd. unfold F in Hd. apply in_map_iff in Hd.
    destruct Hd as (r & <- & Hr). apply filter_In in Hr. now destruct Hr.
Qed.

Lemma waterfall_frames (q : request) :
  (exists msg, waterfall df period1_cols period2_cols top_n q
               = Py.Err (Py.ValueError msg))
  \/ (exists key, waterfall df period1_cols period2_cols top_n q
                  = Py.Err (Py.KeyError key))
  \/ bridge_over df top_n (waterfall df period1_cols period2_cols top_n q).
Proof.
  destruct q as [metric metric_filter | metric]; cbn [waterfall].
  - right. right. unfold calculate_waterfall.
    destruct metric_filter as [[| c f] |]; apply raw_over.
  - unfold calculate_derived_metric.
    destruct (String.eqb metric "gross_profit").
    { right. right.
      destruct (gross_profit_reconciled df period1_cols period2_cols top_n)
        as (l1 & l2 & P1 & P2 & key & all & H).
      clear H.
      unfold _calculate_gross_profit_waterfall, _build_waterfall_structure.
      do 4 eexists. exists (fun d => Qabs (impact d)).
      exists (frame df period1_cols period2_cols "Revenue" (fun m => m)
              ++ frame df period1_cols period2_cols "Cost of Goods Sold"
                       (fun m => - m)).
      cbn zeta. split; [reflexivity |]. split; [| split].
      - rewrite map_app, sum_app. unfold frame.
        rewrite (driver_sums period1_cols period2_cols (fun m => m) 1)
          by (intros; lra).
        rewrite (driver_sums period1_cols period2_cols (fun m => - m) (-1))
          by (intros; lra).
        lra.
      - intros ND. unfold frame. rewrite map_app, !label_driver.
        pose proof (rows_of_NoDup df ["Revenue"; "Cost of Goods Sold"] ND) as H.
        unfold rows_of in H. cbn [flat_map] in H.
        rewrite app_nil_r, map_app in H. apply H.
        repeat constructor; cbn; intuition discriminate.
      - intros d Hd. apply in_app_or in Hd.
        destruct Hd as [Hd | Hd]; eapply frame_rows; exact Hd. }
    destruct (String.eqb metric "operating_profit").
    { right. right.
      unfold _calculate_operating_profit_waterfall, _build_waterfall_structure.
      do 4 eexists. exists (fun d => Qabs (impact d)).
      exists (frame df period1_cols period2_cols "Revenue" (fun m => m)
              ++ frame df period1_cols period2_cols "Cost of Goods Sold"
                       (fun m => - m)
              ++ frame df period1_cols period2_cols "Operating Expenses"
                       (fun m => - m)).
      cbn zeta. split; [reflexivity |]. split; [| split].
      - rewrite !map_app, !sum_app. unfold frame.
        rewrite (driver_sums period1_cols period2_cols (fun m => m) 1)
          by (intros; lra).
        rewrite !(driver_sums period1_cols period2_cols (fun m => - m) (-1))
          by (intros; lra).
        lra.
      - intros ND. unfold frame. rewrite !map_app, !label_driver.
        pose proof (rows_of_NoDup df
                      ["Revenue"; "Cost of Goods Sold"; "Operating Expenses"] ND)
          as H.
        unfold rows_of in H. cbn [flat_map] in H.
        rewrite app_nil_r, !map_app in H. apply H.
        repeat constructor; cbn; intuition discriminate.
      - intros d Hd. apply in_app_or in Hd.
        destruct Hd as [Hd | Hd]; [eapply frame_rows; exact Hd |].
        apply in_app_or in Hd.
        destruct Hd as [Hd | Hd]; eapply frame_rows; exact Hd. }
    destruct (String.eqb metric "net_profit"); [| left; now eexists].
    unfold _calculate_net_profit_waterfall.
    set (dfs := map (fun cs => frame df period1_cols period2_cols (fst cs)
                                     (fun m => m * snd cs)) net_profit_signs).
    set (signed := combine dfs (map snd net_profit_signs)).
    set (nonempty := filter (fun ds => (0 <? List.length (fst ds))%nat) signed).
    destruct nonempty as [| ds0 rest] eqn:E; [right; left; now eexists |].
    right. right. rewrite <- E. clear E ds0 rest.
    unfold _build_waterfall_structure.
    do 4 eexists. exists (fun d => Qabs (impact d)).
    exists (List.concat (map fst nonempty)).
    cbn zeta. split; [reflexivity |]. split; [| split].
    + apply signed_sums. unfold nonempty.
      apply Forall_forall. intros ds Hds. apply filter_In in Hds.
      destruct Hds as [Hds _]. revert ds Hds. apply Forall_forall.
      unfold signed, dfs, net_profit_signs. cbn [map combine fst snd].
      repeat constructor; cbn [fst snd]; unfold frame;
        apply (driver_sums period1_cols period2_cols (fun m => m * _));
        intros; lra.
    + intros ND. unfold nonempty. rewrite concat_nonempty.
      unfold signed, dfs, net_profit_signs.
      cbn [map combine fst snd List.concat].
      unfold frame. rewrite !map_app, !label_driver.
      pose proof (rows_of_NoDup df (map fst net_profit_signs) ND) as H.
      unfold rows_of, net_profit_signs in H. cbn [flat_map map fst] in H.
      rewrite !map_app in H. apply H.
      repeat constructor; cbn; intuition discriminate.
    + intros d Hd. apply in_concat in Hd. destruct Hd as (fr & Hfr & Hd).
      apply in_map_iff in Hfr. destruct Hfr as (ds & <- & Hds).
      unfold nonempty in Hds. apply filter_In in Hds. destruct Hds as [Hds _].
      revert d Hd. revert ds Hds.
      apply (proj1 (Forall_forall
                      (fun ds : list Driver * Q =>
                         forall d, In d (fst ds) -> In (row d) df) signed)).
      unfold signed, dfs, net_profit_signs. cbn [map combine fst snd].
      repeat constructor; cbn [fst]; intros d Hd; eapply frame_rows; exact Hd.
Qed.
End BridgeShape.

Section BridgeFacts.
Import WaterfallCalculator.

Lemma mapM_length {A B : Type} (f : A -> Py.result B) (l : list A) (ys : list B) :
  Py.mapM f l = Py.Ok ys -> List.length ys = List.length l.
Proof.
  revert ys. induction l as [| x l IH]; intros ys; cbn [Py.mapM].
  - now intros [= <-].
  - destruct (f x) as [y | e]; cbn [Py.bind]; [| discriminate].
    destruct (Py.mapM f l) as [ys' | e]; cbn [Py.bind]; [| discriminate].
    intros [= <-]. cbn [List.length]. f_equal. now apply IH.
Qed.

Lemma build_inv_labels (l1 l2 : string) (p1 p2 : Q) (top : list Driver)
      (other : Q) (w : Waterfall) :
  build l1 l2 p1 p2 top other = Py.Ok w ->
  exists names,
    List.length names = List.length top
    /\ categories w
       = [l1] ++ names ++ map (fun _ => "Other") (other_bar other) ++ [l2]
    /\ colors w
       = [BLUE] ++ map color_of (map impact top)
         ++ map color_of (other_bar other) ++ [BLUE].
Proof.
  unfold build, other_bar.
  destruct (Py.mapM _ top) as [names | e] eqn:E; cbn [Py.bind]; [| discriminate].
  apply mapM_length in E.
  destruct (movement_pct_total (p2 - p1) p1) as (pct & -> & _).
  cbn [Py.bind]. intros [= <-]. exists names.
  cbn [categories colors].
  destruct (Py.gtb (Qabs other) (1 # 100)); cbn [map]; auto.
Qed.

Lemma build_lengths (l1 l2 : string) (p1 p2 : Q) (top : list Driver) (other : Q)
      (w : Waterfall) :
  build l1 l2 p1 p2 top other = Py.Ok w ->
  List.length (categories w) = List.length (values w)
  /\ List.length (colors w) = List.length (values w)
  /\ List.length (measures w) = List.length (values w)
  /\ List.length (values w)
     = (List.length top + 2 + (if has_other w then 1 else 0))%nat
  /\ top_drivers_count w = List.length top
  /\ hd_error (measures w) = Some "absolute"
  /\ List.last (measures w) EmptyString = "total".
Proof.
  intros H.
  destruct (build_bridge _ _ _ _ _ _ _ H) as (_ & _ & Ho).
  destruct (build_inv_labels _ _ _ _ _ _ _ H) as (names & Hn & Hc & Hcol).
  destruct (build_inv _ _ _ _ _ _ _ H) as (Hv & Hm & Hcount & _).
  rewrite Hc, Hcol, Hm, Hv, Ho, Hcount.
  assert (Hbar : List.length (other_bar other)
                 = if Py.gtb (Qabs other) (1 # 100) then 1%nat else 0%nat).
  { unfold other_bar. now destruct (Py.gtb (Qabs other) (1 # 100)). }
  rewrite !length_app, !length_map, Hn, Hbar. cbn [List.length].
  repeat split; try lia.
  rewrite !app_assoc. apply last_last.
Qed.

Lemma nlargest_length (n : nat) (key : Driver -> Q) (all : list Driver) :
  (List.length (nlargest n key all) <= n)%nat
  /\ (List.length (nlargest n key all) <= List.length all)%nat.
Proof.
  unfold nlargest. split.
  - apply firstn_le_length.
  - rewrite length_firstn. unfold Py.sorted_desc.
    rewrite <- (Permutation_length
                  (sort_perm (fun y x => Py.gtb (key y) (key x)) all)).
    lia.
Qed.

Lemma nlargest_all (n : nat) (key : Driver -> Q) (all : list Driver) :
  (List.length all <= n)%nat ->
  not_in (nlargest n key all) all = [].
Proof.
  intros Hn. unfold nlargest, not_in.
  pose proof (sort_perm (fun y x => Py.gtb (key y) (key x)) all) as P.
  unfold Py.sorted_desc.
  rewrite firstn_all2 by (rewrite <- (Permutation_length P); exact Hn).
  apply filter_none. intros d Hd.
  apply negb_false_iff, mem_nat.
  apply (in_map (fun t => index (row t))).
  now apply (Permutation_in _ P).
Qed.
End BridgeFacts.

(** Every bridge has at most [top_n] driver segments, its four parallel
    lists have one entry per bar (start, drivers, optional Other, end), and
    the first and last bars are the absolute and the total one. *)
Theorem waterfall_segment_counts
        (df : list WaterfallCalculator.Row)
        (period1_cols period2_cols : list string) (top_n : nat)
        (q : WaterfallCalculator.request) (w : WaterfallCalculator.Waterfall) :
  WaterfallCalculator.waterfall df period1_cols period2_cols top_n q = Py.Ok w ->
  (WaterfallCalculator.top_drivers_count w <= top_n)%nat
  /\ List.length (WaterfallCalculator.categories w)
     = List.length (WaterfallCalculator.values w)
  /\ List.length (WaterfallCalculator.colors w)
     = List.length (WaterfallCalculator.values w)
  /\ List.length (WaterfallCalculator.measures w)
     = List.length (WaterfallCalculator.values w)
  /\ List.length (WaterfallCalculator.values w)
     = (WaterfallCalculator.top_drivers_count w + 2
        + (if WaterfallCalculator.has_other w then 1 else 0))%nat
  /\ hd_error (WaterfallCalculator.measures w) = Some "absolute"
  /\ List.last (WaterfallCalculator.measures w) EmptyString = "total".
Proof.
  intros Hw.
  destruct (waterfall_frames df period1_cols period2_cols top_n q)
    as [[msg H] | [[key H] | H]]; try (rewrite H in Hw; discriminate).
  destruct H as (l1 & l2 & P1 & P2 & key & all & Hr & _).
  cbn zeta in Hr. rewrite Hr in Hw.
  apply build_lengths in Hw.
  destruct Hw as (Hc & Hcol & Hm & Hv & Hn & Hhd & Hlast).
  destruct (nlargest_length top_n key all) as [Hle _].
  rewrite Hn. repeat split; try assumption.
Qed.

Lemma waterfall_segment_counts_witness :
  exists w,
    WaterfallCalculator.waterfall half_cent_statement ["Jan"] ["Feb"] 1
      (WaterfallCalculator.DerivedMetric "operating_profit") = Py.Ok w
    /\ (WaterfallCalculator.top_drivers_count w <= 1)%nat
    /\ List.length (WaterfallCalculator.categories w)
       = List.length (WaterfallCalculator.values w).
Proof.
  eexists. split; [reflexivity |].
  pose proof (waterfall_segment_counts
                half_cent_statement ["Jan"] ["Feb"] 1
                (WaterfallCalculator.DerivedMetric "operating_profit") _ eq_refl)
    as H.
  split; [exact (proj1 H) | exact (proj1 (proj2 H))].
Defined.

(** When [top_n] is at least the number of rows of a statement with
    distinct index labels, every contributing row is a driver: no Other
    segment is emitted and the start value plus the driver values equals the
    end value. *)
Theorem waterfall_exact_when_all_rows_shown
        (df : list WaterfallCalculator.Row)
        (period1_cols period2_cols : list string) (top_n : nat)
        (q : WaterfallCalculator.request) (w : WaterfallCalculator.Waterfall) :
  NoDup (map WaterfallCalculator.index df) ->
  (List.length df <= top_n)%nat ->
  WaterfallCalculator.waterfall df period1_cols period2_cols top_n q = Py.Ok w ->
  WaterfallCalculator.has_other w = false
  /\ WaterfallCalculator.bridge_sum w == WaterfallCalculator.bridge_end w
  /\ (WaterfallCalculator.top_drivers_count w <= List.length df)%nat.
Proof.
  intros ND Hn Hw.
  destruct (waterfall_frames df period1_cols period2_cols top_n q)
    as [[msg H] | [[key H] | H]]; try (rewrite H in Hw; discriminate).
  destruct H as (l1 & l2 & P1 & P2 & key & all & Hr & Hsum & Hnd & Hrows).
  cbn zeta in Hr. rewrite Hr in Hw.
  assert (Hall : (List.length all <= List.length df)%nat).
  { rewrite <- (length_map label all),
            <- (length_map WaterfallCalculator.index df).
    apply NoDup_incl_length; [now apply Hnd |].
    intros i Hi. apply in_map_iff in Hi. destruct Hi as (d & <- & Hd).
    unfold label. apply in_map. now apply Hrows. }
  pose proof (nlargest_partition top_n key all (Hnd ND)) as Hp.
  rewrite (nlargest_all top_n key all) in Hw, Hp by lia.
  cbn [map] in Hw, Hp. rewrite sum_nil in Hp.
  destruct (build_lengths _ _ _ _ _ _ _ Hw) as (_ & _ & _ & _ & Hc & _).
  destruct (nlargest_length top_n key all) as [_ Hle].
  apply build_bridge in Hw. destruct Hw as (Hs & He & Ho).
  rewrite Hs, He, Ho, Hc. unfold other_bar.
  change (Py.gtb (Qabs (Py.sum [])) (1 # 100)) with false.
  cbn iota. pose proof sum_nil as S0.
  repeat split; [lra | lia].
Qed.

Lemma waterfall_exact_when_all_rows_shown_witness :
  exists w,
    WaterfallCalculator.waterfall half_cent_statement ["Jan"] ["Feb"] 2
      (WaterfallCalculator.RawMetric "revenue" (Some "Revenue")) = Py.Ok w
    /\ WaterfallCalculator.has_other w = false
    /\ WaterfallCalculator.bridge_sum w == WaterfallCalculator.bridge_end w
    /\ (WaterfallCalculator.top_drivers_count w <= 2)%nat.
Proof.
  eexists. split; [reflexivity |].
  apply (waterfall_exact_when_all_rows_shown
           half_cent_statement ["Jan"] ["Feb"] 2
           (WaterfallCalculator.RawMetric "revenue" (Some "Revenue"))).
  - repeat constructor; simpl; intuition lia.
  - simpl. lia.
  - reflexivity.
Defined.

(** ** Failures of the bridge engine *)

Section BridgeFailures.
Import WaterfallCalculator.
Variable df : list Row.
Variables period1_cols period2_cols : list string.
Variable top_n : nat.

Lemma mapM_names_err (l : list Driver) (e : Py.exc) :
  Py.mapM (fun d => display_name (account (row d))) l = Py.Err e ->
  exists d, In d l /\ account (row d) = None.
Proof.
  induction l as [| d l IH]; cbn [Py.mapM]; [discriminate |].
  destruct (account (row d)) as [name |] eqn:E; cbn [display_name Py.bind].
  - destruct (Py.mapM _ l) as [names | e']; cbn [Py.bind]; [discriminate |].
    intros [= <-]. destruct (IH eq_refl) as (d' & Hd' & Hn).
    exists d'. split; [now right | exact Hn].
  - intros _. exists d. split; [now left | exact E].
Qed.

Lemma build_err_nameless (l1 l2 : string) (p1 p2 : Q) (top : list Driver)
      (other : Q) (e : Py.exc) :
  build l1 l2 p1 p2 top other = Py.Err e ->
  (exists msg, e = Py.TypeError msg)
  /\ exists d, In d top /\ account (row d) = None.
Proof.
  intros H. split; [now apply build_err in H |].
  revert H. unfold build.
  destruct (Py.mapM _ top) as [names | e'] eqn:E; cbn [Py.bind].
  - destruct (movement_pct_total (p2 - p1) p1) as (pct & -> & _).
    cbn [Py.bind]. discriminate.
  - intros _. now apply mapM_names_err in E.
Qed.

Lemma In_firstn {A : Type} (n : nat) (l : list A) (x : A) :
  In x (firstn n l) -> In x l.
Proof.
  intros H. rewrite <- (firstn_skipn n l). apply in_or_app. now left.
Qed.

Lemma bridge_over_err (r : Py.result Waterfall) (e : Py.exc) :
  bridge_over df top_n r -> r = Py.Err e ->
  (exists msg, e = Py.TypeError msg)
  /\ exists r0, In r0 df /\ account r0 = None.
Proof.
  intros (l1 & l2 & P1 & P2 & key & all & Hr & _ & _ & Hrows) He.
  cbn zeta in Hr. rewrite Hr in He.
  apply build_err_nameless in He. destruct He as [Hty (d & Hd & Hn)].
  split; [exact Hty |]. exists (row d). split; [| exact Hn].
  apply Hrows. unfold nlargest in Hd. apply In_firstn in Hd.
  unfold Py.sorted_desc in Hd.
  eapply Permutation_in; [| exact Hd].
  apply Permutation_sym, sort_perm.
Qed.

Lemma filter_nil_existsb {A : Type} (f : A -> bool) (l : list A) :
  filter f l = [] <-> existsb f l = false.
Proof.
  induction l as [| x l IH]; cbn [filter existsb]; [tauto |].
  destruct (f x); cbn [orb]; [split; discriminate | exact IH].
Qed.

Lemma filter_nil_all {A : Type} (f : A -> bool) (l : list A) :
  filter f l = [] -> forall x, In x l -> f x = false.
Proof.
  induction l as [| y l IH]; cbn [filter]; [contradiction |].
  destruct (f y) eqn:E; [discriminate |].
  intros H x [<- | Hx]; [exact E | now apply IH].
Qed.

Lemma frame_nil (c : string) (f : Q -> Q) :
  (0 <? List.length (frame df period1_cols period2_cols c f))%nat = false ->
  has_category df c = false.
Proof.
  unfold frame, has_category. rewrite length_map.
  intros H. apply filter_nil_existsb.
  destruct (filter (category_is c) df); [reflexivity | discriminate].
Qed.

Lemma combine_map_map {A B C : Type} (g : A -> B) (h : A -> C) (l : list A) :
  combine (map g l) (map h l) = map (fun x => (g x, h x)) l.
Proof. induction l as [| x l IH]; cbn; congruence. Qed.

Lemma net_profit_keyerror (key : string) :
  _calculate_net_profit_waterfall df period1_cols period2_cols top_n
  = Py.Err (Py.KeyError key) ->
  key = "impact_on_np"
  /\ forall c, In c AccountMapper.taxonomy -> has_category df c = false.
Proof.
  unfold _calculate_net_profit_waterfall.
  set (dfs := map (fun cs => frame df period1_cols period2_cols (fst cs)
                                   (fun m => m * snd cs)) net_profit_signs).
  set (signed := combine dfs (map snd net_profit_signs)).
  set (nonempty := filter (fun ds => (0 <? List.length (fst ds))%nat) signed).
  destruct nonempty as [| ds0 rest] eqn:E.
  - intros [= <-]. split; [reflexivity |].
    pose proof (filter_nil_all _ _ E) as Hall.
    unfold signed, dfs in Hall. rewrite combine_map_map in Hall.
    intros c Hc.
    change AccountMapper.taxonomy with (map fst net_profit_signs) in Hc.
    apply in_map_iff in Hc. destruct Hc as ([c' s] & <- & Hcs).
    cbn [fst]. apply (frame_nil c' (fun m => m * s)).
    apply (Hall (frame df period1_cols period2_cols c' (fun m => m * s), s)).
    apply (in_map (fun x : string * Q =>
                     (frame df period1_cols period2_cols (fst x)
                            (fun m => m * snd x), snd x)) _ (c', s)).
    exact Hcs.
  - intros H. apply build_err in H. destruct H as [msg H]. discriminate.
Qed.


Lemma reconciled_err (r : Py.result Waterfall) (e : Py.exc) :
  reconciled_bridge df top_n r -> r = Py.Err e -> exists msg, e = Py.TypeError msg.
Proof.
  intros (l1 & l2 & P1 & P2 & key & all & Hr & _) He.
  cbn zeta in Hr. rewrite Hr in He. now apply build_err in He.
Qed.

(** A failure of a path that is a reconciled bridge comes from a nameless
    row. *)
Lemma path_err (q : request) (e : Py.exc) :
  reconciled_bridge df top_n (waterfall df period1_cols period2_cols top_n q) ->
  waterfall df period1_cols period2_cols top_n q = Py.Err e ->
  exists msg r0, e = Py.TypeError msg /\ In r0 df /\ account r0 = None.
Proof.
  intros Hrec He.
  destruct (reconciled_err _ _ Hrec He) as [msg ->].
  destruct (waterfall_frames df period1_cols period2_cols top_n q)
    as [[m H] | [[k H] | H]]; try (rewrite H in He; discriminate).
  destruct (bridge_over_err _ _ H He) as [_ (r0 & Hr0 & Hn)].
  now exists msg, r0.
Qed.

Lemma derived_err (metric : string) (e : Py.exc) :
  calculate_derived_metric df period1_cols period2_cols top_n metric = Py.Err e ->
  (exists msg r0, e = Py.TypeError msg /\ In r0 df /\ account r0 = None)
  \/ (~ In metric AnalysisRouter.derived_metrics
      /\ e = Py.ValueError ("Unknown derived metric: " ++ metric)%string)
  \/ (metric = "net_profit" /\ e = Py.KeyError "impact_on_np"
      /\ forall c, In c AccountMapper.taxonomy -> has_category df c = false).
Proof.
  intros He.
  destruct (String.eqb metric "gross_profit") eqn:E1.
  { apply String.eqb_eq in E1. subst metric. left.
    apply (path_err (DerivedMetric "gross_profit"));
      [apply gross_profit_reconciled | exact He]. }
  destruct (String.eqb metric "operating_profit") eqn:E2.
  { apply String.eqb_eq in E2. subst metric. left.
    apply (path_err (DerivedMetric "operating_profit"));
      [apply operating_profit_reconciled | exact He]. }
  destruct (String.eqb metric "net_profit") eqn:E3.
  { apply String.eqb_eq in E3. subst metric.
    destruct (net_profit_reconciled df period1_cols period2_cols top_n)
      as [[key H] | H].
    - right. right.
      change (_calculate_net_profit_waterfall df period1_cols period2_cols top_n
              = Py.Err e) in He.
      rewrite H in He. injection He as <-.
      apply net_profit_keyerror in H. destruct H as [-> Hc]. auto.
    - left. apply (path_err (DerivedMetric "net_profit")); [exact H | exact He]. }
  right. left. unfold calculate_derived_metric in He.
  rewrite E1, E2, E3 in He. injection He as <-.
  split; [| reflexivity].
  apply String.eqb_neq in E1, E2, E3.
  unfold AnalysisRouter.derived_metrics. cbn [In]. intuition congruence.
Qed.

Lemma raw_err (metric : string) (metric_filter : option string) (e : Py.exc) :
  calculate_waterfall df period1_cols period2_cols top_n metric metric_filter
  = Py.Err e ->
  exists msg r0, e = Py.TypeError msg /\ In r0 df /\ account r0 = None.
Proof.
  apply (path_err (RawMetric metric metric_filter)).
  apply calculate_waterfall_reconciled.
Qed.
End BridgeFailures.





(** ** Period ranges *)

(** [suggest_period_ranges] returns two empty ranges for fewer than two
    periods; for 2 to 23 periods it cuts the list in two adjacent non-empty
    halves, the first one the shorter by at most one; for 24 or more it
    returns the last 24 periods as two adjacent ranges of 12. *)
Theorem suggest_period_ranges_split (periods : list string) :
  let n := List.length periods in
  let period1 := fst (WaterfallCalculator.suggest_period_ranges periods) in
  let period2 := snd (WaterfallCalculator.suggest_period_ranges periods) in
  ((n < 2)%nat -> period1 = [] /\ period2 = [])
  /\ ((2 <= n < 24)%nat ->
      period1 ++ period2 = periods
      /\ List.length period1 = (n / 2)%nat
      /\ (1 <= List.length period1 <= List.length period2)%nat
      /\ (List.length period2 <= List.length period1 + 1)%nat)
  /\ ((24 <= n)%nat ->
      period1 ++ period2 = skipn (n - 24) periods
      /\ List.length period1 = 12%nat
      /\ List.length period2 = 12%nat).
Proof.
  cbn zeta. unfold WaterfallCalculator.suggest_period_ranges.
  set (n := List.length periods).
  assert (Hn : n = List.length periods) by reflexivity.
  pose proof (Nat.div_mod_eq n 2) as Hdiv.
  pose proof (Nat.mod_upper_bound n 2 ltac:(lia)) as Hmod.
  split; [| split].
  - intros H. apply Nat.ltb_lt in H. now rewrite H.
  - intros [H2 H24].
    assert (E2 : (n <? 2)%nat = false) by (apply Nat.ltb_ge; lia).
    assert (E24 : (24 <=? n)%nat = false) by (apply Nat.leb_gt; lia).
    rewrite E2, E24. cbn [fst snd].
    rewrite firstn_skipn, length_firstn, length_skipn, <- Hn.
    repeat split; lia.
  - intros H24.
    assert (E2 : (n <? 2)%nat = false) by (apply Nat.ltb_ge; lia).
    assert (E24 : (24 <=? n)%nat = true) by (apply Nat.leb_le; lia).
    rewrite E2, E24. cbn [fst snd].
    replace (n - 12)%nat with (12 + (n - 24))%nat by lia.
    rewrite <- skipn_skipn, firstn_skipn.
    rewrite length_firstn, !length_skipn, <- Hn.
    repeat split; lia.
Qed.

Lemma suggest_period_ranges_split_witness :
  fst (WaterfallCalculator.suggest_period_ranges thirty_periods)
  ++ snd (WaterfallCalculator.suggest_period_ranges thirty_periods)
  = skipn 6 thirty_periods
  /\ List.length (fst (WaterfallCalculator.suggest_period_ranges thirty_periods))
     = 12%nat
  /\ List.length (snd (WaterfallCalculator.suggest_period_ranges thirty_periods))
     = 12%nat.
Proof.
  apply (proj2 (proj2 (suggest_period_ranges_split thirty_periods))).
  simpl. lia.
Defined.

(** ** Sorting of period keys *)

Section StringOrder.
Lemma str_lt_trans (a b c : string) : str_lt a b -> str_lt b c -> str_lt a c.
Proof.
  unfold str_lt, String.ltb. intros H1 H2.
  destruct (String.compare a b) eqn:E1; try discriminate.
  destruct (String.compare b c) eqn:E2; try discriminate.
  apply String_as_OT.cmp_lt in E1, E2.
  pose proof (String_as_OT.lt_trans _ _ _ E1 E2) as H.
  apply String_as_OT.cmp_lt in H.
  change (String.compare a c = Lt) in H. now rewrite H.
Qed.

Lemma str_lt_total (a b : string) :
  String.ltb a b = false -> a <> b -> str_lt b a.
Proof.
  unfold str_lt, String.ltb. intros H Hne.
  rewrite (String.compare_antisym b a).
  destruct (String.compare a b) eqn:E; cbn [CompOpp].
  - apply String.compare_eq_iff in E. contradiction.
  - discriminate.
  - reflexivity.
Qed.

Lemma str_lt_irrefl (a : string) : ~ str_lt a a.
Proof.
  unfold str_lt, String.ltb. intros H.
  destruct (String.compare a a) eqn:E; try discriminate.
  pose proof (String.compare_antisym a a) as Ha.
  rewrite E in Ha. discriminate.
Qed.

Lemma insert_str_sorted (x : string) (l : list string) :
  StronglySorted str_lt l -> ~ In x l ->
  StronglySorted str_lt (Py.insert String.ltb x l).
Proof.
  induction 1 as [| y l Hs IH Hy]; intros Hx; cbn [Py.insert].
  - repeat constructor.
  - destruct (String.ltb y x) eqn:E.
    + constructor.
      * apply IH. intros H. apply Hx. now right.
      * eapply Permutation_Forall; [apply insert_perm |].
        constructor; [exact E | exact Hy].
    + assert (Hxy : str_lt x y).
      { apply str_lt_total; [exact E |]. intros ->. apply Hx. now left. }
      constructor; [now constructor |].
      constructor; [exact Hxy |].
      eapply Forall_impl; [| exact Hy].
      intros z Hz. now apply (str_lt_trans x y z).
Qed.

Lemma sorted_str_sorted (l : list string) :
  NoDup l -> StronglySorted str_lt (Py.sorted_str l).
Proof.
  unfold Py.sorted_str, Py.sort.
  induction 1 as [| x l Hx _ IH]; cbn [fold_right]; [constructor |].
  apply insert_str_sorted; [exact IH |].
  intros H. apply Hx.
  eapply Permutation_in; [| exact H].
  apply Permutation_sym, (sort_perm String.ltb).
Qed.

Lemma sorted_str_In (l : list string) (x : string) :
  In x (Py.sorted_str l) <-> In x l.
Proof.
  unfold Py.sorted_str. split; intros H.
  - eapply Permutation_in; [| exact H].
    apply Permutation_sym, (sort_perm String.ltb).
  - eapply Permutation_in; [| exact H]. apply (sort_perm String.ltb).
Qed.

Lemma unique_sound (xs : list (option string)) (seen : list string) (x : string) :
  In x (AccountMapper.unique seen xs) -> In (Some x) xs.
Proof.
  revert seen. induction xs as [| [y |] xs IH]; intros seen;
    cbn [AccountMapper.unique].
  - contradiction.
  - destruct (existsb (String.eqb y) seen).
    + intros H. right. now apply (IH seen).
    + intros [-> | H]; [now left | right; now apply (IH (y :: seen))].
  - intros H. right. now apply (IH seen).
Qed.
End StringOrder.

(** [get_available_periods] lists, in strictly increasing order and hence
    without repetition, exactly the non-null values found in the columns
    whose name ends with the date suffix. *)
Theorem get_available_periods_sorted
        (columns : list (string * list (option string))) (date_suffix : string) :
  StronglySorted str_lt
                 (WaterfallCalculator.get_available_periods columns date_suffix)
  /\ forall p,
      In p (WaterfallCalculator.get_available_periods columns date_suffix)
      <-> exists name vals,
          In (name, vals) columns
          /\ Py.endswith name date_suffix = true
          /\ In (Some p) vals.
Proof.
  unfold WaterfallCalculator.get_available_periods. split.
  - apply sorted_str_sorted, NoDup_nodup.
  - intros p. rewrite sorted_str_In, nodup_In, in_flat_map. split.
    + intros ([name vals] & Hc & Hp). apply filter_In in Hc.
      destruct Hc as [Hc Hs]. exists name, vals.
      repeat split; [exact Hc | exact Hs |]. now apply unique_sound in Hp.
    + intros (name & vals & Hc & Hs & Hp). exists (name, vals). split.
      * apply filter_In. now split.
      * cbn [snd]. destruct (unique_complete vals [] p Hp) as [H | []]. exact H.
Qed.

(** ** Metric options and the router *)




Lemma build_err_msg (l1 l2 : string) (p1 p2 : Q)
      (top : list WaterfallCalculator.Driver) (other : Q) (e : Py.exc) :
  WaterfallCalculator.build l1 l2 p1 p2 top other = Py.Err e ->
  e = Py.TypeError "object of type 'float' has no len()".
Proof.
  unfold WaterfallCalculator.build.
  destruct (Py.mapM _ top) as [names | e'] eqn:E; cbn [Py.bind].
  - destruct (movement_pct_total (p2 - p1) p1) as (pct & -> & _).
    cbn [Py.bind]. discriminate.
  - intros [= <-]. revert e' E.
    induction top as [| d top IH]; intros e' E; cbn [Py.mapM] in E;
      [discriminate |].
    destruct (WaterfallCalculator.account (WaterfallCalculator.row d));
      cbn [WaterfallCalculator.display_name Py.bind] in E.
    + destruct (Py.mapM _ top) as [names | e'']; cbn [Py.bind] in E;
        [discriminate |].
      injection E as <-. now apply IH.
    + now injection E as <-.
Qed.

Lemma type_error_msg
      (df : list WaterfallCalculator.Row)
      (period1_cols period2_cols : list string) (top_n : nat)
      (q : WaterfallCalculator.request) (msg : string) :
  WaterfallCalculator.waterfall df period1_cols period2_cols top_n q
  = Py.Err (Py.TypeError msg) ->
  msg = "object of type 'float' has no len()".
Proof.
  intros He.
  destruct (waterfall_frames df period1_cols period2_cols top_n q)
    as [[m H] | [[k H] | H]]; try (rewrite H in He; discriminate).
  destruct H as (l1 & l2 & P1 & P2 & key & all & Hr & _).
  cbn zeta in Hr. rewrite Hr in He. apply build_err_msg in He.
  now injection He.
Qed.

(** Through the router no request ends in the unknown-metric error: a
    request with an empty column set is answered 400; any other failure is
    a 500 whose cause is a nameless row, or a net-profit request on a
    statement without any taxonomy category. A metric name that is neither
    derived nor mapped is computed over all line items. *)
Theorem get_pl_waterfall_responses
        (df : list WaterfallCalculator.Row)
        (period1_cols period2_cols : list string) (top_n : nat) (metric : string) :
  ((period1_cols = [] \/ period2_cols = []) ->
   AnalysisRouter.get_pl_waterfall df period1_cols period2_cols top_n metric
   = inl {| AnalysisRouter.status_code := 400;
            AnalysisRouter.detail := "No data found for specified periods" |})
  /\ (forall h,
         AnalysisRouter.get_pl_waterfall df period1_cols period2_cols top_n metric
         = inl h ->
         period1_cols <> [] -> period2_cols <> [] ->
         AnalysisRouter.status_code h = 500%nat
         /\ ((AnalysisRouter.detail h
              = "Failed to calculate waterfall: object of type 'float' has no len()"
              /\ exists r0, In r0 df /\ WaterfallCalculator.account r0 = None)
             \/ (AnalysisRouter.detail h
                 = "Failed to calculate waterfall: 'impact_on_np'"
                 /\ metric = "net_profit"
                 /\ forall c, In c AccountMapper.taxonomy ->
                              WaterfallCalculator.has_category df c = false)))
  /\ (~ In metric AnalysisRouter.derived_metrics ->
      Py.get AnalysisRouter.metric_category_map metric = None ->
      AnalysisRouter.calculate df period1_cols period2_cols top_n metric
      = WaterfallCalculator.calculate_waterfall
          df period1_cols period2_cols top_n metric None).
Proof.
  assert (Hder : existsb (String.eqb metric) AnalysisRouter.derived_metrics = true
                 -> In metric AnalysisRouter.derived_metrics).
  { intros Ed. apply existsb_exists in Ed.
    destruct Ed as (m & Hm & Em). apply String.eqb_eq in Em. now subst. }
  split; [| split].
  - unfold AnalysisRouter.get_pl_waterfall.
    intros [-> | ->]; [reflexivity | now destruct period1_cols].
  - intros h Hh H1 H2. unfold AnalysisRouter.get_pl_waterfall in Hh.
    destruct period1_cols as [| c1 t1]; [contradiction |].
    destruct period2_cols as [| c2 t2]; [contradiction |].
    destruct (AnalysisRouter.calculate df (c1 :: t1) (c2 :: t2) top_n metric)
      as [w | e] eqn:E; [discriminate |].
    injection Hh as <-. cbn [AnalysisRouter.status_code AnalysisRouter.detail].
    split; [reflexivity |].
    unfold AnalysisRouter.calculate in E.
    destruct (existsb (String.eqb metric) AnalysisRouter.derived_metrics) eqn:Ed.
    + pose proof E as E'. apply derived_err in E.
      destruct E as [(msg & r0 & -> & Hr0) | [[Hn _] | (Hm & -> & Hcat)]].
      * left. split; [| now exists r0].
        apply (type_error_msg df (c1 :: t1) (c2 :: t2) top_n
                              (WaterfallCalculator.DerivedMetric metric)) in E'.
        now subst msg.
      * exfalso. now apply Hn, Hder.
      * right. auto.
    + pose proof E as E'. apply raw_err in E.
      destruct E as (msg & r0 & -> & Hr0).
      left. split; [| now exists r0].
      apply (type_error_msg df (c1 :: t1) (c2 :: t2) top_n
               (WaterfallCalculator.RawMetric
                  metric (Py.get AnalysisRouter.metric_category_map metric))) in E'.
      now subst msg.
  - intros Hn Hg. unfold AnalysisRouter.calculate. rewrite Hg.
    destruct (existsb (String.eqb metric) AnalysisRouter.derived_metrics) eqn:Ed.
    + exfalso. now apply Hn, Hder.
    + reflexivity.
Qed.

Lemma get_pl_waterfall_responses_witness :
  AnalysisRouter.calculate half_cent_statement ["Jan"] ["Feb"] 1 "ebitda"
  = WaterfallCalculator.calculate_waterfall
      half_cent_statement ["Jan"] ["Feb"] 1 "ebitda" None.
Proof.
  apply (proj2 (proj2 (get_pl_waterfall_responses
                         half_cent_statement ["Jan"] ["Feb"] 1 "ebitda"))).
  - simpl. intuition discriminate.
  - reflexivity.
Defined.

(** ** The projected zero-cash date *)

Section Projection.
Lemma days_in_month_pos (y m : Z) : (28 <= Calendar.days_in_month y m <= 31)%Z.
Proof.
  unfold Calendar.days_in_month.
  repeat match goal with
         | |- context [if ?b then _ else _] => destruct b
         end; lia.
Qed.

(** [add_months] moves the month index by exactly [k], keeps the day
    within the target month, and fails exactly when the target year is
    out of range; the error is then the one of that year. *)
Lemma add_months_spec (dt : Calendar.DateTime) (k : Z) :
  (1 <= Calendar.month dt <= 12)%Z ->
  (1 <= Calendar.day dt)%Z ->
  let target := (month_index (Calendar.year dt) (Calendar.month dt) + k)%Z in
  if andb (13 <=? target)%Z (target <=? 120000)%Z then
    exists z,
      Calendar.add_months dt k = Py.Ok z
      /\ month_index (Calendar.year z) (Calendar.month z) = target
      /\ (1 <= Calendar.month z <= 12)%Z
      /\ (1 <= Calendar.day z
              <= Calendar.days_in_month (Calendar.year z) (Calendar.month z))%Z
      /\ (Calendar.day z <= Calendar.day dt)%Z
  else
    exists y, Calendar.add_months dt k = Py.Err (Calendar.year_error y).
Proof.
  intros Hm Hd. cbn zeta. unfold Calendar.add_months, month_index.
  pose proof (Z.quot_rem' k 12) as Hqr.
  assert (Hrem : (-12 < Z.rem k 12 < 12)%Z).
  { pose proof (Z.rem_bound_abs k 12 ltac:(lia)). lia. }
  set (q := Z.quot k 12) in *. set (r := Z.rem k 12) in *.
  unfold Calendar.MINYEAR, Calendar.MAXYEAR.
  destruct (12 <? Calendar.month dt + r)%Z eqn:E1;
    [apply Z.ltb_lt in E1 | apply Z.ltb_ge in E1;
     destruct (Calendar.month dt + r <? 1)%Z eqn:E2;
     [apply Z.ltb_lt in E2 | apply Z.ltb_ge in E2]];
    match goal with
    | |- context [Z.min (Calendar.days_in_month ?y ?m) _] =>
        pose proof (days_in_month_pos y m) as Hdim
    end;
    match goal with
    | |- context [andb (1 <=? ?y)%Z (?y <=? 9999)%Z] =>
        destruct (1 <=? y)%Z eqn:Ey1;
          [apply Z.leb_le in Ey1 | apply Z.leb_gt in Ey1];
          (destruct (y <=? 9999)%Z eqn:Ey2;
           [apply Z.leb_le in Ey2 | apply Z.leb_gt in Ey2])
    end;
    cbn [andb];
    match goal with
    | |- context [andb (13 <=? ?t)%Z (?t <=? 120000)%Z] =>
        destruct (13 <=? t)%Z eqn:Et1;
          [apply Z.leb_le in Et1 | apply Z.leb_gt in Et1];
          (destruct (t <=? 120000)%Z eqn:Et2;
           [apply Z.leb_le in Et2 | apply Z.leb_gt in Et2])
    end;
    cbn [andb]; try lia; try (eexists; reflexivity);
    (eexists; split; [reflexivity |];
     cbn [Calendar.year Calendar.month Calendar.day]; repeat split; lia).
Qed.
End Projection.

(** With a positive average net burn and a calendar date on the clock, the
    runway record's zero-cash date is a calendar date in the month that
    lies [int(cash_balance / avg_net_burn)] months after the current one,
    on the current day of the month or the last day of that month if it is
    shorter. *)
Theorem runway_zero_cash_date_projection
        (today : Calendar.DateTime) (cash burn : Q)
        (r : StartupMetricsCalculator.RunwayMetrics) :
  0 < burn ->
  valid_date today ->
  StartupMetricsCalculator._calculate_runway today cash burn = Py.Ok r ->
  exists d,
    StartupMetricsCalculator.zero_cash_date r = Some d
    /\ month_index (Calendar.d_year d) (Calendar.d_month d)
       = (month_index (Calendar.year today) (Calendar.month today)
          + Py.int (cash / burn))%Z
    /\ (1 <= Calendar.d_month d <= 12)%Z
    /\ (1 <= Calendar.d_day d
            <= Calendar.days_in_month (Calendar.d_year d) (Calendar.d_month d))%Z
    /\ Calendar.d_day d
       = Z.min (Calendar.day today)
               (Calendar.days_in_month (Calendar.d_year d) (Calendar.d_month d)).
Proof.
  intros Hburn [Hm Hd].
  unfold StartupMetricsCalculator._calculate_runway.
  assert (Hle : Py.leb burn 0 = false).
  { unfold Py.leb. destruct (Qle_bool burn 0) eqn:E; [| reflexivity].
    apply Qle_bool_iff in E. lra. }
  rewrite Hle.
  pose proof (add_months_spec today (Py.int (cash / burn)) Hm (proj1 Hd)) as H.
  cbn zeta in H.
  destruct (andb _ _).
  - destruct H as (z & Hz & Hidx & Hmz & Hdz & Hle').
    rewrite Hz. cbn [Py.bind]. intros [= <-].
    cbn [StartupMetricsCalculator.zero_cash_date].
    exists (Calendar.date_of z). split; [reflexivity |].
    unfold Calendar.date_of.
    cbn [Calendar.d_year Calendar.d_month Calendar.d_day].
    repeat split; try assumption; try lia.
    revert Hz. unfold Calendar.add_months.
    repeat match goal with
           | |- context [if ?b then _ else _] => destruct b
           end; cbn zeta; try discriminate;
      intros [= <-]; cbn [Calendar.year Calendar.month Calendar.day]; lia.
  - destruct H as [y H]. rewrite H. cbn [Py.bind]. discriminate.
Qed.

Lemma runway_zero_cash_date_projection_witness :
  exists d,
    Some {| Calendar.d_year := 2024; Calendar.d_month := 11; Calendar.d_day := 30 |}
    = Some d
    /\ month_index (Calendar.d_year d) (Calendar.d_month d)
       = (month_index 2024 1 + Py.int (1600 / 160))%Z
    /\ (1 <= Calendar.d_month d <= 12)%Z
    /\ (1 <= Calendar.d_day d
            <= Calendar.days_in_month (Calendar.d_year d) (Calendar.d_month d))%Z
    /\ Calendar.d_day d
       = Z.min 31 (Calendar.days_in_month (Calendar.d_year d) (Calendar.d_month d)).
Proof.
  apply (runway_zero_cash_date_projection
           a_clock_reading 1600 160
           {| StartupMetricsCalculator.months_remaining := Py.Finite (100 # 10);
              StartupMetricsCalculator.zero_cash_date :=
                Some {| Calendar.d_year := 2024; Calendar.d_month := 11;
                        Calendar.d_day := 30 |};
              StartupMetricsCalculator.status := "concerning";
              StartupMetricsCalculator.urgency := "medium";
              StartupMetricsCalculator.cash_balance := 1600 |}).
  - reflexivity.
  - unfold valid_date. repeat split; apply Z.leb_le; reflexivity.
  - reflexivity.
Defined.

(** With a positive average net burn, [_calculate_runway] returns a record
    exactly when the projected month lies in the years 1 to 9999; otherwise
    it raises instead of returning (a very long runway leaves the
    calendar). *)
Theorem runway_fails_beyond_calendar
        (today : Calendar.DateTime) (cash burn : Q) :
  0 < burn ->
  valid_date today ->
  let target :=
    (month_index (Calendar.year today) (Calendar.month today)
     + Py.int (cash / burn))%Z in
  ((13 <= target <= 120000)%Z ->
   exists r, StartupMetricsCalculator._calculate_runway today cash burn = Py.Ok r)
  /\ ((target < 13 \/ 120000 < target)%Z ->
      exists e,
        StartupMetricsCalculator._calculate_runway today cash burn = Py.Err e).
Proof.
  intros Hburn [Hm Hd]. cbn zeta.
  unfold StartupMetricsCalculator._calculate_runway.
  assert (Hle : Py.leb burn 0 = false).
  { unfold Py.leb. destruct (Qle_bool burn 0) eqn:E; [| reflexivity].
    apply Qle_bool_iff in E. lra. }
  rewrite Hle.
  pose proof (add_months_spec today (Py.int (cash / burn)) Hm (proj1 Hd)) as H.
  cbn zeta in H.
  destruct (andb _ _) eqn:E.
  - apply andb_true_iff in E. destruct E as [E1 E2].
    apply Z.leb_le in E1, E2.
    destruct H as (z & Hz & _). rewrite Hz. cbn [Py.bind].
    split; [intros _; now eexists | intros [Ht | Ht]; lia].
  - destruct H as [y H]. rewrite H. cbn [Py.bind].
    split; [| intros _; now eexists]. intros [H1 H2].
    apply andb_false_iff in E.
    destruct E as [E | E]; apply Z.leb_gt in E; lia.
Qed.

Lemma runway_fails_beyond_calendar_witness :
  exists e,
    StartupMetricsCalculator._calculate_runway a_clock_reading 1000000000 1
    = Py.Err e.
Proof.
  apply (proj2 (runway_fails_beyond_calendar a_clock_reading 1000000000 1
                  ltac:(reflexivity)
                  ltac:(unfold valid_date; repeat split; apply Z.leb_le;
                        reflexivity))).
  right. apply Z.ltb_lt. reflexivity.
Defined.

(** ** Ranked lists *)

Section SortedFacts.
Context {A : Type} (before : A -> A -> bool) (R : A -> A -> Prop).
Hypothesis before_true : forall x y, before y x = true -> R y x.
Hypothesis before_false : forall x y, before y x = false -> R x y.
Hypothesis R_trans : forall x y z, R x y -> R y z -> R x z.

Lemma insert_sorted (x : A) (l : list A) :
  StronglySorted R l -> StronglySorted R (Py.insert before x l).
Proof.
  induction 1 as [| y l Hs IH Hy]; cbn [Py.insert].
  - repeat constructor.
  - destruct (before y x) eqn:E.
    + constructor; [exact IH |].
      eapply Permutation_Forall; [apply insert_perm |].
      constructor; [now apply before_true | exact Hy].
    + constructor; [now constructor |].
      constructor; [now apply before_false |].
      eapply Forall_impl; [| exact Hy].
      intros z Hz. eapply R_trans; [apply before_false; exact E | exact Hz].
Qed.

Lemma sort_sorted (l : list A) : StronglySorted R (Py.sort before l).
Proof.
  unfold Py.sort. induction l as [| x l IH]; cbn [fold_right].
  - constructor.
  - now apply insert_sorted.
Qed.

Lemma firstn_sorted (n : nat) (l : list A) :
  StronglySorted R l -> StronglySorted R (firstn n l).
Proof.
  intros H. revert n. induction H as [| y l Hs IH Hy]; intros [| n];
    cbn [firstn]; try constructor.
  - apply IH.
  - rewrite Forall_forall in Hy |- *. intros z Hz.
    apply Hy. rewrite <- (firstn_skipn n l). apply in_or_app. now left.
Qed.
End SortedFacts.

Section Ranked.
Context {A : Type} (key : A -> Q).

Lemma sorted_desc_descending (l : list A) : descending key (Py.sorted_desc key l).
Proof.
  unfold descending, Py.sorted_desc. apply sort_sorted.
  - intros x y H. apply gtb_true in H. lra.
  - intros x y H. apply gtb_false in H. exact H.
  - intros x y z H1 H2. lra.
Qed.

Lemma top5_descending (l : list A) :
  descending key (firstn 5 (Py.sorted_desc key l)).
Proof.
  unfold descending. apply firstn_sorted. apply sorted_desc_descending.
Qed.

Lemma top5_Forall (P : A -> Prop) (l : list A) :
  Forall P l -> Forall P (firstn 5 (Py.sorted_desc key l)).
Proof.
  intros H. rewrite Forall_forall in H |- *. intros x Hx.
  apply H. unfold Py.sorted_desc in Hx.
  assert (Hs : In x (Py.sort (fun y x0 => Py.gtb (key y) (key x0)) l)).
  { rewrite <- (firstn_skipn 5 (Py.sort _ l)). apply in_or_app. now left. }
  eapply Permutation_in; [| exact Hs].
  apply Permutation_sym, sort_perm.
Qed.
End Ranked.

(** The three expense-driver lists: each has at most five entries, is in
    non-increasing order of its ranking key, and holds only entries computed
    from rows of expense accounts; every fastest-growing entry grew by more
    than 5 percent and every largest-increase entry by more than 0; with
    fewer than two value columns all three lists are empty. *)
Theorem expense_driver_lists
        (df : list StartupMetricsCalculator.Row) (value_columns : list string) :
  let d := StartupMetricsCalculator._identify_expense_drivers df value_columns in
  let from_expense_row e :=
    StartupMetricsCalculator._is_expense_account
      (Py.lower (StartupMetricsCalculator.e_account e)) = true
    /\ 0 <= StartupMetricsCalculator.latest_amount e
    /\ 0 <= StartupMetricsCalculator.previous_amount e in
  ((List.length (StartupMetricsCalculator.top_expenses d) <= 5)%nat
   /\ descending StartupMetricsCalculator.latest_amount
                 (StartupMetricsCalculator.top_expenses d)
   /\ Forall from_expense_row (StartupMetricsCalculator.top_expenses d))
  /\ ((List.length (StartupMetricsCalculator.fastest_growing d) <= 5)%nat
      /\ descending StartupMetricsCalculator.change_percent
                    (StartupMetricsCalculator.fastest_growing d)
      /\ Forall (fun e => from_expense_row e
                          /\ 5 < StartupMetricsCalculator.change_percent e)
                (StartupMetricsCalculator.fastest_growing d))
  /\ ((List.length (StartupMetricsCalculator.largest_increases d) <= 5)%nat
      /\ descending StartupMetricsCalculator.change_dollar
                    (StartupMetricsCalculator.largest_increases d)
      /\ Forall (fun e => from_expense_row e
                          /\ 0 < StartupMetricsCalculator.change_dollar e)
                (StartupMetricsCalculator.largest_increases d))
  /\ ((List.length value_columns < 2)%nat ->
      StartupMetricsCalculator.top_expenses d = []
      /\ StartupMetricsCalculator.fastest_growing d = []
      /\ StartupMetricsCalculator.largest_increases d = []).
Proof.
  cbn zeta. unfold StartupMetricsCalculator._identify_expense_drivers.
  destruct (rev value_columns) as [| latest [| prev rest]] eqn:E.
  - cbn. repeat split; try constructor; lia.
  - cbn. repeat split; try constructor; lia.
  - cbn [StartupMetricsCalculator.top_expenses
           StartupMetricsCalculator.fastest_growing
           StartupMetricsCalculator.largest_increases].
    assert (Hdata : Forall
                      (fun e =>
                         StartupMetricsCalculator._is_expense_account
                           (Py.lower (StartupMetricsCalculator.e_account e)) = true
                         /\ 0 <= StartupMetricsCalculator.latest_amount e
                         /\ 0 <= StartupMetricsCalculator.previous_amount e)
                      (StartupMetricsCalculator.expense_data df latest prev)).
    { unfold StartupMetricsCalculator.expense_data.
      apply Forall_forall. intros e He. apply in_map_iff in He.
      destruct He as (row & <- & Hrow). apply filter_In in Hrow.
      destruct Hrow as [_ Hexp].
      unfold StartupMetricsCalculator.expense_entry.
      cbn [StartupMetricsCalculator.e_account StartupMetricsCalculator.latest_amount
             StartupMetricsCalculator.previous_amount].
      repeat split; [exact Hexp | apply Qabs_nonneg | apply Qabs_nonneg]. }
    assert (Hlen : List.length value_columns = List.length (rev value_columns))
      by now rewrite length_rev.
    rewrite E in Hlen. cbn [List.length] in Hlen.
    repeat split;
      try apply firstn_le_length;
      try apply top5_descending;
      try (intros; lia).
    + now apply top5_Forall.
    + apply top5_Forall. apply Forall_forall. intros e He.
      apply filter_In in He. destruct He as [He Hgt].
      rewrite Forall_forall in Hdata. split; [now apply Hdata |].
      now apply gtb_true in Hgt.
    + apply top5_Forall. apply Forall_forall. intros e He.
      apply filter_In in He. destruct He as [He Hgt].
      rewrite Forall_forall in Hdata. split; [now apply Hdata |].
      now apply gtb_true in Hgt.
Qed.

Lemma expense_driver_lists_witness :
  StartupMetricsCalculator.top_expenses
    (StartupMetricsCalculator._identify_expense_drivers [hosting_row] ["2024-02"]) = []
  /\ StartupMetricsCalculator.fastest_growing
       (StartupMetricsCalculator._identify_expense_drivers [hosting_row] ["2024-02"]) = []
  /\ StartupMetricsCalculator.largest_increases
       (StartupMetricsCalculator._identify_expense_drivers [hosting_row] ["2024-02"]) = [].
Proof.
  apply (proj2 (proj2 (proj2 (expense_driver_lists [hosting_row] ["2024-02"])))).
  simpl. lia.
Defined.

(** ** Per-period maps *)

Section FreshKeys.
Context {V : Type}.

Lemma set_fresh (d : Py.dict V) (k : string) (v : V) :
  ~ In k (Py.keys d) -> Py.set d k v = d ++ [(k, v)].
Proof.
  induction d as [| [k0 v0] d IH]; cbn [Py.set Py.keys map fst In app]; intros H.
  - reflexivity.
  - destruct (String.eqb k k0) eqn:E.
    + apply String.eqb_eq in E. subst. exfalso. apply H. now left.
    + f_equal. apply IH. intros Hin. apply H. now right.
Qed.

Lemma fold_set_fresh (kvs : list (string * V)) (acc : Py.dict V) :
  NoDup (Py.keys acc ++ map fst kvs) ->
  fold_left (fun d kv => Py.set d (fst kv) (snd kv)) kvs acc = acc ++ kvs.
Proof.
  revert acc.
  induction kvs as [| [k v] kvs IH]; intros acc H; cbn [fold_left fst snd].
  - now rewrite app_nil_r.
  - cbn [map fst] in H. rewrite set_fresh.
    + rewrite IH; [now rewrite <- app_assoc |].
      unfold Py.keys in *. rewrite map_app. cbn [map fst].
      rewrite <- app_assoc. exact H.
    + intros Hin. apply NoDup_remove_2 in H. apply H.
      apply in_or_app. now left.
Qed.

Lemma keys_combine (ks : list string) (vs : list V) :
  NoDup ks -> NoDup (map fst (combine ks vs)).
Proof.
  revert vs.
  induction ks as [| k ks IH]; intros [| v vs] H; cbn [combine map fst];
    try constructor.
  - inversion H as [| ? ? Hk Hks]; subst. intros Hin. apply Hk.
    apply in_map_iff in Hin. destruct Hin as ([k' v'] & Hk' & Hin).
    cbn [fst] in Hk'. subst k'. eapply in_combine_l. exact Hin.
  - inversion H; subst. now apply IH.
Qed.

Lemma dict_zip_fresh (ks : list string) (vs : list V) :
  NoDup ks -> Py.dict_zip ks vs = combine ks vs.
Proof.
  intros H. unfold Py.dict_zip. rewrite fold_set_fresh; [reflexivity |].
  cbn [Py.keys map app]. now apply keys_combine.
Qed.

Lemma set_map {W : Type} (f : V -> W) (l : Py.dict V) (k : string) (v : V) :
  Py.set (map (fun x => (fst x, f (snd x))) l) k (f v)
  = map (fun x => (fst x, f (snd x))) (Py.set l k v).
Proof.
  induction l as [| [k0 v0] l IH]; cbn [map Py.set fst snd]; [reflexivity |].
  destruct (String.eqb k k0); cbn [map fst snd]; [reflexivity |].
  now rewrite IH.
Qed.

Lemma set_nonempty (d : Py.dict V) (k : string) (v : V) : Py.set d k v <> [].
Proof.
  destruct d as [| [k0 v0] d]; cbn [Py.set]; [discriminate |].
  destruct (String.eqb k k0); discriminate.
Qed.
End FreshKeys.

Lemma fold_left_over_map {A B C : Type} (f : A -> B -> A) (g : C -> B)
      (l : list C) (a : A) :
  fold_left f (map g l) a = fold_left (fun acc x => f acc (g x)) l a.
Proof.
  revert a. induction l as [| x l IH]; intros a; cbn [map fold_left];
    [reflexivity | apply IH].
Qed.

Lemma sorted_str_fixed (l : list string) :
  StronglySorted str_lt l -> Py.sorted_str l = l.
Proof.
  unfold Py.sorted_str, Py.sort.
  induction 1 as [| x l Hs IH Hx]; cbn [fold_right]; [reflexivity |].
  rewrite IH. destruct l as [| y t]; cbn [Py.insert]; [reflexivity |].
  inversion Hx as [| ? ? Hxy _]; subst.
  destruct (String.ltb y x) eqn:E; [| reflexivity].
  exfalso. apply (str_lt_irrefl x). eapply str_lt_trans; [exact Hxy | exact E].
Qed.

Lemma sorted_NoDup (l : list string) : StronglySorted str_lt l -> NoDup l.
Proof.
  induction 1 as [| x l Hs IH Hx]; constructor; [| exact IH].
  intros Hin. rewrite Forall_forall in Hx.
  apply (str_lt_irrefl x). now apply Hx.
Qed.

Lemma last_map {A B : Type} (f : A -> B) (l : list A) (a : A) (b : B) :
  l <> [] -> List.last (map f l) b = f (List.last l a).
Proof.
  induction l as [| x l IH]; intros H; [contradiction |].
  destruct l as [| y l]; [reflexivity |].
  change (List.last (map f (y :: l)) b = f (List.last (y :: l) a)).
  apply IH. discriminate.
Qed.

Lemma mean_map_minus {A : Type} (f g : A -> Q) (l : list A) :
  Py.mean (map (fun a => f a - g a) l) == Py.mean (map f l) - Py.mean (map g l).
Proof.
  unfold Py.mean. rewrite !length_map, sum_map_minus.
  unfold Qdiv. ring.
Qed.

Section PeriodMaps.
Import StartupMetricsCalculator.
Variable df : list Row.

Lemma record_period_listed (agg : Aggregates) (l : Py.dict (Q * Q)) (c : string) :
  totals_listed agg l ->
  totals_listed (record_period df agg c)
                (Py.set l c (revenue_of df c, expenses_of df c)).
Proof.
  unfold totals_listed, record_period, revenue_of, expenses_of.
  intros (Hr & He & Hn).
  destruct (period_totals df c) as [r e].
  cbn [revenue_by_period expenses_by_period net_income_by_period fst snd].
  rewrite Hr, He, Hn.
  rewrite <- (set_map (fun v => fst v) l c (r, e)).
  rewrite <- (set_map (fun v => snd v) l c (r, e)).
  rewrite <- (set_map (fun v => fst v - snd v) l c (r, e)).
  auto.
Qed.

Lemma fold_record_listed (cols : list string) (agg : Aggregates)
      (l : Py.dict (Q * Q)) :
  totals_listed agg l ->
  totals_listed
    (fold_left (record_period df) cols agg)
    (fold_left (fun d c => Py.set d c (revenue_of df c, expenses_of df c)) cols l)
  /\ periods (fold_left (record_period df) cols agg) = periods agg.
Proof.
  revert agg l.
  induction cols as [| c cols IH]; intros agg l H; cbn [fold_left].
  - now split.
  - destruct (IH (record_period df agg c)
                 (Py.set l c (revenue_of df c, expenses_of df c))
                 (record_period_listed agg l c H)) as [IH1 IH2].
    split; [exact IH1 |]. rewrite IH2.
    unfold record_period. now destruct (period_totals df c).
Qed.

Lemma fold_totals_nonempty (cols : list string) (l : Py.dict (Q * Q)) :
  cols <> [] \/ l <> [] ->
  fold_left (fun d c => Py.set d c (revenue_of df c, expenses_of df c)) cols l
  <> [].
Proof.
  revert l. induction cols as [| c cols IH]; intros l H; cbn [fold_left].
  - destruct H as [H | H]; [contradiction | exact H].
  - apply IH. right. apply set_nonempty.
Qed.

Lemma fold_totals_fresh (cols : list string) :
  NoDup cols ->
  fold_left (fun d c => Py.set d c (revenue_of df c, expenses_of df c)) cols []
  = map (fun c => (c, (revenue_of df c, expenses_of df c))) cols.
Proof.
  intros H.
  pose proof (fold_set_fresh
                (map (fun c => (c, (revenue_of df c, expenses_of df c))) cols) [])
    as F.
  rewrite fold_left_over_map in F. cbn [fst snd app] in F. apply F.
  cbn [Py.keys map app]. rewrite map_map. cbn [fst]. now rewrite map_id.
Qed.

(** The aggregates of a non-empty column list, read through one list of
    per-key totals. *)
Lemma aggregates_listed (value_columns : list string) :
  value_columns <> [] ->
  exists agg l,
    _calculate_aggregates df value_columns = Some agg
    /\ totals_listed agg l
    /\ l <> []
    /\ l = fold_left (fun d c => Py.set d c (revenue_of df c, expenses_of df c))
                     value_columns []
    /\ periods agg = Py.sorted_str value_columns.
Proof.
  intros Hne. unfold _calculate_aggregates.
  destruct value_columns as [| c cols] eqn:E; [contradiction |].
  rewrite <- E in *.
  match goal with
  | |- context [fold_left (record_period df) value_columns ?a] =>
      destruct (fold_record_listed value_columns a []) as [H1 H2];
        [repeat split |]
  end.
  do 2 eexists. split; [reflexivity |]. split; [exact H1 |].
  split; [apply fold_totals_nonempty; now left |].
  split; [reflexivity | exact H2].
Qed.

Lemma burn_rate_fields (agg : Aggregates) :
  Py.values (expenses_by_period agg) <> [] ->
  exists b,
    _calculate_burn_rate (Some agg) = Some b
    /\ gross_burn_by_period b = expenses_by_period agg
    /\ gross_burn_avg b = Py.mean (Py.values (expenses_by_period agg))
    /\ gross_burn_latest b = Py.last_or (Py.values (expenses_by_period agg)) 0
    /\ net_burn_by_period b
       = Py.dict_zip (periods agg)
           (map (fun er => fst er - snd er)
                (combine (Py.values (expenses_by_period agg))
                         (Py.values (revenue_by_period agg))))
    /\ net_burn_avg b
       = Py.mean (map (fun er => fst er - snd er)
                      (combine (Py.values (expenses_by_period agg))
                               (Py.values (revenue_by_period agg))))
    /\ net_burn_latest b
       = Py.last_or (map (fun er => fst er - snd er)
                         (combine (Py.values (expenses_by_period agg))
                                  (Py.values (revenue_by_period agg)))) 0.
Proof.
  intros Hne. unfold _calculate_burn_rate. cbn [values_of].
  destruct (Py.values (expenses_by_period agg)) as [| e es] eqn:E;
    [contradiction |].
  eexists. split; [reflexivity |].
  cbn [gross_burn_by_period gross_burn_avg gross_burn_latest
         net_burn_by_period net_burn_avg net_burn_latest].
  repeat split.
Qed.

Lemma listed_values (agg : Aggregates) (l : Py.dict (Q * Q)) :
  totals_listed agg l ->
  Py.values (revenue_by_period agg) = map (fun x => fst (snd x)) l
  /\ Py.values (expenses_by_period agg) = map (fun x => snd (snd x)) l
  /\ Py.values (net_income_by_period agg)
     = map (fun x => fst (snd x) - snd (snd x)) l
  /\ map (fun er => fst er - snd er)
         (combine (Py.values (expenses_by_period agg))
                  (Py.values (revenue_by_period agg)))
     = map (fun x => snd (snd x) - fst (snd x)) l.
Proof.
  intros (Hr & He & Hn). unfold Py.values. rewrite Hr, He, Hn, !map_map.
  cbn [snd]. repeat split.
  rewrite combine_map_map, map_map. reflexivity.
Qed.
End PeriodMaps.

(** For any non-empty list of value columns the burn record agrees with
    the aggregates: gross burn is the expense map, average and latest net
    burn are average and latest gross burn less average and latest revenue,
    and average net burn is the negated average net income. *)
Theorem burn_rate_averages
        (df : list StartupMetricsCalculator.Row) (value_columns : list string) :
  value_columns <> [] ->
  exists agg b,
    StartupMetricsCalculator._calculate_aggregates df value_columns = Some agg
    /\ StartupMetricsCalculator._calculate_burn_rate (Some agg) = Some b
    /\ StartupMetricsCalculator.gross_burn_by_period b
       = StartupMetricsCalculator.expenses_by_period agg
    /\ StartupMetricsCalculator.net_burn_avg b
       == StartupMetricsCalculator.gross_burn_avg b
          - Py.mean (Py.values (StartupMetricsCalculator.revenue_by_period agg))
    /\ StartupMetricsCalculator.net_burn_latest b
       == StartupMetricsCalculator.gross_burn_latest b
          - Py.last_or (Py.values (StartupMetricsCalculator.revenue_by_period agg)) 0
    /\ StartupMetricsCalculator.net_burn_avg b
       == - Py.mean (Py.values (StartupMetricsCalculator.net_income_by_period agg)).
Proof.
  intros Hne.
  destruct (aggregates_listed df value_columns Hne)
    as (agg & l & Hagg & Hl & Hnil & _ & _).
  destruct (listed_values agg l Hl) as (Vr & Ve & Vn & Vb).
  destruct (burn_rate_fields agg) as (b & Hb & Hg & Hga & Hgl & _ & Hna & Hnl).
  { rewrite Ve. destruct l; [contradiction | discriminate]. }
  exists agg, b. split; [exact Hagg |]. split; [exact Hb |]. split; [exact Hg |].
  rewrite Hna, Hnl, Hga, Hgl, Vb, Vr, Ve, Vn. unfold Py.last_or.
  split; [apply mean_map_minus |]. split.
  - destruct l as [| x0 l0]; [contradiction |].
    rewrite !(last_map _ (x0 :: l0) x0) by discriminate. reflexivity.
  - rewrite (mean_map_minus (fun x => snd (snd x)) (fun x => fst (snd x))).
    rewrite (mean_map_minus (fun x => fst (snd x)) (fun x => snd (snd x))).
    ring.
Qed.

Lemma burn_rate_averages_witness :
  exists agg b,
    StartupMetricsCalculator._calculate_aggregates ordered_statement
      ["2024-01"; "2024-02"] = Some agg
    /\ StartupMetricsCalculator._calculate_burn_rate (Some agg) = Some b
    /\ StartupMetricsCalculator.gross_burn_by_period b
       = StartupMetricsCalculator.expenses_by_period agg
    /\ StartupMetricsCalculator.net_burn_avg b
       == StartupMetricsCalculator.gross_burn_avg b
          - Py.mean (Py.values (StartupMetricsCalculator.revenue_by_period agg))
    /\ StartupMetricsCalculator.net_burn_latest b
       == StartupMetricsCalculator.gross_burn_latest b
          - Py.last_or (Py.values (StartupMetricsCalculator.revenue_by_period agg)) 0
    /\ StartupMetricsCalculator.net_burn_avg b
       == - Py.mean (Py.values (StartupMetricsCalculator.net_income_by_period agg)).
Proof.
  apply (burn_rate_averages ordered_statement ["2024-01"; "2024-02"]).
  discriminate.
Defined.

(** ** Per-period maps on ordered columns *)

Lemma combine_self_map {A B : Type} (h : A -> B) (l : list A) :
  combine l (map h l) = map (fun x => (x, h x)) l.
Proof.
  induction l as [| x l IH]; cbn [map combine]; [reflexivity | now rewrite IH].
Qed.

Lemma combine_map_both {A B C D : Type} (f : A -> C) (g : B -> D)
      (a : list A) (b : list B) :
  combine (map f a) (map g b)
  = map (fun pq => (f (fst pq), g (snd pq))) (combine a b).
Proof.
  revert b. induction a as [| x a IH]; intros [| y b]; cbn [map combine fst snd];
    try reflexivity.
  now rewrite IH.
Qed.

Lemma map_snd_combine {A B : Type} (a : list A) (b : list B) :
  (List.length b <= List.length a)%nat -> map snd (combine a b) = b.
Proof.
  revert b. induction a as [| x a IH]; intros [| y b] H; cbn [combine map snd];
    try reflexivity.
  - cbn [List.length] in H. lia.
  - cbn [List.length] in H. rewrite IH; [reflexivity | lia].
Qed.

Lemma tl_map {A B : Type} (f : A -> B) (l : list A) : tl (map f l) = map f (tl l).
Proof. now destruct l. Qed.

Lemma tl_length {A : Type} (l : list A) : (List.length (tl l) <= List.length l)%nat.
Proof. destruct l; cbn [tl List.length]; lia. Qed.

Lemma NoDup_tl {A : Type} (l : list A) : NoDup l -> NoDup (tl l).
Proof. intros H. destruct l; [exact H | now inversion H]. Qed.

Lemma growth_fields (float_pow : Q -> Q -> Q)
      (agg : StartupMetricsCalculator.Aggregates) :
  (2 <= List.length (Py.values (StartupMetricsCalculator.revenue_by_period agg)))%nat ->
  exists g,
    StartupMetricsCalculator._calculate_growth_metrics float_pow (Some agg) = Some g
    /\ StartupMetricsCalculator.mom_growth_by_period g
       = Py.dict_zip
           (tl (StartupMetricsCalculator.periods agg))
           (map StartupMetricsCalculator.mom_step
                (combine (Py.values (StartupMetricsCalculator.revenue_by_period agg))
                         (tl (Py.values
                                (StartupMetricsCalculator.revenue_by_period agg))))).
Proof.
  intros H. unfold StartupMetricsCalculator._calculate_growth_metrics.
  cbn [StartupMetricsCalculator.values_of].
  destruct (List.length _ <? 2)%nat eqn:E.
  - apply Nat.ltb_lt in E. lia.
  - eexists. split; reflexivity.
Qed.

(** When the value columns are in strictly increasing order (so
    [sorted] leaves them as they are), every per-period map is keyed by
    the column its value was computed from: revenue, expenses, net burn
    (expenses less revenue of the same column) and month-over-month growth
    (each column against the one before it). *)
Theorem period_maps_aligned_on_sorted_columns
        (df : list StartupMetricsCalculator.Row) (value_columns : list string)
        (float_pow : Q -> Q -> Q) :
  value_columns <> [] ->
  StronglySorted str_lt value_columns ->
  exists agg b,
    StartupMetricsCalculator._calculate_aggregates df value_columns = Some agg
    /\ StartupMetricsCalculator._calculate_burn_rate (Some agg) = Some b
    /\ StartupMetricsCalculator.periods agg = value_columns
    /\ StartupMetricsCalculator.revenue_by_period agg
       = map (fun p => (p, revenue_of df p)) value_columns
    /\ StartupMetricsCalculator.expenses_by_period agg
       = map (fun p => (p, expenses_of df p)) value_columns
    /\ StartupMetricsCalculator.net_burn_by_period b
       = map (fun p => (p, expenses_of df p - revenue_of df p)) value_columns
    /\ ((2 <= List.length value_columns)%nat ->
        exists g,
          StartupMetricsCalculator._calculate_growth_metrics float_pow (Some agg)
          = Some g
          /\ StartupMetricsCalculator.mom_growth_by_period g
             = map (fun pq =>
                      (snd pq,
                       StartupMetricsCalculator.mom_step
                         (revenue_of df (fst pq), revenue_of df (snd pq))))
                   (combine value_columns (tl value_columns))).
Proof.
  intros Hne Hs.
  pose proof (sorted_NoDup value_columns Hs) as ND.
  destruct (aggregates_listed df value_columns Hne)
    as (agg & l & Hagg & Hl & Hnil & El & Hp).
  rewrite (fold_totals_fresh df value_columns ND) in El.
  rewrite (sorted_str_fixed value_columns Hs) in Hp.
  destruct (listed_values agg l Hl) as (Vr & Ve & _ & Vb).
  destruct Hl as (Hr & He & _).
  destruct (burn_rate_fields agg) as (b & Hb & _ & _ & _ & Hnb & _).
  { rewrite Ve. destruct l; [contradiction | discriminate]. }
  exists agg, b.
  split; [exact Hagg |]. split; [exact Hb |]. split; [exact Hp |].
  subst l. rewrite map_map in Hr, He, Vr, Ve, Vb. cbn [fst snd] in Hr, He, Vr, Ve, Vb.
  split; [exact Hr |]. split; [exact He |]. split.
  - rewrite Hnb, Hp, Vb, (dict_zip_fresh _ _ ND). apply combine_self_map.
  - intros H2.
    destruct (growth_fields float_pow agg) as (g & Hg & Hm).
    { rewrite Vr, length_map. exact H2. }
    exists g. split; [exact Hg |].
    rewrite Hm, Hp, Vr, tl_map, combine_map_both, map_map.
    rewrite (dict_zip_fresh _ _ (NoDup_tl _ ND)).
    rewrite <- (map_snd_combine value_columns (tl value_columns)
                               (tl_length value_columns)) at 1.
    apply combine_map_map.
Qed.

Lemma period_maps_aligned_on_sorted_columns_witness :
  exists agg b,
    StartupMetricsCalculator._calculate_aggregates
      ordered_statement ["2024-01"; "2024-02"] = Some agg
    /\ StartupMetricsCalculator._calculate_burn_rate (Some agg) = Some b
    /\ StartupMetricsCalculator.net_burn_by_period b
       = map (fun p => (p, expenses_of ordered_statement p
                           - revenue_of ordered_statement p))
             ["2024-01"; "2024-02"].
Proof.
  destruct (period_maps_aligned_on_sorted_columns
              ordered_statement ["2024-01"; "2024-02"] pow_stub
              ltac:(discriminate)
              ltac:(repeat constructor))
    as (agg & b & H1 & H2 & _ & _ & _ & H3 & _).
  exists agg, b. auto.
Defined.

(** ** Key insights *)

Section Insights.
Import StartupMetricsCalculator.
Variable format_1f : Py.float -> string.
Variable str_float : Q -> string.

Lemma runway_insights_shape (r : option RunwayMetrics) :
  runway_insights format_1f r = []
  \/ exists i, runway_insights format_1f r = [i]
               /\ i_category i = "runway"
               /\ In (i_priority i) ["high"; "medium"; "low"].
Proof.
  unfold runway_insights, insight. destruct r as [r |]; [| now left].
  destruct (Py.float_truthy _); [| now left].
  destruct (Py.float_ltb _ 6).
  { right. eexists. split; [reflexivity |]. cbn [i_category i_priority In]. auto. }
  destruct (Py.float_ltb _ 12).
  { right. eexists. split; [reflexivity |]. cbn [i_category i_priority In]. auto. }
  destruct (Py.float_geb _ 18); [| now left].
  right. eexists. split; [reflexivity |]. cbn [i_category i_priority In]. auto.
Qed.

Lemma burn_insights_shape (b : option BurnMetrics) :
  burn_insights format_1f b = []
  \/ exists i, burn_insights format_1f b = [i]
               /\ i_category i = "burn"
               /\ In (i_priority i) ["high"; "medium"; "low"].
Proof.
  unfold burn_insights, insight. destruct b as [b |]; [| now left].
  destruct (String.eqb _ _); [| now left].
  right. eexists. split; [reflexivity |]. cbn [i_category i_priority In]. auto.
Qed.

Lemma growth_insights_shape (g : option GrowthMetrics) :
  growth_insights format_1f g = []
  \/ exists i, growth_insights format_1f g = [i]
               /\ i_category i = "growth"
               /\ In (i_priority i) ["high"; "medium"; "low"].
Proof.
  unfold growth_insights, insight.
  destruct (Py.gtb _ 10).
  { right. eexists. split; [reflexivity |]. cbn [i_category i_priority In]. auto. }
  destruct (Py.ltb _ 0); [| now left].
  right. eexists. split; [reflexivity |]. cbn [i_category i_priority In]. auto.
Qed.

Lemma efficiency_insights_shape (e : option Efficiency) :
  efficiency_insights str_float e = []
  \/ exists i, efficiency_insights str_float e = [i]
               /\ i_category i = "efficiency"
               /\ In (i_priority i) ["high"; "medium"; "low"].
Proof.
  unfold efficiency_insights, insight. destruct e as [e |]; [| now left].
  destruct (String.eqb _ "excellent").
  { right. eexists. split; [reflexivity |]. cbn [i_category i_priority In]. auto. }
  destruct (String.eqb _ "poor"); [| now left].
  right. eexists. split; [reflexivity |]. cbn [i_category i_priority In]. auto.
Qed.

Lemma sort_by_priority (l : list Insight) :
  by_priority
    (Py.sort (fun y x => (priority_order (i_priority y)
                          <? priority_order (i_priority x))%nat) l).
Proof.
  unfold by_priority. apply sort_sorted.
  - intros x y H. apply Nat.ltb_lt in H. lia.
  - intros x y H. apply Nat.ltb_ge in H. exact H.
  - intros x y z H1 H2. lia.
Qed.
End Insights.

(** The insight list holds at most one insight for each of the four
    topics (runway, burn, growth, efficiency), so at most four in all, each
    with a priority among high, medium and low, and it is in priority
    order, high first. *)
Theorem key_insights_ranked
        (format_1f : Py.float -> string) (str_float : Q -> string)
        (runway : option StartupMetricsCalculator.RunwayMetrics)
        (burn : option StartupMetricsCalculator.BurnMetrics)
        (growth : option StartupMetricsCalculator.GrowthMetrics)
        (efficiency : option StartupMetricsCalculator.Efficiency) :
  let insights :=
    StartupMetricsCalculator._generate_key_insights
      format_1f str_float runway burn growth efficiency in
  by_priority insights
  /\ (List.length insights <= 4)%nat
  /\ NoDup (map StartupMetricsCalculator.i_category insights)
  /\ Forall (fun i =>
               In (StartupMetricsCalculator.i_category i)
                  ["runway"; "burn"; "growth"; "efficiency"]
               /\ In (StartupMetricsCalculator.i_priority i)
                     ["high"; "medium"; "low"])
            insights.
Proof.
  cbn zeta. unfold StartupMetricsCalculator._generate_key_insights.
  split; [apply sort_by_priority |].
  match goal with
  | |- context [Py.sort ?f ?l] =>
      pose proof (sort_perm f l) as P; generalize dependent (Py.sort f l)
  end.
  intros sorted P.
  rewrite <- (Permutation_length P).
  rewrite <- (Permutation_map StartupMetricsCalculator.i_category P).
  rewrite <- P. clear P sorted.
  destruct (runway_insights_shape format_1f runway)
    as [-> | (i1 & -> & C1 & P1)];
    destruct (burn_insights_shape format_1f burn)
      as [-> | (i2 & -> & C2 & P2)];
    destruct (growth_insights_shape format_1f growth)
      as [-> | (i3 & -> & C3 & P3)];
    destruct (efficiency_insights_shape str_float efficiency)
      as [-> | (i4 & -> & C4 & P4)];
    cbn [app map List.length];
    rewrite ?C1, ?C2, ?C3, ?C4;
    (split; [lia |]);
    (split; [repeat constructor; cbn [In]; intuition discriminate |]);
    repeat (apply Forall_cons; [split; [| assumption] |]);
    try apply Forall_nil;
    rewrite ?C1, ?C2, ?C3, ?C4; cbn [In]; auto 6.
Qed.

(** ** Presence of the runway record *)

Lemma Forall_sort {A : Type} (before : A -> A -> bool) (P : A -> Prop) (l : list A) :
  Forall P l -> Forall P (Py.sort before l).
Proof. intros H. eapply Permutation_Forall; [apply sort_perm | exact H]. Qed.

Lemma other_insights_not_runway
      (format_1f : Py.float -> string) (str_float : Q -> string)
      (burn : option StartupMetricsCalculator.BurnMetrics)
      (growth : option StartupMetricsCalculator.GrowthMetrics)
      (efficiency : option StartupMetricsCalculator.Efficiency) :
  Forall (fun i => StartupMetricsCalculator.i_category i <> "runway")
         (StartupMetricsCalculator.burn_insights format_1f burn
          ++ StartupMetricsCalculator.growth_insights format_1f growth
          ++ StartupMetricsCalculator.efficiency_insights str_float efficiency).
Proof.
  destruct (burn_insights_shape format_1f burn) as [-> | (i2 & -> & C2 & _)];
    destruct (growth_insights_shape format_1f growth) as [-> | (i3 & -> & C3 & _)];
    destruct (efficiency_insights_shape str_float efficiency)
      as [-> | (i4 & -> & C4 & _)];
    cbn [app];
    repeat (apply Forall_cons; [congruence |]); apply Forall_nil.
Qed.

(** The runway record is present only when a cash balance is given and
    the average net burn is not zero. Without a cash balance the metrics
    are always returned and carry no runway insight. With a cash balance
    and a negative average net burn the record is the "profitable" one
    with an infinite number of months, and the insight list then holds the
    low-priority "Strong position" message rendered from that infinity. *)
Theorem runway_presence
        (df : list StartupMetricsCalculator.Row) (value_columns : list string)
        (float_pow : Q -> Q -> Q) (format_1f : Py.float -> string)
        (str_float : Q -> string) (today : Calendar.DateTime) :
  let burn :=
    StartupMetricsCalculator._calculate_burn_rate
      (StartupMetricsCalculator._calculate_aggregates df value_columns) in
  let run :=
    StartupMetricsCalculator.calculate_all_metrics
      df value_columns float_pow format_1f str_float today in
  (exists m,
      run None = Py.Ok m
      /\ StartupMetricsCalculator.m_runway m = None
      /\ Forall (fun i => StartupMetricsCalculator.i_category i <> "runway")
                (StartupMetricsCalculator.m_insights m))
  /\ (forall cash,
         burn = None
         \/ (exists b, burn = Some b /\ StartupMetricsCalculator.net_burn_avg b == 0) ->
         exists m,
           run (Some cash) = Py.Ok m /\ StartupMetricsCalculator.m_runway m = None)
  /\ (forall cash b,
         burn = Some b ->
         StartupMetricsCalculator.net_burn_avg b < 0 ->
         exists m,
           run (Some cash) = Py.Ok m
           /\ StartupMetricsCalculator.m_runway m = Some (profitable_runway cash)
           /\ In (StartupMetricsCalculator.insight
                    "positive" "runway"
                    ("Strong position with " ++ format_1f (Py.Infinity false)
                     ++ " months of runway.")%string
                    "low")
                 (StartupMetricsCalculator.m_insights m)).
Proof.
  cbv zeta. split; [| split].
  - cbv beta iota zeta delta [StartupMetricsCalculator.calculate_all_metrics Py.bind].
    eexists. split; [reflexivity |].
    cbn [StartupMetricsCalculator.m_runway StartupMetricsCalculator.m_insights].
    split; [reflexivity |].
    unfold StartupMetricsCalculator._generate_key_insights.
    apply Forall_sort.
    change (StartupMetricsCalculator.runway_insights format_1f None) with
      (@nil StartupMetricsCalculator.Insight).
    cbn [app]. apply other_insights_not_runway.
  - intros cash H.
    cbv beta zeta delta [StartupMetricsCalculator.calculate_all_metrics].
    destruct H as [Hb | (b & Hb & H0)]; rewrite Hb.
    + cbv beta iota zeta delta [Py.bind]. eexists. split; reflexivity.
    + apply eqb_true in H0. rewrite H0.
      cbv beta iota zeta delta [Py.bind negb]. eexists. split; reflexivity.
  - intros cash b Hb Hneg.
    cbv beta zeta delta [StartupMetricsCalculator.calculate_all_metrics].
    rewrite Hb.
    assert (E0 : Py.eqb (StartupMetricsCalculator.net_burn_avg b) 0 = false).
    { apply eqb_false. intros H. rewrite H in Hneg. revert Hneg. apply Qlt_irrefl. }
    assert (E1 : Py.leb (StartupMetricsCalculator.net_burn_avg b) 0 = true).
    { apply Qle_bool_iff. now apply Qlt_le_weak. }
    rewrite E0. unfold StartupMetricsCalculator._calculate_runway. rewrite E1.
    cbv beta iota zeta delta [Py.bind negb]. eexists. split; [reflexivity |].
    cbn [StartupMetricsCalculator.m_runway StartupMetricsCalculator.m_insights].
    split; [reflexivity |].
    unfold StartupMetricsCalculator._generate_key_insights.
    eapply Permutation_in; [apply sort_perm |].
    apply in_or_app. left. left. reflexivity.
Qed.

Lemma runway_presence_witness :
  exists m,
    StartupMetricsCalculator.calculate_all_metrics
      profitable_statement ["2024-01"; "2024-02"] pow_stub format_stub str_stub
      a_clock_reading (Some 1000)
    = Py.Ok m
    /\ StartupMetricsCalculator.m_runway m = Some (profitable_runway 1000)
    /\ In (StartupMetricsCalculator.insight
             "positive" "runway"
             ("Strong position with " ++ format_stub (Py.Infinity false)
              ++ " months of runway.")%string
             "low")
          (StartupMetricsCalculator.m_insights m).
Proof.
  eapply (proj2 (proj2 (runway_presence
                          profitable_statement ["2024-01"; "2024-02"]
                          pow_stub format_stub str_stub a_clock_reading))).
  - reflexivity.
  - reflexivity.
Defined.

(** ** Cash efficiency *)

Lemma round_half_even_nonneg (y : Q) : 0 <= y -> (0 <= Py.round_half_even y)%Z.
Proof.
  intros H. unfold Py.round_half_even.
  assert (Hn : (0 <= Qfloor y)%Z).
  { change 0%Z with (Qfloor (inject_Z 0)). now apply Qfloor_resp_le. }
  destruct (Py.ltb _ _); [exact Hn |].
  destruct (Py.ltb _ _); [lia |].
  destruct (Z.even _); lia.
Qed.

Lemma round_nonneg (x : Q) (ndigits : nat) : 0 <= x -> 0 <= Py.round x ndigits.
Proof.
  intros H. unfold Py.round.
  assert (Hs : (0 < 10 ^ Z.of_nat ndigits)%Z) by (apply Z.pow_pos_nonneg; lia).
  assert (Hy : 0 <= x * inject_Z (10 ^ Z.of_nat ndigits)).
  { apply Qmult_le_0_compat; [exact H |].
    change 0 with (inject_Z 0). rewrite <- Zle_Qle. lia. }
  apply round_half_even_nonneg in Hy.
  unfold Qle. cbn [Qnum Qden]. lia.
Qed.

(** The efficiency rating is one of five words. Any rating other than
    "unknown" comes with a burn multiple that is a positive number in the
    band of that rating, computed from a positive average net burn and a
    positive latest revenue; so the efficiency insight, which is emitted for
    "excellent" and "poor" only, always quotes a number. A multiple that is
    absent, null or rounds to zero is rated "unknown". *)
Theorem efficiency_rating_bands
        (str_float : Q -> string)
        (aggregates : option StartupMetricsCalculator.Aggregates)
        (burn : option StartupMetricsCalculator.BurnMetrics) :
  let e := StartupMetricsCalculator._calculate_cash_efficiency aggregates burn in
  let rating := StartupMetricsCalculator.efficiency_rating e in
  let avg_burn :=
    match burn with
    | Some b => StartupMetricsCalculator.net_burn_avg b
    | None => 0
    end in
  let latest_revenue :=
    Py.last_or (StartupMetricsCalculator.values_of
                  StartupMetricsCalculator.revenue_by_period aggregates) 0 in
  In rating ["excellent"; "good"; "average"; "poor"; "unknown"]
  /\ (rating <> "unknown" ->
      exists m,
        StartupMetricsCalculator.burn_multiple e = Some (Some m)
        /\ 0 < avg_burn /\ 0 < latest_revenue /\ 0 < m
        /\ (rating = "excellent" -> m < 3 # 2)
        /\ (rating = "good" -> 3 # 2 <= m < 5 # 2)
        /\ (rating = "average" -> 5 # 2 <= m < 4)
        /\ (rating = "poor" -> 4 <= m))
  /\ (forall i,
         In i (StartupMetricsCalculator.efficiency_insights str_float (Some e)) ->
         exists m,
           StartupMetricsCalculator.burn_multiple e = Some (Some m)
           /\ (StartupMetricsCalculator.i_message i
               = ("Excellent cash efficiency with " ++ str_float m
                  ++ "x burn multiple.")%string
               \/ StartupMetricsCalculator.i_message i
                  = ("High burn multiple (" ++ str_float m
                     ++ "x) indicates inefficient growth.")%string)).
Proof.
  cbv zeta.
  unfold StartupMetricsCalculator.efficiency_insights,
    StartupMetricsCalculator.str_multiple,
    StartupMetricsCalculator._calculate_cash_efficiency.
  cbv zeta.
  set (avg := match burn with
              | Some b => StartupMetricsCalculator.net_burn_avg b
              | None => 0
              end).
  set (rev := Py.last_or (StartupMetricsCalculator.values_of
                            StartupMetricsCalculator.revenue_by_period aggregates) 0).
  cbn [StartupMetricsCalculator.efficiency_rating
         StartupMetricsCalculator.burn_multiple].
  destruct (Py.gtb avg 0) eqn:Ea;
    [| cbn [String.eqb Ascii.eqb Bool.eqb In]; split; [auto 6 |];
       split; [congruence | intros i []] ].
  destruct (Py.gtb (rev * 12) 0) eqn:Er;
    [| cbn [String.eqb Ascii.eqb Bool.eqb In]; split; [auto 6 |];
       split; [congruence | intros i []] ].
  apply gtb_true in Ea, Er.
  assert (Hrev : 0 < rev) by lra.
  set (m := Py.round (avg * 12 / (rev * 12)) 2).
  assert (Hm : 0 <= m).
  { apply round_nonneg. apply Qle_shift_div_l; [exact Er | lra]. }
  destruct (Py.eqb m 0) eqn:E0;
    [cbn [String.eqb Ascii.eqb Bool.eqb In]; split; [auto 6 |];
     split; [congruence | intros i []] |].
  apply eqb_false in E0.
  assert (Hpos : 0 < m).
  { destruct (Qlt_le_dec 0 m) as [H | H]; [exact H |].
    exfalso. apply E0. now apply Qle_antisym. }
  destruct (Py.ltb m (3 # 2)) eqn:E1.
  { apply ltb_true in E1. cbn [String.eqb Ascii.eqb Bool.eqb In].
    split; [auto 6 |]. split.
    - intros _. exists m. split; [reflexivity |]. split; [exact Ea |].
      split; [exact Hrev |]. split; [exact Hpos |].
      repeat apply conj; intros Hrating;
        first [discriminate Hrating | assumption | split; assumption].
    - intros i [<- | []]. exists m. split; [reflexivity |]. left. reflexivity. }
  apply ltb_false in E1.
  destruct (Py.ltb m (5 # 2)) eqn:E2.
  { apply ltb_true in E2. cbn [String.eqb Ascii.eqb Bool.eqb In].
    split; [auto 6 |]. split.
    - intros _. exists m. split; [reflexivity |]. split; [exact Ea |].
      split; [exact Hrev |]. split; [exact Hpos |].
      repeat apply conj; intros Hrating;
        first [discriminate Hrating | assumption | split; assumption].
    - intros i []. }
  apply ltb_false in E2.
  destruct (Py.ltb m 4) eqn:E3.
  { apply ltb_true in E3. cbn [String.eqb Ascii.eqb Bool.eqb In].
    split; [auto 6 |]. split.
    - intros _. exists m. split; [reflexivity |]. split; [exact Ea |].
      split; [exact Hrev |]. split; [exact Hpos |].
      repeat apply conj; intros Hrating;
        first [discriminate Hrating | assumption | split; assumption].
    - intros i []. }
  apply ltb_false in E3. cbn [String.eqb Ascii.eqb Bool.eqb In].
  split; [auto 6 |]. split.
  - intros _. exists m. split; [reflexivity |]. split; [exact Ea |].
    split; [exact Hrev |]. split; [exact Hpos |].
    repeat apply conj; intros Hrating;
      first [discriminate Hrating | assumption | split; assumption].
  - intros i [<- | []]. exists m. split; [reflexivity |]. right. reflexivity.
Qed.

Lemma efficiency_rating_bands_witness :
  exists agg b m,
    StartupMetricsCalculator._calculate_aggregates
      ordered_statement ["2024-01"; "2024-02"] = Some agg
    /\ StartupMetricsCalculator._calculate_burn_rate (Some agg) = Some b
    /\ StartupMetricsCalculator.burn_multiple
         (StartupMetricsCalculator._calculate_cash_efficiency (Some agg) (Some b))
       = Some (Some m)
    /\ 4 <= m.
Proof.
  eexists. eexists.
  destruct (efficiency_rating_bands
              str_stub
              (StartupMetricsCalculator._calculate_aggregates
                 ordered_statement ["2024-01"; "2024-02"])
              (StartupMetricsCalculator._calculate_burn_rate
                 (StartupMetricsCalculator._calculate_aggregates
                    ordered_statement ["2024-01"; "2024-02"])))
    as (_ & H & _).
  destruct H as (m & Hm & _ & _ & _ & _ & _ & _ & Hp);
    [vm_compute; discriminate |].
  exists m. split; [reflexivity |]. split; [reflexivity |].
  split; [exact Hm | apply Hp; reflexivity].
Defined.

(** ** Fuzzy matching and the fill-in loop *)

Section FuzzyBest.
Import AccountMapper.
Variable token_sort_ratio : string -> string -> Q.

Lemma max_from_ge {A : Type} (key : A -> Q) (xs : list A) (best : A) :
  key best <= key (max_from key best xs)
  /\ forall x, In x xs -> key x <= key (max_from key best xs).
Proof.
  revert best. induction xs as [| y xs IH]; intros best; cbn [max_from].
  - split; [apply Qle_refl | intros x []].
  - destruct (Py.gtb (key y) (key best)) eqn:E.
    + apply gtb_true in E. destruct (IH y) as [H1 H2]. split.
      * apply Qle_trans with (key y); [now apply Qlt_le_weak | exact H1].
      * intros x [<- | Hx]; [exact H1 | now apply H2].
    + apply gtb_false in E. destruct (IH best) as [H1 H2]. split.
      * exact H1.
      * intros x [<- | Hx]; [| now apply H2].
        apply Qle_trans with (key best); assumption.
Qed.

Lemma all_matches_nonempty (name : string) :
  exists m ms, all_matches token_sort_ratio name = m :: ms.
Proof.
  unfold all_matches, STANDARD_ACCOUNTS. cbn [flat_map].
  cbn [snd map app]. eauto.
Qed.

Lemma all_matches_In (name : string) (m : string * string * Q) :
  In m (all_matches token_sort_ratio name)
  <-> exists cat stds std,
      In (cat, stds) STANDARD_ACCOUNTS /\ In std stds
      /\ m = (cat, std, token_sort_ratio (Py.lower name) (Py.lower std)).
Proof.
  unfold all_matches. generalize STANDARD_ACCOUNTS as table. intros table.
  rewrite in_flat_map. split.
  - intros ([cat stds] & He & Hm). apply in_map_iff in Hm.
    destruct Hm as (std & <- & Hs). now exists cat, stds, std.
  - intros (cat & stds & std & He & Hs & ->). exists (cat, stds).
    split; [exact He |]. apply in_map_iff. now exists std.
Qed.
End FuzzyBest.

(** The fuzzy result of a name rests on a standard account whose score no
    other standard account exceeds: its confidence is that score over 100,
    its category and subcategory are that account's when the score reaches
    the threshold and "Uncategorized" with an empty subcategory below it;
    the method is always "fuzzy" and the subtotal flag false. *)
Theorem fuzzy_match_best
        (token_sort_ratio : string -> string -> Q) (name : string) (threshold : Q) :
  let m := AccountMapper._fuzzy_match token_sort_ratio name threshold in
  let score_of std := token_sort_ratio (Py.lower name) (Py.lower std) in
  AccountMapper.method m = "fuzzy"
  /\ AccountMapper.is_subtotal m = false
  /\ exists cat stds std,
      In (cat, stds) AccountMapper.STANDARD_ACCOUNTS
      /\ In std stds
      /\ AccountMapper.confidence m = score_of std / 100
      /\ (forall cat' stds' std',
             In (cat', stds') AccountMapper.STANDARD_ACCOUNTS -> In std' stds' ->
             score_of std' <= score_of std)
      /\ (threshold <= score_of std ->
          AccountMapper.category m = AccountMapper.PyStr cat
          /\ AccountMapper.subcategory m = AccountMapper.PyStr std)
      /\ (score_of std < threshold ->
          AccountMapper.category m = AccountMapper.PyStr "Uncategorized"
          /\ AccountMapper.subcategory m = AccountMapper.PyStr EmptyString).
Proof.
  cbv zeta. unfold AccountMapper._fuzzy_match, AccountMapper.best_match.
  cbv zeta.
  destruct (all_matches_nonempty token_sort_ratio name) as (a & t & E).
  pose proof (all_matches_In token_sort_ratio name) as HIn.
  rewrite E in *. cbn [hd tl].
  pose proof (max_from_In snd a t) as Hbest.
  pose proof (max_from_ge snd t a) as [Hge0 Hge].
  destruct (AccountMapper.max_from snd a t) as [[cat sub] score].
  cbn [snd] in Hge0, Hge.
  apply HIn in Hbest. destruct Hbest as (cat0 & stds & std & Hc & Hs & [= -> -> Hscore]).
  assert (Hmax : forall cat' stds' std',
             In (cat', stds') AccountMapper.STANDARD_ACCOUNTS -> In std' stds' ->
             token_sort_ratio (Py.lower name) (Py.lower std') <= score).
  { intros cat' stds' std' Hc' Hs'.
    assert (Hm : In (cat', std', token_sort_ratio (Py.lower name) (Py.lower std'))
                    (a :: t)).
    { apply HIn. now exists cat', stds', std'. }
    destruct Hm as [Ea | Hm]; [rewrite Ea in Hge0; exact Hge0 |].
    apply (Hge _ Hm). }
  subst score.
  destruct (Py.geb _ threshold) eqn:G;
    cbn [AccountMapper.method AccountMapper.is_subtotal AccountMapper.confidence
           AccountMapper.category AccountMapper.subcategory];
    (split; [reflexivity |]); (split; [reflexivity |]);
    exists cat0, stds, std;
    (split; [exact Hc |]); (split; [exact Hs |]); (split; [reflexivity |]);
    (split; [exact Hmax |]).
  - split; [intros _; split; reflexivity |].
    intros Hlt. apply Qle_bool_iff in G. exfalso.
    apply (Qlt_irrefl threshold). eapply Qle_lt_trans; [exact G | exact Hlt].
  - split; [| intros _; split; reflexivity].
    intros Hle. apply Qle_bool_iff in Hle. unfold Py.geb, Py.leb in G. congruence.
Qed.

Section FillIn.
Import AccountMapper.
Variable token_sort_ratio : string -> string -> Q.

Lemma fill_in_other (results : Py.dict Mapping) (a k : string) :
  k <> a -> Py.get (fill_in token_sort_ratio results a) k = Py.get results k.
Proof.
  intros H. unfold fill_in.
  generalize (_fuzzy_match token_sort_ratio a 70) as f. intros f.
  destruct (Py.get results a) as [r |].
  - destruct (Py.ltb _ _); [| reflexivity].
    destruct (Py.gtb _ _); [| reflexivity].
    now apply get_set_other.
  - now apply get_set_other.
Qed.

Lemma fill_in_same (results : Py.dict Mapping) (k : string) :
  exists m,
    Py.get (fill_in token_sort_ratio results k) k = Some m
    /\ resolved (_fuzzy_match token_sort_ratio k 70) (Py.get results k) m.
Proof.
  unfold fill_in, resolved.
  generalize (_fuzzy_match token_sort_ratio k 70) as f. intros f.
  destruct (Py.get results k) as [r |] eqn:E.
  - destruct (Py.ltb (confidence r) (7 # 10)) eqn:L.
    + apply ltb_true in L.
      destruct (Py.gtb (confidence f) (confidence r)) eqn:G.
      * apply gtb_true in G. exists f. rewrite get_set_same.
        split; [reflexivity |]. repeat split; intros; try reflexivity; exfalso; lra.
      * apply gtb_false in G. exists r. rewrite E.
        split; [reflexivity |]. repeat split; intros; try reflexivity; exfalso; lra.
    + apply ltb_false in L. exists r. rewrite E.
      split; [reflexivity |]. repeat split; intros; try reflexivity; exfalso; lra.
  - exists f. rewrite get_set_same. now split.
Qed.

Lemma resolved_again (f : Mapping) (before : option Mapping) (m1 m2 : Mapping) :
  resolved f before m1 -> resolved f (Some m1) m2 -> m2 = m1.
Proof.
  unfold resolved. intros H1 (Ha & Hb & Hc).
  destruct (Qlt_le_dec (confidence m1) (7 # 10)) as [L | L]; [| now apply Ha].
  destruct (Qlt_le_dec (confidence m1) (confidence f)) as [G | G];
    [| now apply Hc].
  rewrite (Hb L G).
  destruct before as [r |]; [| now symmetry].
  destruct H1 as (H1a & H1b & H1c).
  destruct (Qlt_le_dec (confidence r) (7 # 10)) as [L' | L'].
  - destruct (Qlt_le_dec (confidence r) (confidence f)) as [G' | G'].
    + symmetry. now apply H1b.
    + pose proof (H1c L' G') as ->. exfalso. lra.
  - pose proof (H1a L') as ->. exfalso. lra.
Qed.

Lemma fold_fill_in_get (names : list string) (results : Py.dict Mapping)
      (name : string) :
  (~ In name names ->
   Py.get (fold_left (fill_in token_sort_ratio) names results) name
   = Py.get results name)
  /\ (In name names ->
      exists m,
        Py.get (fold_left (fill_in token_sort_ratio) names results) name = Some m
        /\ resolved (_fuzzy_match token_sort_ratio name 70)
                    (Py.get results name) m).
Proof.
  revert results.
  induction names as [| a names IH]; intros results; cbn [fold_left].
  - split; [reflexivity | intros []].
  - destruct (IH (fill_in token_sort_ratio results a)) as [IHa IHb].
    destruct (string_dec a name) as [-> | Hne].
    + split; [intros H; exfalso; apply H; now left |]. intros _.
      destruct (fill_in_same results name) as (m1 & Hm1 & R1).
      destruct (in_dec string_dec name names) as [Hin | Hnin].
      * destruct (IHb Hin) as (m2 & Hm2 & R2). rewrite Hm1 in R2.
        rewrite (resolved_again _ _ _ _ R1 R2) in Hm2. now exists m1.
      * rewrite (IHa Hnin). now exists m1.
    + rewrite (fill_in_other results a name) in IHa, IHb by congruence.
      split.
      * intros H. apply IHa. intros Hin. apply H. now right.
      * intros [H | H]; [congruence | now apply IHb].
Qed.
End FillIn.

(** What [categorize_accounts] holds for a name after the fill-in loop. A
    name that was not asked for keeps the entry of the external answer, if
    any. A name that was asked for always has an entry: the fuzzy result
    when the external answer has none; the external entry when its
    confidence is at least 0.7, or when the fuzzy confidence does not
    exceed it; the fuzzy result otherwise. The confidence of the final entry
    is never below that of the external one. *)
Theorem categorize_accounts_resolution
        (token_sort_ratio : string -> string -> Q)
        (ai : option (Py.dict AccountMapper.AiEntry))
        (account_names : list string) (name : string) :
  let before := Py.get (ai_results ai) name in
  let fuzzy := AccountMapper._fuzzy_match token_sort_ratio name 70 in
  let after :=
    Py.get (AccountMapper.categorize_accounts token_sort_ratio ai account_names)
           name in
  (~ In name account_names -> after = before)
  /\ (In name account_names ->
      exists m,
        after = Some m
        /\ resolved fuzzy before m
        /\ forall r, before = Some r ->
                     AccountMapper.confidence r <= AccountMapper.confidence m).
Proof.
  cbv zeta.
  change (AccountMapper.categorize_accounts token_sort_ratio ai account_names)
    with (fold_left (AccountMapper.fill_in token_sort_ratio) account_names
                    (ai_results ai)).
  destruct (fold_fill_in_get token_sort_ratio account_names (ai_results ai) name)
    as [Ha Hb].
  split; [exact Ha |]. intros Hin.
  destruct (Hb Hin) as (m & Hm & R). exists m.
  split; [exact Hm |]. split; [exact R |].
  intros r Hr. rewrite Hr in R. unfold resolved in R.
  clear Ha Hb Hm. revert R.
  generalize (AccountMapper._fuzzy_match token_sort_ratio name 70).
  intros f (Ra & Rb & Rc).
  destruct (Qlt_le_dec (AccountMapper.confidence r) (7 # 10)) as [L | L].
  - destruct (Qlt_le_dec (AccountMapper.confidence r) (AccountMapper.confidence f))
      as [G | G].
    + rewrite (Rb L G). now apply Qlt_le_weak.
    + rewrite (Rc L G). apply Qle_refl.
  - rewrite (Ra L). apply Qle_refl.
Qed.

Lemma categorize_accounts_resolution_witness :
  exists m,
    Py.get (AccountMapper.categorize_accounts
              no_match_score (Some unsure_answer) ["Sales"]) "Sales" = Some m
    /\ resolved (AccountMapper._fuzzy_match no_match_score "Sales" 70)
                (Py.get (ai_results (Some unsure_answer)) "Sales") m
    /\ forall r, Py.get (ai_results (Some unsure_answer)) "Sales" = Some r ->
                 AccountMapper.confidence r <= AccountMapper.confidence m.
Proof.
  apply (proj2 (categorize_accounts_resolution
                  no_match_score (Some unsure_answer) ["Sales"] "Sales")).
  simpl. left. reflexivity.
Defined.

(** ** Ranking of the drivers *)

Section RankedDrivers.
Import WaterfallCalculator.

Lemma descending_ext {A : Type} (key key' : A -> Q) (l : list A) :
  (forall x, In x l -> key x = key' x) -> descending key l -> descending key' l.
Proof.
  unfold descending. intros H S.
  induction S as [| x l S IH F]; constructor.
  - apply IH. intros y Hy. apply H. now right.
  - rewrite Forall_forall in F |- *. intros y Hy.
    rewrite <- (H x (or_introl eq_refl)), <- (H y (or_intror Hy)). now apply F.
Qed.

Lemma descending_map {A : Type} (f : A -> Q) (l : list A) :
  descending (fun a => Qabs (f a)) l -> descending Qabs (map f l).
Proof.
  unfold descending. induction 1 as [| x l S IH F]; cbn [map]; constructor.
  - exact IH.
  - rewrite Forall_forall in F |- *. intros y Hy.
    apply in_map_iff in Hy. destruct Hy as (a & <- & Ha). now apply F.
Qed.

Lemma nlargest_descending {n : nat} (key : Driver -> Q) (rows : list Driver) :
  descending key (nlargest n key rows).
Proof.
  unfold nlargest, descending. apply firstn_sorted. apply sorted_desc_descending.
Qed.

Lemma sorted_app_cross {A : Type} (R : A -> A -> Prop) (l1 l2 : list A) :
  StronglySorted R (l1 ++ l2) ->
  forall y z, In y l1 -> In z l2 -> R y z.
Proof.
  induction l1 as [| x l1 IH]; cbn [app]; intros S y z Hy Hz; [destruct Hy |].
  inversion S as [| ? ? S' F]; subst.
  destruct Hy as [<- | Hy]; [| now apply (IH S')].
  rewrite Forall_forall in F. apply F. apply in_or_app. now right.
Qed.

Lemma nlargest_dominates {n : nat} (key : Driver -> Q) (rows : list Driver)
      (d : Driver) :
  In d rows ->
  In d (nlargest n key rows)
  \/ forall t, In t (nlargest n key rows) -> key d <= key t.
Proof.
  intros Hd. unfold nlargest.
  assert (Hs : In d (Py.sorted_desc key rows)).
  { unfold Py.sorted_desc. eapply Permutation_in; [apply sort_perm | exact Hd]. }
  rewrite <- (firstn_skipn n (Py.sorted_desc key rows)) in Hs.
  apply in_app_or in Hs. destruct Hs as [Hs | Hs]; [now left | right].
  intros t Ht.
  pose proof (sorted_desc_descending key rows) as S. unfold descending in S.
  rewrite <- (firstn_skipn n (Py.sorted_desc key rows)) in S.
  exact (sorted_app_cross _ _ _ S t d Ht Hs).
Qed.

Lemma firstn_length_app {A : Type} (l r : list A) :
  firstn (List.length l) (l ++ r) = l.
Proof.
  induction l as [| x l IH]; cbn [List.length firstn app].
  - now destruct r.
  - now rewrite IH.
Qed.

Variable df : list Row.
Variables period1_cols period2_cols : list string.
Variable top_n : nat.

Lemma raw_impact (p : Row -> bool) (d : Driver) :
  In d (map (driver period1_cols period2_cols (fun m => m)) (filter p df)) ->
  impact d = movement d.
Proof.
  intros H. apply in_map_iff in H. destruct H as (r & <- & _). reflexivity.
Qed.

Lemma nlargest_subset (key : Driver -> Q) (rows : list Driver) (d : Driver) :
  In d (nlargest top_n key rows) -> In d rows.
Proof.
  unfold nlargest, Py.sorted_desc. intros H.
  assert (Hs : In d (Py.sort (fun y x => Py.gtb (key y) (key x)) rows)).
  { rewrite <- (firstn_skipn top_n (Py.sort _ rows)). apply in_or_app. now left. }
  eapply Permutation_in; [apply Permutation_sym, sort_perm | exact Hs].
Qed.

Lemma waterfall_top (q : request) (w : Waterfall) :
  waterfall df period1_cols period2_cols top_n q = Py.Ok w ->
  exists l1 l2 P1 P2 top other,
    build l1 l2 P1 P2 top other = Py.Ok w
    /\ descending (fun d => Qabs (impact d)) top.
Proof.
  destruct q as [metric metric_filter | metric]; cbn [waterfall].
  - unfold calculate_waterfall. intros H.
    do 6 eexists. split; [exact H |].
    match goal with
    | |- descending _ (nlargest _ ?k ?rows) =>
        apply (descending_ext k); [| apply nlargest_descending]
    end.
    intros d Hd. apply nlargest_subset in Hd.
    destruct metric_filter as [[| c f] |];
      now rewrite (raw_impact _ d Hd).
  - unfold calculate_derived_metric.
    destruct (String.eqb metric "gross_profit").
    { unfold _calculate_gross_profit_waterfall, _build_waterfall_structure.
      intros H. do 6 eexists. split; [exact H | apply nlargest_descending]. }
    destruct (String.eqb metric "operating_profit").
    { unfold _calculate_operating_profit_waterfall, _build_waterfall_structure.
      intros H. do 6 eexists. split; [exact H | apply nlargest_descending]. }
    destruct (String.eqb metric "net_profit"); [| discriminate].
    unfold _calculate_net_profit_waterfall.
    match goal with
    | |- context [match ?l with [] => _ | _ => _ end] => destruct l eqn:E
    end; [discriminate |].
    unfold _build_waterfall_structure.
    intros H. do 6 eexists. split; [exact H | apply nlargest_descending].
Qed.
End RankedDrivers.

(** In every bridge the driver bars come in non-increasing order of
    absolute value, there are [top_drivers_count] of them, each is green
    when its value is positive and red otherwise, and the first and the
    last bar are blue. *)
Theorem waterfall_drivers_ranked
        (df : list WaterfallCalculator.Row)
        (period1_cols period2_cols : list string) (top_n : nat)
        (q : WaterfallCalculator.request) (w : WaterfallCalculator.Waterfall) :
  WaterfallCalculator.waterfall df period1_cols period2_cols top_n q = Py.Ok w ->
  List.length (driver_values w) = WaterfallCalculator.top_drivers_count w
  /\ descending Qabs (driver_values w)
  /\ driver_colors w = map WaterfallCalculator.color_of (driver_values w)
  /\ hd_error (WaterfallCalculator.colors w) = Some WaterfallCalculator.BLUE
  /\ List.last (WaterfallCalculator.colors w) EmptyString = WaterfallCalculator.BLUE.
Proof.
  intros Hw.
  destruct (waterfall_top df period1_cols period2_cols top_n q w Hw)
    as (l1 & l2 & P1 & P2 & top & other & Hb & Hd).
  destruct (build_inv _ _ _ _ _ _ _ Hb) as (Hv & _ & Hc & _).
  destruct (build_inv_labels _ _ _ _ _ _ _ Hb) as (names & _ & _ & Hcol).
  assert (Ev : driver_values w = map WaterfallCalculator.impact top).
  { unfold driver_values. rewrite Hv, Hc. cbn [app tl].
    rewrite <- (length_map WaterfallCalculator.impact top).
    apply firstn_length_app. }
  assert (Ec : driver_colors w
               = map WaterfallCalculator.color_of
                     (map WaterfallCalculator.impact top)).
  { unfold driver_colors. rewrite Hcol, Hc. cbn [app tl].
    rewrite <- (length_map WaterfallCalculator.impact top).
    rewrite <- (length_map WaterfallCalculator.color_of
                           (map WaterfallCalculator.impact top)).
    apply firstn_length_app. }
  rewrite Ev, Ec, Hcol, Hc, length_map. cbn [app hd_error].
  split; [reflexivity |]. split; [now apply descending_map |].
  split; [reflexivity |]. split; [reflexivity |].
  change (WaterfallCalculator.BLUE
            :: map WaterfallCalculator.color_of (map WaterfallCalculator.impact top)
            ++ map WaterfallCalculator.color_of (other_bar other)
            ++ [WaterfallCalculator.BLUE])
    with ((WaterfallCalculator.BLUE
             :: map WaterfallCalculator.color_of
                    (map WaterfallCalculator.impact top))
            ++ map WaterfallCalculator.color_of (other_bar other)
            ++ [WaterfallCalculator.BLUE]).
  rewrite !app_assoc. apply last_last.
Qed.

Lemma waterfall_drivers_ranked_witness :
  exists w,
    WaterfallCalculator.waterfall half_cent_statement ["Jan"] ["Feb"] 1
      (WaterfallCalculator.DerivedMetric "operating_profit") = Py.Ok w
    /\ descending Qabs (driver_values w).
Proof.
  eexists. split; [reflexivity |].
  apply (waterfall_drivers_ranked
           half_cent_statement ["Jan"] ["Feb"] 1
           (WaterfallCalculator.DerivedMetric "operating_profit") _ eq_refl).
Defined.

(** [calculate_waterfall] shows the largest movers: for every row it
    selects, either the row's movement is one of the driver bars or its
    absolute movement does not exceed that of any driver bar. *)
Theorem calculate_waterfall_shows_largest_movers
        (df : list WaterfallCalculator.Row)
        (period1_cols period2_cols : list string) (top_n : nat)
        (metric : string) (metric_filter : option string)
        (w : WaterfallCalculator.Waterfall) (r : WaterfallCalculator.Row) :
  WaterfallCalculator.calculate_waterfall
    df period1_cols period2_cols top_n metric metric_filter = Py.Ok w ->
  In r df ->
  selected metric_filter r = true ->
  let m := WaterfallCalculator.row_sum period2_cols r
           - WaterfallCalculator.row_sum period1_cols r in
  In m (driver_values w)
  \/ Forall (fun v => Qabs m <= Qabs v) (driver_values w).
Proof.
  intros Hw Hr Hsel. cbv zeta.
  assert (Hsame : WaterfallCalculator.calculate_waterfall
                    df period1_cols period2_cols top_n metric metric_filter
                  = let rows :=
                      map (WaterfallCalculator.driver period1_cols period2_cols
                                                      (fun m => m))
                          (filter (selected metric_filter) df) in
                    let top :=
                      WaterfallCalculator.nlargest
                        top_n (fun d => Qabs (WaterfallCalculator.movement d)) rows in
                    WaterfallCalculator.build
                      "Period 1" "Period 2"
                      (WaterfallCalculator.total1 rows)
                      (WaterfallCalculator.total2 rows) top
                      (Py.sum (map WaterfallCalculator.movement
                                   (WaterfallCalculator.not_in top rows)))).
  { unfold WaterfallCalculator.calculate_waterfall, selected.
    destruct metric_filter as [[| c f] |]; reflexivity. }
  rewrite Hsame in Hw. cbv zeta in Hw.
  set (rows := map (WaterfallCalculator.driver period1_cols period2_cols (fun m => m))
                   (filter (selected metric_filter) df)) in *.
  set (key := fun d => Qabs (WaterfallCalculator.movement d)) in *.
  destruct (build_inv _ _ _ _ _ _ _ Hw) as (Hv & _ & Hc & _).
  assert (Ev : driver_values w
               = map WaterfallCalculator.impact
                     (WaterfallCalculator.nlargest top_n key rows)).
  { unfold driver_values. rewrite Hv, Hc. cbn [app tl].
    rewrite <- (length_map WaterfallCalculator.impact
                           (WaterfallCalculator.nlargest top_n key rows)).
    apply firstn_length_app. }
  rewrite Ev.
  set (d := WaterfallCalculator.driver period1_cols period2_cols (fun m => m) r).
  assert (Hd : In d rows).
  { unfold rows, d. apply in_map. apply filter_In. now split. }
  destruct (nlargest_dominates (n := top_n) key rows d Hd) as [Hin | Hle].
  - left. change (WaterfallCalculator.row_sum period2_cols r
                  - WaterfallCalculator.row_sum period1_cols r)
      with (WaterfallCalculator.impact d).
    now apply in_map.
  - right. apply Forall_forall. intros v Hv'.
    apply in_map_iff in Hv'. destruct Hv' as (t & <- & Ht).
    pose proof (Hle t Ht) as H. unfold key in H.
    rewrite (raw_impact df period1_cols period2_cols (selected metric_filter) t).
    + exact H.
    + eapply nlargest_subset. exact Ht.
Qed.

Lemma calculate_waterfall_shows_largest_movers_witness :
  exists w r,
    WaterfallCalculator.calculate_waterfall
      half_cent_statement ["Jan"] ["Feb"] 1 "revenue" (Some "Revenue") = Py.Ok w
    /\ In r half_cent_statement
    /\ (In (WaterfallCalculator.row_sum ["Feb"] r
            - WaterfallCalculator.row_sum ["Jan"] r) (driver_values w)
        \/ Forall (fun v =>
                     Qabs (WaterfallCalculator.row_sum ["Feb"] r
                           - WaterfallCalculator.row_sum ["Jan"] r) <= Qabs v)
                  (driver_values w)).
Proof.
  eexists. exists (hd (WaterfallCalculator.Build_Row 0 None AccountMapper.PyNone
                         EmptyString []) half_cent_statement).
  split; [reflexivity |]. split; [simpl; left; reflexivity |].
  apply (calculate_waterfall_shows_largest_movers
           half_cent_statement ["Jan"] ["Feb"] 1 "revenue" (Some "Revenue")
           _ _ eq_refl).
  - simpl. left. reflexivity.
  - reflexivity.
Defined.

(** ** Header detection *)

Section HeaderScan.
Import PLParser.
Variable str_num : Q -> string.

Lemma row_score_nonneg (row : list cell) : 0 <= row_score str_num row.
Proof.
  unfold row_score.
  assert (H1 : 0 <= inject_Z (Z.of_nat (text_count row))).
  { change 0 with (inject_Z 0). rewrite <- Zle_Qle. lia. }
  assert (H2 : 0 <= inject_Z (Z.of_nat (keyword_matches str_num row))).
  { change 0 with (inject_Z 0). rewrite <- Zle_Qle. lia. }
  lra.
Qed.

Lemma scan_spec (rows : list (list cell)) (idx : nat) (best : nat * Q) :
  (scan str_num idx rows best = best
   /\ forall row, In row rows -> row_score str_num row <= snd best)
  \/ exists k row,
      nth_error rows k = Some row
      /\ scan str_num idx rows best = ((idx + k)%nat, row_score str_num row)
      /\ snd best < row_score str_num row
      /\ (forall j row', (j < k)%nat -> nth_error rows j = Some row' ->
                         row_score str_num row' < row_score str_num row)
      /\ (forall row', In row' rows ->
                       row_score str_num row' <= row_score str_num row).
Proof.
  revert idx best.
  induction rows as [| row rows IH]; intros idx best; cbn [scan].
  - left. split; [reflexivity | intros row []].
  - cbv zeta.
    destruct (Py.gtb (row_score str_num row) (snd best)) eqn:G.
    + apply gtb_true in G.
      destruct (IH (S idx) (idx, row_score str_num row))
        as [[E H] | (k & rk & Hk & E & Hlt & Hbefore & Hall)].
      * right. exists 0%nat, row. cbn [nth_error snd] in *.
        rewrite E, Nat.add_0_r.
        split; [reflexivity |]. split; [reflexivity |]. split; [exact G |].
        split; [intros j row' Hj; lia |].
        intros row' [<- | Hin]; [apply Qle_refl | now apply H].
      * right. exists (S k), rk. cbn [nth_error snd] in *.
        rewrite E, Nat.add_succ_r.
        split; [exact Hk |]. split; [reflexivity |].
        split; [now apply Qlt_trans with (row_score str_num row) |].
        split.
        -- intros [| j] row' Hj Hn; cbn [nth_error] in Hn.
           ++ injection Hn as <-. exact Hlt.
           ++ apply (Hbefore j row'); [lia | exact Hn].
        -- intros row' [<- | Hin]; [now apply Qlt_le_weak | now apply Hall].
    + apply gtb_false in G.
      destruct (IH (S idx) best)
        as [[E H] | (k & rk & Hk & E & Hlt & Hbefore & Hall)].
      * left. split; [exact E |].
        intros row' [<- | Hin]; [exact G | now apply H].
      * right. exists (S k), rk. cbn [nth_error].
        rewrite E, Nat.add_succ_r.
        split; [exact Hk |]. split; [reflexivity |]. split; [exact Hlt |].
        split.
        -- intros [| j] row' Hj Hn; cbn [nth_error] in Hn.
           ++ injection Hn as <-.
              now apply Qle_lt_trans with (snd best).
           ++ apply (Hbefore j row'); [lia | exact Hn].
        -- intros row' [<- | Hin]; [| now apply Hall].
           apply Qlt_le_weak. now apply Qle_lt_trans with (snd best).
Qed.

Lemma nth_error_firstn_some {A : Type} (n j : nat) (l : list A) (x : A) :
  nth_error (firstn n l) j = Some x <-> (j < n)%nat /\ nth_error l j = Some x.
Proof.
  revert j l. induction n as [| n IH]; intros j l; cbn [firstn].
  - split; [destruct j; discriminate | intros [H _]; lia].
  - destruct l as [| y l]; cbn [firstn].
    + split; [destruct j; discriminate | intros [_ H]; destruct j; discriminate].
    + destruct j as [| j]; cbn [nth_error].
      * split; [intros H; split; [lia | exact H] | now intros [_ H]].
      * rewrite IH. split; intros [H1 H2]; (split; [lia | exact H2]).
Qed.
End HeaderScan.

(** The detected header row is the first of the highest-scoring rows among
    the first fifteen: it lies within those rows (row 0 when the frame is
    empty or every score is zero), no row among the first fifteen scores
    higher, and every row before it scores strictly lower. *)
Theorem detect_header_row_first_best
        (str_num : Q -> string) (df : list (list PLParser.cell)) :
  let r := PLParser._detect_header_row str_num df in
  (r < 15)%nat
  /\ (r = 0%nat \/ (r < List.length df)%nat)
  /\ forall row_r,
      nth_error df r = Some row_r ->
      (forall j row, (j < 15)%nat -> nth_error df j = Some row ->
                     PLParser.row_score str_num row
                     <= PLParser.row_score str_num row_r)
      /\ (forall j row, (j < r)%nat -> nth_error df j = Some row ->
                        PLParser.row_score str_num row
                        < PLParser.row_score str_num row_r).
Proof.
  cbv zeta. unfold PLParser._detect_header_row.
  destruct (scan_spec str_num (firstn 15 df) 0 (0%nat, 0))
    as [[E H] | (k & rk & Hk & E & Hlt & Hbefore & Hall)]; rewrite E;
    cbn [fst snd Nat.add] in *.
  - split; [lia |]. split; [now left |].
    intros row_r Hr. split; [| intros j row Hj; lia].
    intros j row Hj Hn.
    apply Qle_trans with 0; [| apply row_score_nonneg].
    apply H. eapply nth_error_In. apply nth_error_firstn_some. split; eassumption.
  - apply nth_error_firstn_some in Hk. destruct Hk as [Hk15 Hk].
    split; [exact Hk15 |]. split.
    { right. apply nth_error_Some. rewrite Hk. discriminate. }
    intros row_r Hr. rewrite Hk in Hr. injection Hr as <-. split.
    + intros j row Hj Hn. apply Hall.
      eapply nth_error_In. apply nth_error_firstn_some. split; eassumption.
    + intros j row Hj Hn. apply (Hbefore j row Hj).
      apply nth_error_firstn_some. split; [lia | exact Hn].
Qed.

(** ** Choice of the period columns *)

Section PeriodChoice.
Import AnalysisRouter.
Variable value_cols : list string.
Variable date_cols : list string.
Variable first_row : option (Py.dict (option string)).
Variable request : PeriodRanges.

Lemma select_column_cases (acc : list string * list string) (c : string) :
  (select_column value_cols date_cols first_row request acc c
   = (fst acc ++ [c], snd acc)
   /\ chosen_for_period1 value_cols date_cols first_row request c
   /\ ~ chosen_for_period2 value_cols date_cols first_row request c)
  \/ (select_column value_cols date_cols first_row request acc c
      = (fst acc, snd acc ++ [c])
      /\ ~ chosen_for_period1 value_cols date_cols first_row request c
      /\ chosen_for_period2 value_cols date_cols first_row request c)
  \/ (select_column value_cols date_cols first_row request acc c = acc
      /\ ~ chosen_for_period1 value_cols date_cols first_row request c
      /\ ~ chosen_for_period2 value_cols date_cols first_row request c).
Proof.
  unfold select_column, chosen_for_period1, chosen_for_period2, judged_by.
  destruct (period_value date_cols first_row (index_of c value_cols)) as [v |].
  - destruct (String.eqb v EmptyString) eqn:E; cbn [negb].
    + apply String.eqb_eq in E. right. right. destruct acc.
      split; [reflexivity |].
      split; intros (v' & [[= <-] Hne] & _); contradiction.
    + apply String.eqb_neq in E.
      destruct (in_range (period1_start request) (period1_end request) v) eqn:R1.
      * left. split; [reflexivity |]. split; [exists v; auto |].
        intros (v' & [[= <-] _] & R & _). congruence.
      * destruct (in_range (period2_start request) (period2_end request) v) eqn:R2.
        -- right. left. split; [reflexivity |]. split; [| exists v; auto].
           intros (v' & [[= <-] _] & R). congruence.
        -- right. right. destruct acc. split; [reflexivity |].
           split; [intros (v' & [[= <-] _] & R) | intros (v' & [[= <-] _] & _ & R)];
             congruence.
  - right. right. destruct acc. split; [reflexivity |].
    split; intros (v & [H _] & _); discriminate.
Qed.

Lemma fold_select (cols : list string) (acc : list string * list string) :
  let r := fold_left (select_column value_cols date_cols first_row request) cols acc in
  (forall c, In c (fst r) <->
             In c (fst acc)
             \/ (In c cols
                 /\ chosen_for_period1 value_cols date_cols first_row request c))
  /\ (forall c, In c (snd r) <->
                In c (snd acc)
                \/ (In c cols
                    /\ chosen_for_period2 value_cols date_cols first_row request c)).
Proof.
  cbv zeta. revert acc.
  induction cols as [| a cols IH]; intros acc; cbn [fold_left].
  - split; intros c; cbn [In]; tauto.
  - destruct (IH (select_column value_cols date_cols first_row request acc a))
      as [IH1 IH2].
    destruct (select_column_cases acc a) as [(E & A1 & A2) | [(E & A1 & A2) | (E & A1 & A2)]];
      rewrite E in IH1, IH2 |- *; cbn [fst snd] in IH1, IH2;
      split; intros c; rewrite ?IH1, ?IH2, ?in_app_iff; cbn [In];
      (split; [intros H | intros H]);
      repeat match goal with
             | H : _ \/ _ |- _ => destruct H
             | H : _ /\ _ |- _ => destruct H
             | H : False |- _ => destruct H
             end;
      subst; try contradiction; auto 6.
Qed.
End PeriodChoice.

(** The period columns handed to the engine. A value column goes to
    period 1 exactly when the first row's value of the date column at the
    same position is non-empty and lies in the first range, and to period 2
    exactly when it lies in the second range and not in the first; no column
    is in both lists, and a value column that has no date column at its
    position is in neither. With no date column at all, or with a frame
    without rows, both lists are empty and the request is answered 400. *)
Theorem period_columns_selection
        (df : list WaterfallCalculator.Row)
        (value_cols date_cols : list string)
        (first_row : option (Py.dict (option string)))
        (request : AnalysisRouter.PeriodRanges) (top_n : nat) (metric : string) :
  let cols := AnalysisRouter.period_columns value_cols date_cols first_row request in
  (forall c, In c (fst cols) <->
             In c value_cols
             /\ chosen_for_period1 value_cols date_cols first_row request c)
  /\ (forall c, In c (snd cols) <->
                In c value_cols
                /\ chosen_for_period2 value_cols date_cols first_row request c)
  /\ (forall c, In c (fst cols) -> ~ In c (snd cols))
  /\ (forall c, (List.length date_cols
                 <= AnalysisRouter.index_of c value_cols)%nat ->
                ~ In c (fst cols) /\ ~ In c (snd cols))
  /\ (date_cols = [] \/ first_row = None ->
      cols = ([], [])
      /\ AnalysisRouter.pl_waterfall
           df value_cols date_cols first_row request top_n metric
         = inl {| AnalysisRouter.status_code := 400;
                  AnalysisRouter.detail := "No data found for specified periods" |}).
Proof.
  cbv zeta.
  destruct (fold_select value_cols date_cols first_row request value_cols ([], []))
    as [H1 H2].
  cbv zeta in H1, H2. fold (AnalysisRouter.period_columns
                              value_cols date_cols first_row request) in H1, H2.
  set (cols := AnalysisRouter.period_columns value_cols date_cols first_row request)
    in *.
  assert (P1 : forall c,
             In c (fst cols) <->
             In c value_cols
             /\ chosen_for_period1 value_cols date_cols first_row request c).
  { intros c. rewrite H1. cbn [fst In]. tauto. }
  assert (P2 : forall c,
             In c (snd cols) <->
             In c value_cols
             /\ chosen_for_period2 value_cols date_cols first_row request c).
  { intros c. rewrite H2. cbn [snd In]. tauto. }
  clear H1 H2.
  assert (Hnone : forall c,
             (forall v, ~ judged_by value_cols date_cols first_row c v) ->
             ~ In c (fst cols) /\ ~ In c (snd cols)).
  { intros c Hno. split; intros Hin.
    - apply P1 in Hin. destruct Hin as (_ & v & J & _). exact (Hno v J).
    - apply P2 in Hin. destruct Hin as (_ & v & J & _). exact (Hno v J). }
  split; [exact P1 |]. split; [exact P2 |]. split; [| split].
  - intros c Hc1 Hc2. apply P1 in Hc1. apply P2 in Hc2.
    destruct Hc1 as (_ & v & [J _] & R). destruct Hc2 as (_ & v' & [J' _] & R' & _).
    congruence.
  - intros c Hlen. apply Hnone. intros v [J _].
    unfold AnalysisRouter.period_value in J.
    apply nth_error_None in Hlen. rewrite Hlen in J. discriminate.
  - intros Hempty.
    assert (E : cols = ([], [])).
    { assert (Hno : forall c v, ~ judged_by value_cols date_cols first_row c v).
      { intros c v [J _]. unfold AnalysisRouter.period_value in J.
        destruct Hempty as [-> | ->].
        - destruct (AnalysisRouter.index_of c value_cols); discriminate.
        - destruct (nth_error date_cols _); discriminate. }
      destruct cols as [[| a p1] [| b p2]]; [reflexivity | | |]; exfalso.
      - destruct (Hnone b (Hno b)) as [_ H]. apply H. now left.
      - destruct (Hnone a (Hno a)) as [H _]. apply H. now left.
      - destruct (Hnone a (Hno a)) as [H _]. apply H. now left. }
    split; [exact E |].
    unfold AnalysisRouter.pl_waterfall. fold cols. rewrite E. reflexivity.
Qed.

Lemma period_columns_selection_witness :
  AnalysisRouter.pl_waterfall
    half_cent_statement ["Jan"; "Feb"] [] (Some january_row) quarter_request 5
    "revenue"
  = inl {| AnalysisRouter.status_code := 400;
           AnalysisRouter.detail := "No data found for specified periods" |}.
Proof.
  apply (proj2 (proj2 (proj2 (proj2
           (period_columns_selection
              half_cent_statement ["Jan"; "Feb"] [] (Some january_row)
              quarter_request 5 "revenue"))))).
  left. reflexivity.
Defined.

(** ** A runway that rounds to zero *)

Lemma round_half_even_small (y : Q) :
  - (1 # 2) < y -> y < 1 # 2 -> Py.round_half_even y = 0%Z.
Proof.
  intros Hlo Hhi. unfold Py.round_half_even.
  pose proof (Qfloor_le y) as Hf.
  pose proof (Qlt_floor y) as Hc.
  assert (Hn : (Qfloor y = 0 \/ Qfloor y = -1)%Z).
  { assert (H1 : (Qfloor y < 1)%Z).
    { rewrite Zlt_Qlt. change (inject_Z 1) with 1. lra. }
    assert (H2 : (-2 < Qfloor y)%Z).
    { rewrite Zlt_Qlt. rewrite inject_Z_plus in Hc.
      change (inject_Z 1) with 1 in Hc. change (inject_Z (-2)) with (-2). lra. }
    lia. }
  destruct Hn as [-> | ->].
  - change (inject_Z 0) with 0.
    assert (E : Py.ltb (y - 0) (1 # 2) = true) by (apply ltb_true; lra).
    now rewrite E.
  - change (inject_Z (-1)) with (-1).
    assert (E1 : Py.ltb (y - -1) (1 # 2) = false) by (apply ltb_false; lra).
    assert (E2 : Py.ltb (1 # 2) (y - -1) = true) by (apply ltb_true; lra).
    now rewrite E1, E2.
Qed.

Lemma round1_small (x : Q) :
  - (1 # 20) < x -> x < 1 # 20 -> Py.round x 1 == 0.
Proof.
  intros Hlo Hhi. unfold Py.round.
  change (10 ^ Z.of_nat 1)%Z with 10%Z.
  rewrite round_half_even_small.
  - reflexivity.
  - change (inject_Z 10) with 10. lra.
  - change (inject_Z 10) with 10. lra.
Qed.

(** When the cash balance is less than a twentieth of the average net
    burn, the runway is rated critical with high urgency, yet its
    [months_remaining] rounds to zero, which the insight generator reads as
    absent: no runway insight is produced. *)
Theorem no_runway_insight_when_months_round_to_zero
        (format_1f : Py.float -> string) (today : Calendar.DateTime)
        (cash burn : Q) (r : StartupMetricsCalculator.RunwayMetrics) :
  0 < burn ->
  - (1 # 20) < cash / burn ->
  cash / burn < 1 # 20 ->
  StartupMetricsCalculator._calculate_runway today cash burn = Py.Ok r ->
  StartupMetricsCalculator.status r = "critical"
  /\ StartupMetricsCalculator.urgency r = "high"
  /\ (exists m, StartupMetricsCalculator.months_remaining r = Py.Finite m /\ m == 0)
  /\ StartupMetricsCalculator.runway_insights format_1f (Some r) = [].
Proof.
  intros Hburn Hlo Hhi.
  unfold StartupMetricsCalculator._calculate_runway.
  assert (Hle : Py.leb burn 0 = false).
  { unfold Py.leb. destruct (Qle_bool burn 0) eqn:E; [| reflexivity].
    apply Qle_bool_iff in E. lra. }
  rewrite Hle. cbv zeta.
  destruct (Calendar.add_months today (Py.int (cash / burn))) as [z | e];
    cbn [Py.bind]; [| discriminate].
  assert (L6 : Py.ltb (cash / burn) 6 = true) by (apply ltb_true; lra).
  rewrite L6. cbn [fst snd]. intros [= <-].
  cbn [StartupMetricsCalculator.status StartupMetricsCalculator.urgency
         StartupMetricsCalculator.months_remaining].
  pose proof (round1_small (cash / burn) Hlo Hhi) as Hz.
  split; [reflexivity |]. split; [reflexivity |].
  split; [eexists; split; [reflexivity | exact Hz] |].
  unfold StartupMetricsCalculator.runway_insights.
  cbn [StartupMetricsCalculator.months_remaining Py.float_truthy].
  apply eqb_true in Hz. now rewrite Hz.
Qed.

Lemma no_runway_insight_when_months_round_to_zero_witness :
  exists r,
    StartupMetricsCalculator._calculate_runway a_clock_reading 1 100 = Py.Ok r
    /\ StartupMetricsCalculator.status r = "critical"
    /\ StartupMetricsCalculator.runway_insights format_stub (Some r) = [].
Proof.
  eexists. split; [reflexivity |].
  destruct (no_runway_insight_when_months_round_to_zero
              format_stub a_clock_reading 1 100 _
              ltac:(reflexivity) ltac:(reflexivity) ltac:(reflexivity) eq_refl)
    as (H1 & _ & _ & H2).
  split; [exact H1 | exact H2].
Defined.

(** ** Subtotal rows and the analysis request *)

Section SplitRows.
Context {A : Type} (account_of : A -> option string).

Lemma detect_from_ge (idx : nat) (df : list A) (i : nat) :
  In i (PLParser.detect_from account_of idx df) -> (idx <= i)%nat.
Proof.
  revert idx. induction df as [| row t IH]; intros idx; cbn [PLParser.detect_from].
  - intros [].
  - destruct (PLParser.subtotal_name _).
    + intros [<- | H]; [lia | apply IH in H; lia].
    + intros H. apply IH in H. lia.
Qed.

Lemma isin_below (idx : nat) (df : list A) :
  PLParser.index_isin (PLParser.detect_from account_of (S idx) df) idx = false.
Proof.
  unfold PLParser.index_isin.
  destruct (existsb _ _) eqn:E; [| reflexivity].
  apply existsb_exists in E. destruct E as (i & Hi & Ei).
  apply Nat.eqb_eq in Ei. subst i. apply detect_from_ge in Hi. lia.
Qed.

Lemma split_from (idx : nat) (df : list A) :
  let labels := PLParser.detect_from account_of idx df in
  let labelled := combine (seq idx (List.length df)) df in
  let is_sub row :=
    PLParser.subtotal_name (Py.lower (PLParser.account_name (account_of row))) in
  map snd (filter (fun ir => negb (PLParser.index_isin labels (fst ir))) labelled)
  = filter (fun row => negb (is_sub row)) df
  /\ map snd (filter (fun ir => PLParser.index_isin labels (fst ir)) labelled)
     = filter is_sub df.
Proof.
  cbv zeta. revert idx.
  induction df as [| row t IH]; intros idx;
    cbn [PLParser.detect_from List.length seq combine filter map].
  - now split.
  - destruct (IH (S idx)) as [IH1 IH2].
    assert (Hext : forall (L : list nat) (f : bool -> bool),
               filter (fun ir => f (PLParser.index_isin (idx :: L) (fst ir)))
                      (combine (seq (S idx) (List.length t)) t)
               = filter (fun ir => f (PLParser.index_isin L (fst ir)))
                        (combine (seq (S idx) (List.length t)) t)).
    { intros L f. apply filter_ext_in. intros [i r] Hin.
      apply in_combine_l in Hin. apply in_seq in Hin. cbn [fst].
      unfold PLParser.index_isin. cbn [existsb].
      assert (E : (i =? idx)%nat = false) by (apply Nat.eqb_neq; lia).
      now rewrite E. }
    destruct (PLParser.subtotal_name _) eqn:Es; cbn [fst negb].
    + assert (E : PLParser.index_isin
                    (idx :: PLParser.detect_from account_of (S idx) t) idx = true).
      { unfold PLParser.index_isin. cbn [existsb]. now rewrite Nat.eqb_refl. }
      rewrite E. cbn [negb map snd].
      rewrite (Hext _ negb), (Hext _ (fun b => b)), IH1, IH2. now split.
    + rewrite isin_below. cbn [negb map snd]. rewrite IH1, IH2. now split.
Qed.

Lemma split_rows_by_name (df : list A) :
  let is_sub row :=
    PLParser.subtotal_name (Py.lower (PLParser.account_name (account_of row))) in
  PLParser.split_rows account_of df
  = (filter (fun row => negb (is_sub row)) df, filter is_sub df).
Proof.
  cbv zeta. unfold PLParser.split_rows, PLParser._detect_subtotal_rows.
  cbv zeta. destruct (split_from 0 df) as [H1 H2]. cbv zeta in H1, H2.
  now rewrite H1, H2.
Qed.
End SplitRows.

Lemma matching_total_filter (p : string -> bool)
      (df : list StartupMetricsCalculator.Row) (period : string) :
  matching_total p (filter (fun row => negb (is_subtotal_row row)) df) period
  = matching_total (fun s => andb (p s) (negb (PLParser.subtotal_name s))) df period.
Proof.
  unfold matching_total. f_equal.
  induction df as [| row t IH]; cbn [filter flat_map]; [reflexivity |].
  assert (E : is_subtotal_row row
              = PLParser.subtotal_name
                  (Py.lower (StartupMetricsCalculator.account_str row))).
  { unfold is_subtotal_row, PLParser.account_name,
      StartupMetricsCalculator.account_str. reflexivity. }
  rewrite E.
  destruct (PLParser.subtotal_name _); cbn [negb flat_map].
  - rewrite andb_false_r. exact IH.
  - rewrite andb_true_r, IH. reflexivity.
Qed.

(** The analysis request computes its metrics on the line items only. The
    two lists of step 9 split the frame by name: a row is a subtotal exactly
    when its lower-cased account name contains a subtotal keyword. For every
    value column, the revenue and expense totals of a returned result are
    the sums over the rows that match the revenue (respectively expense)
    heuristic and are not subtotals; and without a cash balance the request
    is never answered 500. *)
Theorem analyze_ignores_subtotal_rows
        (df : list StartupMetricsCalculator.Row) (value_columns : list string)
        (float_pow : Q -> Q -> Q) (format_1f : Py.float -> string)
        (str_float : Q -> string) (today : Calendar.DateTime) :
  let analyze :=
    StartupAnalyticsRouter.analyze_startup_metrics
      df value_columns float_pow format_1f str_float today in
  PLParser.split_rows StartupMetricsCalculator.account df
  = (filter (fun row => negb (is_subtotal_row row)) df, filter is_subtotal_row df)
  /\ (exists m, analyze None = inr m)
  /\ (forall cash m period,
         analyze cash = inr m ->
         In period value_columns ->
         exists agg r e,
           StartupMetricsCalculator.m_aggregates m = Some agg
           /\ Py.get (StartupMetricsCalculator.revenue_by_period agg) period = Some r
           /\ Py.get (StartupMetricsCalculator.expenses_by_period agg) period = Some e
           /\ r == matching_total
                     (fun s => andb (StartupMetricsCalculator._is_revenue_account s)
                                    (negb (PLParser.subtotal_name s)))
                     df period
           /\ e == matching_total
                     (fun s => andb (expense_only s)
                                    (negb (PLParser.subtotal_name s)))
                     df period).
Proof.
  cbv zeta.
  pose proof (split_rows_by_name StartupMetricsCalculator.account df) as Hsplit.
  cbv zeta in Hsplit. fold is_subtotal_row in Hsplit.
  change (fun row => PLParser.subtotal_name
                       (Py.lower (PLParser.account_name
                                    (StartupMetricsCalculator.account row))))
    with is_subtotal_row in Hsplit.
  split; [exact Hsplit |].
  unfold StartupAnalyticsRouter.analyze_startup_metrics. cbv zeta.
  rewrite Hsplit. cbn [fst].
  set (items := filter (fun row => negb (is_subtotal_row row)) df).
  split.
  - cbv beta iota zeta delta [StartupMetricsCalculator.calculate_all_metrics Py.bind].
    now eexists.
  - intros cash m period Hm Hin.
    destruct (StartupMetricsCalculator.calculate_all_metrics
                items value_columns float_pow format_1f str_float today cash)
      as [m' | e] eqn:E; [| discriminate].
    injection Hm as <-.
    assert (Hagg : StartupMetricsCalculator.m_aggregates m'
                   = StartupMetricsCalculator._calculate_aggregates
                       items value_columns).
    { revert E.
      cbv beta zeta delta [StartupMetricsCalculator.calculate_all_metrics].
      match goal with
      | |- Py.bind ?rw _ = _ -> _ => destruct rw as [rw' | e']
      end; cbn [Py.bind]; [| discriminate].
      intros [= <-]. reflexivity. }
    rewrite Hagg.
    unfold StartupMetricsCalculator._calculate_aggregates.
    destruct value_columns as [| c cols] eqn:Ec; [contradiction |].
    rewrite <- Ec in *.
    eexists. exists (fst (StartupMetricsCalculator.period_totals items period)).
    exists (snd (StartupMetricsCalculator.period_totals items period)).
    split; [reflexivity |].
    match goal with
    | |- context [fold_left _ value_columns ?a] =>
        destruct (fold_record_get items value_columns a period (or_introl Hin))
          as (Hr & He & _)
    end.
    destruct (period_totals_spec items period) as [Sr Se].
    split; [exact Hr |]. split; [exact He |].
    unfold items in Sr, Se. rewrite matching_total_filter in Sr, Se.
    split; [exact Sr | exact Se].
Qed.

Lemma analyze_ignores_subtotal_rows_witness :
  exists m agg r,
    StartupAnalyticsRouter.analyze_startup_metrics
      statement_with_total ["2024-01"] pow_stub format_stub str_stub
      a_clock_reading None = inr m
    /\ StartupMetricsCalculator.m_aggregates m = Some agg
    /\ Py.get (StartupMetricsCalculator.revenue_by_period agg) "2024-01" = Some r
    /\ r == 500.
Proof.
  eexists.
  destruct (proj2 (proj2 (analyze_ignores_subtotal_rows
                            statement_with_total ["2024-01"]
                            pow_stub format_stub str_stub a_clock_reading))
                  None _ "2024-01" eq_refl ltac:(simpl; left; reflexivity))
    as (agg & r & e & Ha & Hr & _ & Hv & _).
  exists agg, r. split; [reflexivity |]. split; [exact Ha |]. split; [exact Hr |].
  rewrite Hv. reflexivity.
Defined.
